(** * Expo-RAG: the similarity-augmented retrieval and analysis pipeline

    A shallow embedding of [src/lib/api.ts], [src/lib/vectorStore.ts] and of
    the analysis logic of [src/app/(tabs)/index.tsx].

    Conventions of the embedding.
    - JavaScript numbers are modelled by rationals ([Q]) with exact
      arithmetic; [NaN] is [None] at the places where the code tests for
      it.  Non-finite doubles and rounding are outside the model.
    - Strings are [string], sequences of bytes: the case conversions act
      on ASCII letters, white space is the ASCII part of the class [\s],
      and [length] agrees with JavaScript's on ASCII text.
    - [null], [undefined] and missing properties are [None].
    - A count such as [limit], [k] or [retries] is a [nat].
    - Every asynchronous function is a computation in the monad [M]: it
      threads a [World] (the state of the screen, the two tables, the
      module variable [embeddings], the log of what leaves the process)
      and either returns or throws.  The answers of the external
      services and the readings of the clock are oracles of the world,
      indexed by the number of interactions made so far.
    - Time stamps are the milliseconds behind [toISOString], an encoding
      that preserves order. *)

From Stdlib Require Import List String Ascii Bool Arith ZArith QArith Lia.
From Stdlib Require Import Sorting.Sorted DecimalString.
Import ListNotations.

Set Implicit Arguments.
Set Warnings "-register-all".

Local Open Scope string_scope.
Local Open Scope Z_scope.

(** ** JavaScript built-ins used by the sources *)

Module Js.

(** The ASCII members of the regular-expression class [\s]. *)
Definition is_ws (c : ascii) : bool :=
  let n := nat_of_ascii c in
  ((9 <=? n)%nat && (n <=? 13)%nat) || (n =? 32)%nat.

Definition lower_char (c : ascii) : ascii :=
  let n := nat_of_ascii c in
  if ((65 <=? n)%nat && (n <=? 90)%nat) then ascii_of_nat (n + 32) else c.

Definition upper_char (c : ascii) : ascii :=
  let n := nat_of_ascii c in
  if ((97 <=? n)%nat && (n <=? 122)%nat) then ascii_of_nat (n - 32) else c.

Fixpoint map_string (f : ascii -> ascii) (s : string) : string :=
  match s with
  | EmptyString => EmptyString
  | String c t => String (f c) (map_string f t)
  end.

Definition toLowerCase : string -> string := map_string lower_char.
Definition toUpperCase : string -> string := map_string upper_char.

Fixpoint trimStart (s : string) : string :=
  match s with
  | String c t => if is_ws c then trimStart t else s
  | EmptyString => EmptyString
  end.

Fixpoint rev_string (s acc : string) : string :=
  match s with
  | EmptyString => acc
  | String c t => rev_string t (String c acc)
  end.

Definition trimEnd (s : string) : string :=
  rev_string (trimStart (rev_string s "")) "".

Definition trim (s : string) : string := trimEnd (trimStart s).

(** [s.includes(sub)]. *)
Fixpoint includes (s sub : string) : bool :=
  prefix sub s ||
  match s with
  | EmptyString => false
  | String _ t => includes t sub
  end.

(** [s.split(/\s+/)]: [cur] is the piece being read (reversed), [gap] tells
    that the last character read was white space. *)
Fixpoint split_ws_from (s : string) (cur : string) (gap : bool) : list string :=
  match s with
  | EmptyString => [rev_string cur ""]
  | String c t =>
      if is_ws c then
        if gap then split_ws_from t cur true
        else rev_string cur "" :: split_ws_from t "" true
      else split_ws_from t (String c cur) false
  end.

Definition split_ws (s : string) : list string := split_ws_from s "" false.

(** [s.split(c)] for a one-character separator. *)
Fixpoint split_char_from (sep : ascii) (s : string) (cur : string) : list string :=
  match s with
  | EmptyString => [rev_string cur ""]
  | String c t =>
      if Ascii.eqb c sep then rev_string cur "" :: split_char_from sep t ""
      else split_char_from sep t (String c cur)
  end.

Definition split_char (sep : ascii) (s : string) : list string :=
  split_char_from sep s "".

(** [s.replace(pat, "")]: the first occurrence of [pat] is removed. *)
Fixpoint drop (n : nat) (s : string) : string :=
  match n, s with
  | O, _ => s
  | S n', String _ t => drop n' t
  | S _, EmptyString => EmptyString
  end.

Fixpoint remove_first (pat s : string) : string :=
  if prefix pat s then drop (String.length pat) s
  else match s with
       | EmptyString => EmptyString
       | String c t => String c (remove_first pat t)
       end.

Fixpoint join (sep : string) (l : list string) : string :=
  match l with
  | [] => ""
  | [x] => x
  | x :: t => x ++ sep ++ join sep t
  end.

(** [a || d] on strings: [null], [undefined] and the empty string are
    falsy. *)
Definition or_str (a : option string) (d : string) : string :=
  match a with
  | Some s => if String.eqb s "" then d else s
  | None => d
  end.

Definition truthy_str (a : option string) : bool :=
  match a with
  | Some s => negb (String.eqb s "")
  | None => false
  end.

(** *** Numbers *)

Definition digit_of (radix : Z) (c : ascii) : option Z :=
  let n := Z.of_nat (nat_of_ascii c) in
  let v := if (48 <=? n) && (n <=? 57) then n - 48
           else if (97 <=? n) && (n <=? 122) then n - 87
           else if (65 <=? n) && (n <=? 90) then n - 55
           else radix in
  if v <? radix then Some v else None.

(** The longest run of digits at the head of [s]: its value, its length
    and the rest. *)
Fixpoint read_digits (radix : Z) (s : string) (acc : Z) (len : nat)
  : Z * nat * string :=
  match s with
  | String c t =>
      match digit_of radix c with
      | Some d => read_digits radix t (acc * radix + d) (S len)
      | None => (acc, len, s)
      end
  | EmptyString => (acc, len, s)
  end.

Definition read_sign (s : string) : bool * string :=
  match s with
  | String "-" t => (true, t)
  | String "+" t => (false, t)
  | _ => (false, s)
  end.

Definition apply_sign (neg : bool) (z : Z) : Z := if neg then - z else z.

(** [Number.parseInt(s)] without a radix; [None] is [NaN]. *)
Definition parseInt (s : string) : option Z :=
  let '(neg, s1) := read_sign (trimStart s) in
  let '(radix, s2) :=
    match s1 with
    | String "0" (String "x" t) => (16, t)
    | String "0" (String "X" t) => (16, t)
    | _ => (10, s1)
    end in
  let '(v, len, _) := read_digits radix s2 0 0 in
  match len with
  | O => None
  | S _ => Some (apply_sign neg v)
  end.

Definition pow10 (e : Z) : Q :=
  if 0 <=? e then inject_Z (10 ^ e) else / inject_Z (10 ^ (- e)).

(** [Number.parseFloat(s)]: the longest prefix that is a decimal literal;
    [None] is [NaN].  The literal [Infinity] is outside the model. *)
Definition parseFloat (s : string) : option Q :=
  let '(neg, s1) := read_sign (trimStart s) in
  let '(ip, ilen, s2) := read_digits 10 s1 0 0 in
  let '(m, flen, s3) :=
    match s2 with
    | String "." t => read_digits 10 t ip 0
    | _ => (ip, O, s2)
    end in
  match ilen, flen with
  | O, O => None
  | _, _ =>
      let e :=
        match s3 with
        | String c t =>
            if Ascii.eqb c "e" || Ascii.eqb c "E" then
              let '(eneg, t1) := read_sign t in
              let '(ev, elen, _) := read_digits 10 t1 0 0 in
              match elen with
              | O => 0
              | S _ => apply_sign eneg ev
              end
            else 0
        | EmptyString => 0
        end in
      Some (inject_Z (apply_sign neg m) * pow10 (e - Z.of_nat flen))%Q
  end.

Definition Qltb (a b : Q) : bool := negb (Qle_bool b a).

Definition Qmin (a b : Q) : Q := if Qle_bool a b then a else b.
Definition Qmax (a b : Q) : Q := if Qle_bool a b then b else a.

(** [Math.min(...l)] and [Math.max(...l)] of a list with head [x]. *)
Definition min_list (x : Q) (l : list Q) : Q := fold_left Qmin l x.
Definition max_list (x : Q) (l : list Q) : Q := fold_left Qmax l x.

Definition string_of_N (n : N) : string :=
  NilZero.string_of_uint (N.to_uint n).

Definition string_of_nat (n : nat) : string := string_of_N (N.of_nat n).

Definition string_of_Z (z : Z) : string :=
  if z <? 0 then "-" ++ string_of_N (Z.to_N (- z)) else string_of_N (Z.to_N z).

Fixpoint zeros (n : nat) : string :=
  match n with
  | O => ""
  | S k => String "0" (zeros k)
  end.

(** [x.toFixed(d)]: the integer nearest to [|x| * 10^d], the larger one at a
    tie, printed with [d] decimals. *)
Definition toFixed (x : Q) (d : nat) : string :=
  let neg := Qltb x 0 in
  let a := if neg then Qopp x else x in
  let scale := 10 ^ Z.of_nat d in
  let den := Zpos (Qden a) in
  let n := (2 * Qnum a * scale + den) / (2 * den) in
  let ds := string_of_N (Z.to_N n) in
  let ds := zeros (S d - String.length ds) ++ ds in
  let k := (String.length ds - d)%nat in
  (if neg then "-" else "") ++
  substring 0 k ds ++
  match d with
  | O => ""
  | S _ => "." ++ substring k d ds
  end.

(** The stable sort behind [Array.prototype.sort(cmp)]; a comparator
    result of [None] ([NaN]) counts as [0], as in [SortCompare]. *)
Section Sort.
Variable A : Type.
Variable cmp : A -> A -> option Q.

Definition before (x y : A) : bool :=
  match cmp x y with
  | Some v => Qle_bool v 0
  | None => true
  end.

Fixpoint insert (x : A) (l : list A) : list A :=
  match l with
  | [] => [x]
  | y :: t => if before x y then x :: y :: t else y :: insert x t
  end.

Definition sort (l : list A) : list A := fold_right insert [] l.
End Sort.

(** Objects as lists of entries: [o[k]], [o[k] = v] and
    [Object.fromEntries].  The objects built this way are only looked up,
    so the order of their entries does not matter. *)
Definition obj_get (V : Type) (k : string) (o : list (string * V)) : option V :=
  option_map snd (find (fun kv => String.eqb k (fst kv)) o).

Fixpoint obj_set (V : Type) (k : string) (v : V) (o : list (string * V))
  : list (string * V) :=
  match o with
  | [] => [(k, v)]
  | (k', v') :: t =>
      if String.eqb k k' then (k, v) :: t else (k', v') :: obj_set k v t
  end.

Definition fromEntries (V : Type) (l : list (string * V)) : list (string * V) :=
  fold_left (fun o kv => obj_set (fst kv) (snd kv) o) l [].

Definition nl : string := String "010" "".

(** [l.slice(0, n)] for a count [n]. *)
Definition slice0 (A : Type) (n : nat) (l : list A) : list A := firstn n l.

End Js.

Import Js.

(** ** Data model *)

(** [interface HistoricalData]. *)
Record HistoricalData := {
  year : string;
  price : Q;
  currency : string;
}.

(** [interface SimilarProduct]. *)
Record SimilarProduct := {
  sp_hsn_code : string;
  sp_product_name : string;
  sp_similarity : Q;
  sp_countries : list string;
}.

(** [interface SimilarHistoricalData]. *)
Record SimilarHistoricalData := {
  shd_hsn_code : string;
  shd_product_name : string;
  shd_similarity : Q;
  shd_countries : list string;
  historicalData : list HistoricalData;
}.

(** The [metadata] column of a document; every property may be missing.
    [md_prices] and [md_currencies] are objects, kept as their entries. *)
Record Metadata := {
  md_hsn_code : option string;
  md_name : option string;
  md_country : option string;
  md_type : option string;
  md_description : option string;
  md_years : option (list string);
  md_prices : option (list (string * Q));
  md_currencies : option (list (string * string));
  md_created_at : option Z;
  md_updated_at : option Z;
}.

(** A row of the table [documents]. *)
Record Document := {
  doc_id : Z;
  doc_content : option string;
  doc_embedding : list Q;
  doc_hsn_code : option string;
  doc_country : option string;
  doc_metadata : option Metadata;
  doc_created_at : option Z;
  doc_updated_at : option Z;
}.

(** A row returned by the procedure [match_documents]. *)
Record MatchItem := {
  item_content : option string;
  item_metadata : option Metadata;
  item_similarity : Q;
  item_hsn_code : option string;
  item_country : option string;
}.

(** [interface VectorSimilarProduct]. *)
Record VectorSimilarProduct := {
  vsp_content : option string;
  vsp_metadata : option Metadata;
  vsp_similarity : Q;
  vsp_hsn_code : string;
  vsp_product_name : string;
  vsp_countries : list string;
}.

(** JSON values: the cells of the table [market_prices] and what
    [JSON.parse] returns.  An object is the list of its entries in
    property order. *)
Inductive JsValue :=
| JNull
| JBool (b : bool)
| JNum (q : Q)
| JStr (s : string)
| JArr (l : list JsValue)
| JObj (kvs : list (string * JsValue)).

Definition PriceRow := list (string * JsValue).

(** What a [throw] carries: an [Error] with its optional [cause], the error
    object of a store call, or an error raised by the runtime or by a
    client library ([TypeError], [SyntaxError], [AxiosError]). *)
Inductive Thrown :=
| JsError (message : string) (cause : option Thrown)
| PgError (code message : string)
| NativeError (name message : string).

(** [String(e)], as a template literal prints it. *)
Definition to_string (e : Thrown) : string :=
  match e with
  | JsError m _ => "Error: " ++ m
  | PgError _ _ => "[object Object]"
  | NativeError n m => n ++ ": " ++ m
  end.

Inductive Result (A : Type) :=
| Ok (a : A)
| Throw (e : Thrown).
Arguments Throw {A} e.

(** The [{ data, error }] pair of a store call. *)
Record Reply (A : Type) := {
  data : option A;
  error : option Thrown;
}.

(** The log of what leaves the process. *)
Inductive Event :=
| EvEmbed (text : string)
| EvSleep (ms : Z)
| EvMatchDocuments (threshold : Q) (count : Z)
| EvSelectId (hsn country : string)
| EvUpdate (id : Z)
| EvInsert (hsn country : string)
| EvScan (exclude : option string)
| EvSelectPrices (code : option Z)
| EvGroq (max_tokens : Z) (prompt : string)
| EvAlert (title message : string).

(** The state of [PriceAnalyzerScreen] that [handleAnalyze] reads and
    sets. *)
Record Screen := {
  product : string;
  hsnCode : string;
  country : string;
  result : string;
  isLoading : bool;
  isLoadingSimilar : bool;
  ui_historicalData : list HistoricalData;
  useAI : bool;
  prediction : string;
  similarProducts : list SimilarProduct;
  similarHistoricalData : list SimilarHistoricalData;
  useEmbeddings : bool;
}.

Record World := {
  screen : Screen;
  documents : list Document;
  market_prices : list PriceRow;
  embeddings : bool;
  tick : nat;
  trace : list Event;
  hf_service : nat -> string -> Result (list Q);
  match_documents : nat -> Reply (list MatchItem);
  db_fault : nat -> option Thrown;
  groq_service : nat -> Result (option string);
  clock : nat -> Z;
}.

Definition with_documents (ds : list Document) (w : World) : World :=
  {| screen := screen w; documents := ds; market_prices := market_prices w;
     embeddings := embeddings w; tick := tick w; trace := trace w;
     hf_service := hf_service w; match_documents := match_documents w;
     db_fault := db_fault w; groq_service := groq_service w;
     clock := clock w |}.

Definition with_embeddings (b : bool) (w : World) : World :=
  {| screen := screen w; documents := documents w; market_prices := market_prices w;
     embeddings := b; tick := tick w; trace := trace w;
     hf_service := hf_service w; match_documents := match_documents w;
     db_fault := db_fault w; groq_service := groq_service w;
     clock := clock w |}.

Definition with_tick (n : nat) (w : World) : World :=
  {| screen := screen w; documents := documents w; market_prices := market_prices w;
     embeddings := embeddings w; tick := n; trace := trace w;
     hf_service := hf_service w; match_documents := match_documents w;
     db_fault := db_fault w; groq_service := groq_service w;
     clock := clock w |}.

Definition with_trace (t : list Event) (w : World) : World :=
  {| screen := screen w; documents := documents w; market_prices := market_prices w;
     embeddings := embeddings w; tick := tick w; trace := t;
     hf_service := hf_service w; match_documents := match_documents w;
     db_fault := db_fault w; groq_service := groq_service w;
     clock := clock w |}.

Definition with_screen (s : Screen) (w : World) : World :=
  {| screen := s; documents := documents w; market_prices := market_prices w;
     embeddings := embeddings w; tick := tick w; trace := trace w;
     hf_service := hf_service w; match_documents := match_documents w;
     db_fault := db_fault w; groq_service := groq_service w;
     clock := clock w |}.

(** ** The monad of asynchronous functions *)

Definition M (A : Type) : Type := World -> Result A * World.

Definition ret {A} (a : A) : M A := fun w => (Ok a, w).

Definition throw {A} (e : Thrown) : M A := fun w => (Throw e, w).

Definition bind {A B} (m : M A) (k : A -> M B) : M B :=
  fun w =>
    match m w with
    | (Ok a, w') => k a w'
    | (Throw e, w') => (Throw e, w')
    end.

(** [try { m } catch (e) { h e }]. *)
Definition try_catch {A} (m : M A) (h : Thrown -> M A) : M A :=
  fun w =>
    match m w with
    | (Ok a, w') => (Ok a, w')
    | (Throw e, w') => h e w'
    end.

Declare Scope async_scope.
Delimit Scope async_scope with async.
Notation "x <- m ;; k" := (bind m (fun x => k))
  (at level 100, m at next level, right associativity) : async_scope.
Notation "m ;; k" := (bind m (fun _ => k))
  (at level 100, right associativity) : async_scope.
Local Open Scope async_scope.

Definition get : M World := fun w => (Ok w, w).

Definition put (f : World -> World) : M unit := fun w => (Ok tt, f w).

Definition log (e : Event) : M unit :=
  put (fun w => with_trace (trace w ++ [e]) w).

(** One interaction with the outside: logged, and numbered by [tick]. *)
Definition external (e : Event) : M nat :=
  w <- get ;;
  log e ;;
  put (with_tick (S (tick w))) ;;
  ret (tick w).

(** [new Date()], as milliseconds. *)
Definition now : M Z :=
  w <- get ;;
  put (with_tick (S (tick w))) ;;
  ret (clock w (tick w)).

(** [await new Promise((resolve) => setTimeout(resolve, ms))]. *)
Definition sleep (ms : Z) : M unit := log (EvSleep ms).

Definition lift {A} (r : Result A) : M A := fun w => (r, w).

(** ** Embedding client ([src/lib/api.ts]) *)

Definition EXPECTED_DIMENSIONS : nat := 384.

(** [embedQuery] of the Hugging Face client. *)
Definition embedQuery (text : string) : M (list Q) :=
  n <- external (EvEmbed text) ;;
  w <- get ;;
  lift (hf_service w n text).

Definition initializeEmbeddings : M unit :=
  try_catch
    (testVector <- embedQuery "test" ;;
     if negb (List.length testVector =? EXPECTED_DIMENSIONS)%nat then
       throw (JsError ("Model generates " ++ string_of_nat (List.length testVector)
                       ++ " dimensions, expected "
                       ++ string_of_nat EXPECTED_DIMENSIONS) None)
     else ret tt)
    (fun error =>
       throw (JsError ("Failed to initialize embedding model: "
                       ++ to_string error) None)).

(** [if (!embeddings) { embeddings = await initializeEmbeddings() }]. *)
Definition ensure_embeddings : M unit :=
  w <- get ;;
  if embeddings w then ret tt
  else (initializeEmbeddings ;; put (with_embeddings true)).

(** The body of the loop of [generateEmbedding]; [left] counts the
    iterations that remain, [attempt] is the loop variable. *)
Fixpoint generateEmbedding_from (text : string) (retries left attempt : nat)
  : M (list Q) :=
  match left with
  | O => throw (JsError "Failed to generate embedding" None)
  | S left' =>
      try_catch
        (ensure_embeddings ;;
         embedding <- embedQuery text ;;
         if negb (List.length embedding =? EXPECTED_DIMENSIONS)%nat then
           throw (JsError ("Generated embedding has "
                           ++ string_of_nat (List.length embedding)
                           ++ " dimensions, expected "
                           ++ string_of_nat EXPECTED_DIMENSIONS) None)
         else ret embedding)
        (fun error =>
           if (attempt =? retries)%nat then
             throw (JsError ("Failed to generate embedding after "
                             ++ string_of_nat retries ++ " attempts: "
                             ++ to_string error) None)
           else
             (sleep (2 ^ Z.of_nat attempt * 1000) ;;
              generateEmbedding_from text retries left' (S attempt)))
  end.

Definition generateEmbedding (text : string) (retries : nat) : M (list Q) :=
  generateEmbedding_from text retries retries 1.

(** ** Document store adapter ([src/lib/api.ts]) *)

Definition PGRST116 : string := "PGRST116".

Definition error_code (e : Thrown) : option string :=
  match e with
  | PgError c _ => Some c
  | _ => None
  end.

Definition error_message (e : Thrown) : string :=
  match e with
  | JsError m _ => m
  | PgError _ m => m
  | NativeError _ m => m
  end.

Definition opt_eqb (a : option string) (b : string) : bool :=
  match a with
  | Some s => String.eqb s b
  | None => false
  end.

(** [.eq("hsn_code", hsn).eq("country", country)]. *)
Definition same_key (hsn country : string) (d : Document) : bool :=
  opt_eqb (doc_hsn_code d) hsn && opt_eqb (doc_country d) country.

(** [.select("id") ... .single()]: exactly one row, or the error
    [PGRST116]. *)
Definition select_id (hsn country : string) : M (Reply Z) :=
  n <- external (EvSelectId hsn country) ;;
  w <- get ;;
  match db_fault w n with
  | Some e => ret {| data := None; error := Some e |}
  | None =>
      match filter (same_key hsn country) (documents w) with
      | [d] => ret {| data := Some (doc_id d); error := None |}
      | _ => ret {| data := None;
                    error := Some (PgError PGRST116
                      "JSON object requested, multiple (or no) rows returned") |}
      end
  end.

(** [.update({ content, embedding, metadata, updated_at }).eq("id", id)]. *)
Definition update_row (content : string) (embedding : list Q)
  (metadata : Metadata) (updated_at : Z) (d : Document) : Document :=
  {| doc_id := doc_id d;
     doc_content := Some content;
     doc_embedding := embedding;
     doc_hsn_code := doc_hsn_code d;
     doc_country := doc_country d;
     doc_metadata := Some metadata;
     doc_created_at := doc_created_at d;
     doc_updated_at := Some updated_at |}.

Definition update_document (id : Z) (content : string) (embedding : list Q)
  (metadata : Metadata) (updated_at : Z) : M (option Thrown) :=
  n <- external (EvUpdate id) ;;
  w <- get ;;
  match db_fault w n with
  | Some e => ret (Some e)
  | None =>
      put (with_documents
             (map (fun d => if doc_id d =? id
                            then update_row content embedding metadata updated_at d
                            else d)
                  (documents w))) ;;
      ret None
  end.

(** The table gives a new row an id of its own. *)
Definition fresh_id (ds : list Document) : Z :=
  1 + fold_right (fun d m => Z.max (doc_id d) m) 0 ds.

(** [.insert({ content, embedding, hsn_code, country, metadata,
    created_at })]. *)
Definition new_row (id : Z) (content : string) (embedding : list Q)
  (hsn country : string) (metadata : Metadata) (created_at : Z) : Document :=
  {| doc_id := id;
     doc_content := Some content;
     doc_embedding := embedding;
     doc_hsn_code := Some hsn;
     doc_country := Some country;
     doc_metadata := Some metadata;
     doc_created_at := Some created_at;
     doc_updated_at := None |}.

Definition insert_document (content : string) (embedding : list Q)
  (hsn country : string) (metadata : Metadata) (created_at : Z)
  : M (option Thrown) :=
  n <- external (EvInsert hsn country) ;;
  w <- get ;;
  match db_fault w n with
  | Some e => ret (Some e)
  | None =>
      put (with_documents
             (documents w ++
              [new_row (fresh_id (documents w)) content embedding hsn country
                       metadata created_at])) ;;
      ret None
  end.

(** [`${d.year}: $${d.price.toFixed(2)} ${d.currency}`]. *)
Definition render_record (d : HistoricalData) : string :=
  year d ++ ": $" ++ toFixed (price d) 2 ++ " " ++ currency d.

Definition render_document (productName hsnCode country : string)
  (historicalData : list HistoricalData) : string :=
  "Product: " ++ productName ++ nl ++ "HSN: " ++ hsnCode ++ nl
  ++ "Country: " ++ country ++ nl ++ "Historical Data:" ++ nl
  ++ join nl (map render_record historicalData).

Definition with_updated_at (t : Z) (m : Metadata) : Metadata :=
  {| md_hsn_code := md_hsn_code m; md_name := md_name m;
     md_country := md_country m; md_type := md_type m;
     md_description := md_description m; md_years := md_years m;
     md_prices := md_prices m; md_currencies := md_currencies m;
     md_created_at := md_created_at m; md_updated_at := Some t |}.

Definition product_with_history : string := "product_with_history".

(** The [metadata] object of [storeProductWithHistoricalData]. *)
Definition new_metadata (productName hsnCode country : string)
  (historicalData : list HistoricalData) (created_at : Z) : Metadata :=
  {| md_hsn_code := Some hsnCode;
     md_name := Some productName;
     md_country := Some country;
     md_type := Some product_with_history;
     md_description :=
       Some ("Historical prices for " ++ productName ++ " in " ++ country);
     md_years := Some (map year historicalData);
     md_prices :=
       Some (fromEntries (map (fun d => (year d, price d)) historicalData));
     md_currencies :=
       Some (fromEntries (map (fun d => (year d, currency d)) historicalData));
     md_created_at := Some created_at;
     md_updated_at := None |}.

Definition storeProductWithHistoricalData (productName hsnCode country : string)
  (historicalData : list HistoricalData) : M unit :=
  try_catch
    (match historicalData with
     | [] => ret tt
     | _ :: _ =>
         let text := render_document productName hsnCode country historicalData in
         embedding <- generateEmbedding text 3 ;;
         existing <- select_id hsnCode country ;;
         match error existing with
         | Some fetchError =>
             if negb (opt_eqb (error_code fetchError) PGRST116) then
               throw (JsError ("Error checking existing document: "
                               ++ error_message fetchError) None)
             else ret tt
         | None => ret tt
         end ;;
         created <- now ;;
         let metadata :=
           new_metadata productName hsnCode country historicalData created in
         match data existing with
         | Some id =>
             t1 <- now ;;
             t2 <- now ;;
             updateError <- update_document id text embedding
                              (with_updated_at t1 metadata) t2 ;;
             match updateError with
             | Some e => throw e
             | None => ret tt
             end
         | None =>
             t1 <- now ;;
             insertError <- insert_document text embedding hsnCode country
                              metadata t1 ;;
             match insertError with
             | Some e => throw e
             | None => ret tt
             end
         end
     end)
    (fun error => throw (JsError "Error updating record : " (Some error))).

(** ** Historical data accessor ([src/lib/api.ts]) *)

(** [Number.parseFloat(v as string)]: the argument is first converted to a
    string; an array prints its elements separated by commas. *)
Fixpoint parseFloat_value (v : JsValue) : option Q :=
  match v with
  | JNum q => Some q
  | JStr s => parseFloat s
  | JArr (x :: _) =>
      match x with
      | JNull => None
      | _ => parseFloat_value x
      end
  | _ => None
  end.

Fixpoint index_entries (A : Type) (i : nat) (l : list A) : list (string * A) :=
  match l with
  | [] => []
  | x :: t => (string_of_nat i, x) :: index_entries (S i) t
  end.

Fixpoint chars (s : string) : list JsValue :=
  match s with
  | EmptyString => []
  | String c t => JStr (String c "") :: chars t
  end.

(** [Object.entries(v)]; [null] raises a [TypeError]. *)
Definition entries (v : JsValue) : Result (list (string * JsValue)) :=
  match v with
  | JObj kvs => Ok kvs
  | JArr l => Ok (index_entries 0 l)
  | JStr s => Ok (index_entries 0 (chars s))
  | JNum _ | JBool _ => Ok []
  | JNull => Throw (NativeError "TypeError"
                      "Cannot convert undefined or null to object")
  end.

(** [!v]. *)
Definition falsy (v : option JsValue) : bool :=
  match v with
  | None | Some JNull | Some (JBool false) => true
  | Some (JNum q) => Qeq_bool q 0
  | Some (JStr s) => String.eqb s ""
  | Some _ => false
  end.

(** [Number.parseInt(year.split("-")[0])]. *)
Definition leading_year (d : HistoricalData) : option Z :=
  parseInt (hd "" (split_char "-" (year d))).

(** The comparator [(a, b) => leading_year(b) - leading_year(a)]. *)
Definition by_year_desc (a b : HistoricalData) : option Q :=
  match leading_year b, leading_year a with
  | Some yb, Some ya => Some (inject_Z (yb - ya))
  | _, _ => None
  end.

(** One entry of the column, after [.map] and [.filter]: the record is
    kept when its price is a number ([!isNaN]) and positive. *)
Definition valid_record (kv : string * JsValue) : option HistoricalData :=
  match parseFloat_value (snd kv) with
  | Some p =>
      if Qltb 0 p
      then Some {| year := fst kv; price := p; currency := "USD" |}
      else None
  | None => None
  end.

Fixpoint filter_map (A B : Type) (f : A -> option B) (l : list A) : list B :=
  match l with
  | [] => []
  | x :: t =>
      match f x with
      | Some y => y :: filter_map f t
      | None => filter_map f t
      end
  end.

Definition is_pgrst116 (e : Thrown) : bool := opt_eqb (error_code e) PGRST116.

Section Accessor.

(** [JSON.parse], with [None] for a [SyntaxError]. *)
Variable JSON_parse : string -> option JsValue.

(** The entries of the column: [Object.entries(parsedData)]. *)
Definition column_entries (countryData : JsValue)
  : Result (list (string * JsValue)) :=
  let parsedData :=
    match countryData with
    | JStr s =>
        match JSON_parse s with
        | Some v => Ok v
        | None => Throw (NativeError "SyntaxError" "Unexpected token")
        end
    | JObj _ | JArr _ => Ok countryData
    | _ => Throw (JsError "Invalid data format" None)
    end in
  match parsedData with
  | Throw e => Throw e
  | Ok v => entries v
  end.

Definition parseCountryData (countryData : JsValue)
  : Result (list HistoricalData) :=
  let body : Result (list HistoricalData) :=
    match column_entries countryData with
    | Throw e => Throw e
    | Ok kvs => Ok (slice0 5 (sort by_year_desc (filter_map valid_record kvs)))
    end in
  match body with
  | Ok l => Ok l
  | Throw parseError =>
      Throw (JsError ("Failed to parse data for country: "
                      ++ to_string parseError) None)
  end.

(** [.from("market_prices").select("*").eq("hsn_code", code).single()]. *)
Definition code_matches (code : Z) (row : PriceRow) : bool :=
  match obj_get "hsn_code" row with
  | Some (JNum q) => Qeq_bool q (inject_Z code)
  | Some (JStr s) => String.eqb s (string_of_Z code)
  | _ => false
  end.

Definition select_prices (code : option Z) : M (Reply PriceRow) :=
  n <- external (EvSelectPrices code) ;;
  w <- get ;;
  match db_fault w n, code with
  | Some e, _ => ret {| data := None; error := Some e |}
  | None, None =>
      ret {| data := None;
             error := Some (PgError "22P02" "invalid input syntax") |}
  | None, Some c =>
      match filter (code_matches c) (market_prices w) with
      | [row] => ret {| data := Some row; error := None |}
      | _ => ret {| data := None;
                    error := Some (PgError PGRST116
                      "JSON object requested, multiple (or no) rows returned") |}
      end
  end.

Definition reserved_column (key : string) : bool :=
  String.eqb key "hsn_code" || String.eqb key "id"
  || String.eqb key "created_at" || String.eqb key "updated_at".

Definition available_columns (row : PriceRow) : list string :=
  map fst
    (filter (fun kv => negb (reserved_column (fst kv))
                       && match snd kv with JNull => false | _ => true end)
            row).

Definition fetchHistoricalData (hsnCode country : string)
  : M (list HistoricalData) :=
  try_catch
    (reply <- select_prices (parseInt hsnCode) ;;
     match error reply, data reply with
     | Some e, _ => throw (JsError ("Database error: " ++ error_message e) None)
     | None, None =>
         throw (JsError ("No data found for HSN code: " ++ hsnCode) None)
     | None, Some row =>
         let countryData := obj_get country row in
         if falsy countryData then
           match available_columns row with
           | [] =>
               throw (JsError ("No data available for any country with HSN code: "
                               ++ hsnCode) None)
           | availableCountries =>
               throw (JsError ("No data found for country: " ++ country
                               ++ ". Available countries: "
                               ++ join ", " availableCountries) None)
           end
         else
           parsedData <- lift (parseCountryData
                                 (match countryData with
                                  | Some v => v
                                  | None => JNull
                                  end)) ;;
           match parsedData with
           | [] =>
               throw (JsError ("No valid historical data found for " ++ country
                               ++ " with HSN code: " ++ hsnCode) None)
           | _ :: _ => ret parsedData
           end
     end)
    (fun e => throw (JsError "Error fetching historical data : " (Some e))).

Definition getAvailableCountries (hsnCode : string) : M (list string) :=
  reply <- select_prices (parseInt hsnCode) ;;
  match error reply, data reply with
  | None, Some row => ret (available_columns row)
  | _, _ => ret []
  end.

End Accessor.

(** ** Similarity search ([src/lib/api.ts]) *)

(** [item.metadata?.type === "product_with_history"]. *)
Definition is_history (m : option Metadata) : bool :=
  match m with
  | Some md => opt_eqb (md_type md) product_with_history
  | None => false
  end.

Definition metadata_name (m : option Metadata) : option string :=
  match m with
  | Some md => md_name md
  | None => None
  end.

Definition metadata_hsn_code (m : option Metadata) : option string :=
  match m with
  | Some md => md_hsn_code md
  | None => None
  end.

Definition metadata_country (m : option Metadata) : option string :=
  match m with
  | Some md => md_country md
  | None => None
  end.

(** [.rpc("match_documents", { query_embedding, match_threshold,
    match_count })]: the ranking is the store's. *)
Definition rpc_match_documents (threshold : Q) (count : Z)
  : M (Reply (list MatchItem)) :=
  n <- external (EvMatchDocuments threshold count) ;;
  w <- get ;;
  ret (match_documents w n).

(** The records rebuilt from the metadata of a candidate. *)
Definition docHistoricalData (years : list string) (prices : list (string * Q))
  (currencies : list (string * string)) : list HistoricalData :=
  map (fun y =>
         {| year := y;
            price := match obj_get y prices with
                     | Some p => p
                     | None => 0
                     end;
            currency := or_str (obj_get y currencies) "USD" |})
      years.

(** The test that guards both pushes of the loop. *)
Definition passes_gate (item : MatchItem) : bool :=
  is_history (item_metadata item) && Qle_bool 50 (item_similarity item * 100).

Definition own_key (hsnCode country : string) (item : MatchItem) : bool :=
  opt_eqb (item_hsn_code item) hsnCode && opt_eqb (item_country item) country.

Definition to_product (item : MatchItem) : SimilarProduct :=
  {| sp_hsn_code := or_str (item_hsn_code item) "Unknown";
     sp_product_name := or_str (metadata_name (item_metadata item)) "Unknown Product";
     sp_similarity := Qmin 100 (item_similarity item * 100);
     sp_countries := [or_str (item_country item) "Unknown"] |}.

(** [item.metadata?.years && item.metadata?.prices], with the record that
    is pushed when it holds. *)
Definition to_historical (item : MatchItem) : option SimilarHistoricalData :=
  match item_metadata item with
  | Some md =>
      match md_years md, md_prices md with
      | Some years, Some prices =>
          Some {| shd_hsn_code := or_str (item_hsn_code item) "Unknown";
                  shd_product_name :=
                    or_str (metadata_name (item_metadata item)) "Unknown Product";
                  shd_similarity := Qmin 100 (item_similarity item * 100);
                  shd_countries := [or_str (item_country item) "Unknown"];
                  historicalData :=
                    docHistoricalData years prices
                      (match md_currencies md with
                       | Some c => c
                       | None => []
                       end) |}
      | _, _ => None
      end
  | None => None
  end.

(** One iteration of [for (const item of data)]. *)
Definition process_item (hsnCode country : string)
  (acc : list SimilarProduct * list SimilarHistoricalData) (item : MatchItem)
  : list SimilarProduct * list SimilarHistoricalData :=
  if own_key hsnCode country item then acc
  else if passes_gate item then
    let similarProducts := (fst acc ++ [to_product item])%list in
    match to_historical item with
    | Some h => (similarProducts, (snd acc ++ [h])%list)
    | None => (similarProducts, snd acc)
    end
  else acc.

Definition no_results : list SimilarProduct * list SimilarHistoricalData :=
  ([], []).

(** The loop over the candidates and the two [slice(0, limit)] of the
    [return]. *)
Definition primary_results (hsnCode country : string) (limit : nat)
  (items : list MatchItem) : list SimilarProduct * list SimilarHistoricalData :=
  let found := fold_left (process_item hsnCode country) items no_results in
  (slice0 limit (fst found), slice0 limit (snd found)).

Definition findSimilarHistoricalData (productName hsnCode country : string)
  (historicalData : list HistoricalData) (limit : nat)
  : M (list SimilarProduct * list SimilarHistoricalData) :=
  try_catch
    (storeProductWithHistoricalData productName hsnCode country historicalData ;;
     let query := render_document productName hsnCode country historicalData in
     queryEmbedding <- generateEmbedding query 3 ;;
     reply <- rpc_match_documents (3 # 10) (Z.of_nat limit * 2) ;;
     match error reply, data reply with
     | Some _, _ => ret no_results
     | None, None | None, Some [] => ret no_results
     | None, Some items => ret (primary_results hsnCode country limit items)
     end)
    (fun _ => ret no_results).

(** [initializeProductEmbedding]: the body is empty. *)
Definition initializeProductEmbedding (productName hsnCode country : string)
  : M unit :=
  ret tt.

(** ** Similarity search with a keyword fallback ([src/lib/vectorStore.ts]) *)

(** [.from("documents").select("*").eq("metadata->>type", ...).limit(100)],
    with [.neq("hsn_code", exclude)] when [exclude] is truthy.  A row whose
    column is [NULL] does not satisfy [<>]. *)
Definition neq_hsn (exclude : string) (d : Document) : bool :=
  match doc_hsn_code d with
  | Some c => negb (String.eqb c exclude)
  | None => false
  end.

Definition scan_rows (excludeHsnCode : option string) (ds : list Document)
  : list Document :=
  let rows := filter (fun d => is_history (doc_metadata d)) ds in
  let rows :=
    match excludeHsnCode with
    | Some x => if truthy_str excludeHsnCode then filter (neq_hsn x) rows else rows
    | None => rows
    end in
  firstn 100 rows.

Definition scan_documents (excludeHsnCode : option string)
  : M (Reply (list Document)) :=
  n <- external (EvScan excludeHsnCode) ;;
  w <- get ;;
  match db_fault w n with
  | Some e => ret {| data := None; error := Some e |}
  | None =>
      ret {| data := Some (scan_rows excludeHsnCode (documents w)); error := None |}
  end.

Definition queryWords (query : string) : list string :=
  filter (fun word => (2 <? String.length word)%nat) (split_ws (toLowerCase query)).

Definition allWords (doc : Document) : list string :=
  (match doc_content doc with
   | Some c => split_ws (toLowerCase c)
   | None => []
   end
   ++ split_ws (toLowerCase (or_str (metadata_name (doc_metadata doc)) "")))%list.

Definition commonWords (words : list string) (doc : Document) : list string :=
  filter (fun queryWord =>
            existsb (fun docWord => includes docWord queryWord
                                    || includes queryWord docWord)
                    (allWords doc))
         words.

Definition keyword_similarity (words : list string) (doc : Document) : Q :=
  (inject_Z (Z.of_nat (List.length (commonWords words doc)))
   / inject_Z (Z.of_nat (Nat.max (List.length words) 1))) * 100.

Definition to_keyword_match (similarity : Q) (doc : Document)
  : VectorSimilarProduct :=
  {| vsp_content := Some (or_str (doc_content doc) "");
     vsp_metadata := doc_metadata doc;
     vsp_similarity := similarity;
     vsp_hsn_code :=
       or_str (doc_hsn_code doc)
              (or_str (metadata_hsn_code (doc_metadata doc)) "Unknown");
     vsp_product_name := or_str (metadata_name (doc_metadata doc)) "Unknown Product";
     vsp_countries :=
       [or_str (doc_country doc)
               (or_str (metadata_country (doc_metadata doc)) "Unknown")] |}.

(** One iteration of [for (const doc of data)]. *)
Definition score_document (words : list string)
  (similarities : list VectorSimilarProduct) (doc : Document)
  : list VectorSimilarProduct :=
  let similarity := keyword_similarity words doc in
  if Qltb 20 similarity then (similarities ++ [to_keyword_match similarity doc])%list
  else similarities.

Definition by_similarity_desc (a b : VectorSimilarProduct) : option Q :=
  Some (vsp_similarity b - vsp_similarity a)%Q.

Definition searchSimilarProductsSimple (query : string)
  (excludeHsnCode : option string) (k : nat) : M (list VectorSimilarProduct) :=
  try_catch
    (reply <- scan_documents excludeHsnCode ;;
     match error reply, data reply with
     | Some _, _ | None, None => ret []
     | None, Some docs =>
         let similarities :=
           fold_left (score_document (queryWords query)) docs [] in
         ret (slice0 k (sort by_similarity_desc similarities))
     end)
    (fun _ => ret []).

(** The filter of the primary path. *)
Definition keep_item (excludeHsnCode : option string) (item : MatchItem) : bool :=
  match excludeHsnCode with
  | Some x =>
      if truthy_str excludeHsnCode
         && (opt_eqb (item_hsn_code item) x
             || opt_eqb (metadata_hsn_code (item_metadata item)) x)
      then false
      else if negb (is_history (item_metadata item)) then false
      else Qle_bool (1 # 10) (item_similarity item)
  | None =>
      if negb (is_history (item_metadata item)) then false
      else Qle_bool (1 # 10) (item_similarity item)
  end.

(** The callback of [.map]; [item.content.split] raises a [TypeError] when
    the name is missing and the content is [null]. *)
Definition to_vector_match (item : MatchItem) : Result VectorSimilarProduct :=
  let name : Result string :=
    if truthy_str (metadata_name (item_metadata item))
    then Ok (or_str (metadata_name (item_metadata item)) "")
    else match item_content item with
         | None => Throw (NativeError "TypeError"
                            "Cannot read properties of null (reading 'split')")
         | Some c =>
             Ok (or_str (Some (remove_first "Product: " (hd "" (split_char "010" c))))
                        "Unknown Product")
         end in
  match name with
  | Throw e => Throw e
  | Ok product_name =>
      Ok {| vsp_content := item_content item;
            vsp_metadata := item_metadata item;
            vsp_similarity := Qmin 100 (item_similarity item * 100);
            vsp_hsn_code :=
              or_str (item_hsn_code item)
                     (or_str (metadata_hsn_code (item_metadata item)) "Unknown");
            vsp_product_name := product_name;
            vsp_countries :=
              [or_str (item_country item)
                      (or_str (metadata_country (item_metadata item)) "Unknown")] |}
  end.

Fixpoint map_result (A B : Type) (f : A -> Result B) (l : list A)
  : Result (list B) :=
  match l with
  | [] => Ok []
  | x :: t =>
      match f x with
      | Throw e => Throw e
      | Ok y =>
          match map_result f t with
          | Throw e => Throw e
          | Ok ys => Ok (y :: ys)
          end
      end
  end.

Definition searchSimilarProducts (query : string)
  (excludeHsnCode : option string) (k : nat) : M (list VectorSimilarProduct) :=
  try_catch
    (queryEmbedding <- generateEmbedding query 3 ;;
     reply <- rpc_match_documents (1 # 10) (Z.of_nat k + 10) ;;
     match error reply, data reply with
     | Some _, _ => searchSimilarProductsSimple query excludeHsnCode k
     | None, None | None, Some [] =>
         searchSimilarProductsSimple query excludeHsnCode k
     | None, Some items =>
         lift (map_result to_vector_match
                 (slice0 k (filter (keep_item excludeHsnCode) items)))
     end)
    (fun _ => searchSimilarProductsSimple query excludeHsnCode k).

(** ** Analysis dispatcher ([src/lib/api.ts]) *)

Definition GROQ_URL : string := "https://api.groq.com/openai/v1/chat/completions".

(** [axios.post] to the completion service, and
    [response.data.choices[0]?.message?.content]. *)
Definition post_completion (max_tokens : Z) (prompt : string)
  : M (option string) :=
  n <- external (EvGroq max_tokens prompt) ;;
  w <- get ;;
  lift (groq_service w n).

Definition render_similar_product (p : SimilarProduct) : string :=
  "- " ++ sp_product_name p ++ " (HSN: " ++ sp_hsn_code p ++ ") - Similarity: "
  ++ toFixed (sp_similarity p) 1 ++ "%".

Definition render_similar_history (p : SimilarHistoricalData) : string :=
  "- " ++ shd_product_name p ++ " (HSN: " ++ shd_hsn_code p ++ ") - Similarity: "
  ++ toFixed (shd_similarity p) 1 ++ "%" ++ nl ++ "  Prices: "
  ++ join ", " (map render_record (historicalData p)).

Definition analysis_prompt (historicalData : list HistoricalData)
  (productName country hsnCode : string)
  (similarResults : list SimilarProduct * list SimilarHistoricalData) : string :=
  let dataString := join nl (map render_record historicalData) in
  let similarProductsString :=
    match fst similarResults with
    | [] => "No similar products found"
    | ps => join nl (map render_similar_product ps)
    end in
  let similarHistoricalString :=
    match snd similarResults with
    | [] => "No similar historical data found"
    | hs => join nl (map render_similar_history hs)
    end in
    "You are an expert market analyst specializing in international trade and pricing. Analyze the following data:" ++ nl ++
    nl ++
    "    PRODUCT DETAILS:" ++ nl ++
    "    - Product: " ++ productName ++ nl ++
    "    - HSN Code: " ++ hsnCode ++ nl ++
    "    - Destination Market: " ++ country ++ nl ++
    nl ++
    "    HISTORICAL PRICE DATA:" ++ nl ++
    "    " ++ dataString ++ nl ++
    nl ++
    "    SIMILAR PRODUCTS:" ++ nl ++
    "    " ++ similarProductsString ++ nl ++
    nl ++
    "    SIMILAR HISTORICAL DATA:" ++ nl ++
    "    " ++ similarHistoricalString ++ nl ++
    nl ++
    "    Provide a comprehensive analysis including:" ++ nl ++
    "    1. 💰 CURRENT SELLING PRICE: Most recent market price with confidence level" ++ nl ++
    "    2. 📈 PRICE TREND ANALYSIS: Direction, percentage changes, volatility patterns" ++ nl ++
    "    3. 🌍 MARKET INSIGHTS: Market positioning, demand factors, competition" ++ nl ++
    "    4. 🔗 SIMILAR PRODUCTS ANALYSIS: How similar products perform, cross-selling opportunities" ++ nl ++
    "    5. 📊 HISTORICAL COMPARISON: Compare with similar historical data patterns" ++ nl ++
    "    6. 🔮 FUTURE OUTLOOK: 6-12 month predictions with risk assessment" ++ nl ++
    "    7. 💡 BUSINESS RECOMMENDATIONS: Optimal timing, pricing strategies, market entry advice" ++ nl ++
    nl ++
    "    Format professionally with clear sections and actionable insights.".

Definition analyzeWithEnhancedContext (historicalData : list HistoricalData)
  (productName country hsnCode : string)
  (similarResults : list SimilarProduct * list SimilarHistoricalData)
  : M string :=
  try_catch
    (content <- post_completion 2000
                  (analysis_prompt historicalData productName country hsnCode
                                   similarResults) ;;
     ret (or_str content "No response"))
    (fun error => throw (JsError "Failed to analyze with Groq" (Some error))).

Definition prediction_prompt (historicalData : list HistoricalData)
  (productName country : string) (similarProducts : list SimilarProduct)
  : string :=
  let dataString :=
    join ", " (map (fun d => year d ++ ": $" ++ toFixed (price d) 2) historicalData) in
  let similarContext :=
    match similarProducts with
    | [] => ""
    | ps => "Similar products: " ++ join ", " (map sp_product_name ps)
    end in
    "Based on historical data for " ++ productName ++ " in " ++ country ++ ": " ++ dataString ++ nl ++
    nl ++
    "    " ++ similarContext ++ nl ++
    nl ++
    "    Provide a concise market prediction:" ++ nl ++
    "    1. Predicted price for next year" ++ nl ++
    "    2. Confidence level (High/Medium/Low)" ++ nl ++
    "    3. Key influencing factors" ++ nl ++
    "    4. Similar product opportunities" ++ nl ++
    "    5. One-line recommendation" ++ nl ++
    nl ++
    "    Keep under 250 words, business-focused.".

Definition generateMarketPrediction (historicalData : list HistoricalData)
  (productName country : string) (similarProducts : list SimilarProduct)
  : M string :=
  try_catch
    (content <- post_completion 400
                  (prediction_prompt historicalData productName country
                                     similarProducts) ;;
     ret (or_str content "No prediction available"))
    (fun error => throw (JsError "Failed to generate prediction" (Some error))).

(** ** Local analysis and the screen ([src/app/(tabs)/index.tsx]) *)

(** The local variables of [analyzeLocalData], for a list with head [d0].
    A previous price of zero is outside the model: the quotient is not a
    finite number then. *)
Section LocalAnalysis.
Variable d0 : HistoricalData.
Variable rest : list HistoricalData.

Definition prices : list Q := map price (d0 :: rest).
Definition currentSellingPrice : Q := price d0.
Definition previousPrice : Q :=
  match rest with
  | d1 :: _ => price d1
  | [] => price d0
  end.
Definition minHistoricalPrice : Q := min_list (price d0) (map price rest).
Definition maxHistoricalPrice : Q := max_list (price d0) (map price rest).

Definition recentChange : Q :=
  match rest with
  | _ :: _ => ((currentSellingPrice - previousPrice) / previousPrice) * 100
  | [] => 0
  end.

Definition trend : string :=
  match rest with
  | _ :: _ =>
      if Qltb 2 recentChange then "increasing"
      else if Qltb recentChange (-2) then "decreasing"
      else "stable"
  | [] => "stable"
  end.

Definition market_position : string :=
  if Qeq_bool currentSellingPrice maxHistoricalPrice
  then "🔥 At HIGHEST historical price"
  else if Qeq_bool currentSellingPrice minHistoricalPrice
  then "💎 At LOWEST historical price"
  else if Qltb ((minHistoricalPrice + maxHistoricalPrice) / 2) currentSellingPrice
  then "📈 Above historical average"
  else "📉 Below historical average".

Definition recommendation : string :=
  if String.eqb trend "increasing"
  then "⚠️ Prices trending UP - Consider timing"
  else if String.eqb trend "decreasing"
  then "✅ Prices trending DOWN - Good opportunity"
  else "➡️ Stable pricing - Predictable conditions".

Definition recent_change_line : string :=
  match rest with
  | _ :: _ =>
      nl ++ "• Recent Change: " ++ (if Qltb 0 recentChange then "+" else "")
      ++ toFixed recentChange 1 ++ "%"
  | [] => ""
  end.
End LocalAnalysis.

Definition similarProductsSection (similarProducts : list SimilarProduct) : string :=
  match similarProducts with
  | [] => nl ++ "🔍 No similar products found" ++ nl
  | ps =>
      nl ++ "🔗 SIMILAR PRODUCTS FOUND:" ++ nl ++
      join nl (map (fun p => "• " ++ sp_product_name p ++ " (" ++ sp_hsn_code p
                             ++ ") - " ++ toFixed (sp_similarity p) 1 ++ "% similar")
                   ps)
      ++ nl
  end.

Definition analyzeLocalData (data : list HistoricalData)
  (productName countryName hsnCode : string)
  (similarProducts : list SimilarProduct) : string :=
  match data with
  | [] => "No historical data available for analysis."
  | d0 :: rest =>
      trim
        ("🎯 ENHANCED PRICE ANALYSIS" ++ nl ++
         nl ++
         "    📦 Product: " ++ productName ++ nl ++
         "    🏷️ HSN Code: " ++ hsnCode ++ nl ++
         "    🌍 Market: " ++ countryName ++ nl ++
         nl ++
         "    💰 CURRENT SELLING PRICE: $" ++ toFixed (currentSellingPrice d0) 2
           ++ " USD (" ++ year d0 ++ ")" ++ nl ++
         nl ++
         "    📊 KEY METRICS:" ++ nl ++
         "    • Current Price: $" ++ toFixed (currentSellingPrice d0) 2 ++ " USD" ++ nl ++
         "    • Recent Trend: " ++ toUpperCase (trend d0 rest)
           ++ recent_change_line d0 rest ++ nl ++
         "    • Historical Range: $" ++ toFixed (minHistoricalPrice d0 rest) 2
           ++ " - $" ++ toFixed (maxHistoricalPrice d0 rest) 2 ++ " USD" ++ nl ++
         nl ++
         "    📈 MARKET POSITION:" ++ nl ++
         "    " ++ market_position d0 rest ++ nl ++
         nl ++
         "    " ++ similarProductsSection similarProducts ++ nl ++
         nl ++
         "    💡 RECOMMENDATION:" ++ nl ++
         "    " ++ recommendation d0 rest ++ nl ++
         nl ++
         "    📅 Analysis based on " ++ string_of_nat (List.length data)
           ++ " data points")
  end.

Definition get_screen : M Screen := fun w => (Ok (screen w), w).

Definition set_screen (f : Screen -> Screen) : M unit :=
  put (fun w => with_screen (f (screen w)) w).

Definition setResult (v : string) : M unit :=
  set_screen (fun s =>
    {| product := product s; hsnCode := hsnCode s; country := country s;
       result := v; isLoading := isLoading s;
       isLoadingSimilar := isLoadingSimilar s;
       ui_historicalData := ui_historicalData s; useAI := useAI s;
       prediction := prediction s; similarProducts := similarProducts s;
       similarHistoricalData := similarHistoricalData s;
       useEmbeddings := useEmbeddings s |}).

Definition setPrediction (v : string) : M unit :=
  set_screen (fun s =>
    {| product := product s; hsnCode := hsnCode s; country := country s;
       result := result s; isLoading := isLoading s;
       isLoadingSimilar := isLoadingSimilar s;
       ui_historicalData := ui_historicalData s; useAI := useAI s;
       prediction := v; similarProducts := similarProducts s;
       similarHistoricalData := similarHistoricalData s;
       useEmbeddings := useEmbeddings s |}).

Definition setIsLoading (v : bool) : M unit :=
  set_screen (fun s =>
    {| product := product s; hsnCode := hsnCode s; country := country s;
       result := result s; isLoading := v;
       isLoadingSimilar := isLoadingSimilar s;
       ui_historicalData := ui_historicalData s; useAI := useAI s;
       prediction := prediction s; similarProducts := similarProducts s;
       similarHistoricalData := similarHistoricalData s;
       useEmbeddings := useEmbeddings s |}).

Definition setIsLoadingSimilar (v : bool) : M unit :=
  set_screen (fun s =>
    {| product := product s; hsnCode := hsnCode s; country := country s;
       result := result s; isLoading := isLoading s;
       isLoadingSimilar := v;
       ui_historicalData := ui_historicalData s; useAI := useAI s;
       prediction := prediction s; similarProducts := similarProducts s;
       similarHistoricalData := similarHistoricalData s;
       useEmbeddings := useEmbeddings s |}).

Definition setHistoricalData (v : list HistoricalData) : M unit :=
  set_screen (fun s =>
    {| product := product s; hsnCode := hsnCode s; country := country s;
       result := result s; isLoading := isLoading s;
       isLoadingSimilar := isLoadingSimilar s;
       ui_historicalData := v; useAI := useAI s;
       prediction := prediction s; similarProducts := similarProducts s;
       similarHistoricalData := similarHistoricalData s;
       useEmbeddings := useEmbeddings s |}).

Definition setSimilarProducts (v : list SimilarProduct) : M unit :=
  set_screen (fun s =>
    {| product := product s; hsnCode := hsnCode s; country := country s;
       result := result s; isLoading := isLoading s;
       isLoadingSimilar := isLoadingSimilar s;
       ui_historicalData := ui_historicalData s; useAI := useAI s;
       prediction := prediction s; similarProducts := v;
       similarHistoricalData := similarHistoricalData s;
       useEmbeddings := useEmbeddings s |}).

Definition setSimilarHistoricalData (v : list SimilarHistoricalData) : M unit :=
  set_screen (fun s =>
    {| product := product s; hsnCode := hsnCode s; country := country s;
       result := result s; isLoading := isLoading s;
       isLoadingSimilar := isLoadingSimilar s;
       ui_historicalData := ui_historicalData s; useAI := useAI s;
       prediction := prediction s; similarProducts := similarProducts s;
       similarHistoricalData := v;
       useEmbeddings := useEmbeddings s |}).

(** [Alert.alert(title, message)]; the buttons' callbacks run later, on a
    press, outside [handleAnalyze]. *)
Definition alert (title message : string) : M unit := log (EvAlert title message).

(** [try { m } finally { f }]. *)
Definition try_finally {A} (m : M A) (f : M unit) : M A :=
  fun w =>
    match m w with
    | (r, w') =>
        match f w' with
        | (Ok _, w'') => (r, w'')
        | (Throw e, w'') => (Throw e, w'')
        end
    end.

Definition ANALYSIS_HEADER : string :=
  "🤖 AI-POWERED ENHANCED ANALYSIS" ++ nl ++ nl.
Definition PREDICTION_HEADER : string := "🔮 MARKET PREDICTION" ++ nl ++ nl.
Definition PREDICTION_UNAVAILABLE : string :=
  "🔮 Market prediction temporarily unavailable".
Definition NO_DATA : string := "No historical data available for analysis.".

(** [!product.trim() || !country.trim() || !hsnCode.trim()]. *)
Definition missing_information (s : Screen) : bool :=
  String.eqb (trim (product s)) "" || String.eqb (trim (country s)) ""
  || String.eqb (trim (hsnCode s)) "".

Definition analysis_error_message (error : Thrown) : string :=
  "Failed to complete analysis:" ++ nl ++ to_string error ++ nl ++ nl
  ++ "Please check your inputs and try again.".

Section Screen.

Variable JSON_parse : string -> option JsValue.

(** The [catch (dataError)] block of [handleAnalyze]. *)
Definition report_missing_data (s : Screen) (dataError : Thrown) : M unit :=
  try_catch
    (availableCountries <- getAvailableCountries (trim (hsnCode s)) ;;
     match availableCountries with
     | _ :: _ =>
         alert "No Data Found"
           ("No historical data found for:" ++ nl ++ "• Product: " ++ product s
            ++ nl ++ "• HSN Code: " ++ hsnCode s ++ nl ++ "• Country: "
            ++ toUpperCase (country s) ++ nl ++ nl ++ "Available countries for HSN "
            ++ hsnCode s ++ ":" ++ nl ++ join ", " availableCountries ++ nl ++ nl
            ++ "Please try one of these countries.")
     | [] =>
         alert "No Data Available"
           ("No historical data found for HSN code: " ++ hsnCode s ++ nl ++ nl
            ++ "This HSN code may not exist in our database or may not have any price data available.")
     end)
    (fun countriesError =>
       alert "Data Error"
         ("Failed to fetch data:" ++ nl ++ to_string dataError ++ nl ++ nl
          ++ "Please check your HSN code and country, then try again.")) ;;
  setResult NO_DATA.

(** The similarity step of [handleAnalyze], when embeddings are on. *)
Definition load_similar (s : Screen) (data : list HistoricalData)
  : M (list SimilarProduct * list SimilarHistoricalData) :=
  try_finally
    (try_catch
       (setIsLoadingSimilar true ;;
        similarResults <-
          findSimilarHistoricalData (trim (product s)) (trim (hsnCode s))
            (toUpperCase (trim (country s))) data 5 ;;
        setSimilarProducts (fst similarResults) ;;
        setSimilarHistoricalData (snd similarResults) ;;
        ret similarResults)
       (fun similarityError =>
          setSimilarProducts [] ;;
          setSimilarHistoricalData [] ;;
          ret no_results))
    (setIsLoadingSimilar false).

(** The [if (useAI)] branch of [handleAnalyze]. *)
Definition analyze_remote (s : Screen) (data : list HistoricalData)
  (similarResults : list SimilarProduct * list SimilarHistoricalData)
  : M unit :=
  aiResult <- analyzeWithEnhancedContext data (trim (product s))
                (trim (country s)) (trim (hsnCode s)) similarResults ;;
  setResult (ANALYSIS_HEADER ++ aiResult) ;;
  try_catch
    (predictionResult <- generateMarketPrediction data (trim (product s))
                           (trim (country s)) (fst similarResults) ;;
     setPrediction (PREDICTION_HEADER ++ predictionResult))
    (fun predError => setPrediction PREDICTION_UNAVAILABLE).

(** The first steps inside the [try] of [handleAnalyze]: the records and
    the similar products, or [None] after the early [return]. *)
Definition gather (s : Screen)
  : M (option (list HistoricalData
               * (list SimilarProduct * list SimilarHistoricalData))) :=
  (if useEmbeddings s
   then initializeProductEmbedding (trim (product s)) (trim (hsnCode s))
          (toUpperCase (trim (country s)))
   else ret tt) ;;
  fetched <-
    try_catch
      (data <- fetchHistoricalData JSON_parse (trim (hsnCode s))
                 (toUpperCase (trim (country s))) ;;
       setHistoricalData data ;;
       ret (Some data))
      (fun dataError => report_missing_data s dataError ;; ret None) ;;
  match fetched with
  | None => ret None
  | Some data =>
      similarResults <-
        (if useEmbeddings s then load_similar s data else ret no_results) ;;
      ret (Some (data, similarResults))
  end.

Definition reset_screen : M unit :=
  setIsLoading true ;;
  setIsLoadingSimilar false ;;
  setResult "" ;;
  setPrediction "" ;;
  setHistoricalData [] ;;
  setSimilarProducts [] ;;
  setSimilarHistoricalData [].

Definition handleAnalyze : M unit :=
  s <- get_screen ;;
  if missing_information s
  then alert "Missing Information" "Please fill in all fields before analyzing"
  else
    reset_screen ;;
    try_finally
      (try_catch
         (gathered <- gather s ;;
          match gathered with
          | None => ret tt
          | Some (data, similarResults) =>
              if useAI s then analyze_remote s data similarResults
              else
                setResult (analyzeLocalData data (trim (product s))
                             (trim (country s)) (trim (hsnCode s))
                             (fst similarResults))
          end)
         (fun error =>
            alert "Analysis Error" (analysis_error_message error) ;;
            setResult ("Analysis failed: " ++ to_string error)))
      (setIsLoading false ;; setIsLoadingSimilar false).

End Screen.

(** ** Vocabulary of the statements *)

(** The world after one logged interaction. *)
Definition after_call (e : Event) (w : World) : World :=
  with_tick (S (tick w)) (with_trace (trace w ++ [e]) w).

(** Order of two records by the leading number of their labels. *)
Definition year_ge (a b : HistoricalData) : Prop :=
  exists ya yb, leading_year a = Some ya /\ leading_year b = Some yb /\ yb <= ya.

Definition year_gt (a b : HistoricalData) : Prop :=
  exists ya yb, leading_year a = Some ya /\ leading_year b = Some yb /\ yb < ya.

Definition has_year (d : HistoricalData) : Prop :=
  exists y, leading_year d = Some y.

(** ** Sample worlds for the concrete instances *)

Module Sample.

Definition no_json : string -> option JsValue := fun _ => None.

Definition vector384 : list Q := repeat 0%Q 384.

Definition screen0 : Screen :=
  {| product := "Tea"; hsnCode := "902"; country := "australia";
     result := ""; isLoading := false; isLoadingSimilar := false;
     ui_historicalData := []; useAI := true; prediction := "";
     similarProducts := []; similarHistoricalData := [];
     useEmbeddings := true |}.

(** One row of [market_prices]: two plain years for one market, two
    ranges that start in the same year for another. *)
Definition prices_row : PriceRow :=
  [("id", JNum 1); ("hsn_code", JNum 902);
   ("AUSTRALIA", JObj [("2023", JNum 100); ("2024", JStr "120")]);
   ("INDIA", JObj [("2020-2021", JNum 10); ("2020-2022", JNum 12)]);
   ("CHINA", JNull)].

Definition no_reply : Reply (list MatchItem) :=
  {| data := Some []; error := None |}.

(** Every service answers, the store is empty, the clock advances. *)
Definition world0 : World :=
  {| screen := screen0;
     documents := [];
     market_prices := [prices_row];
     embeddings := false;
     tick := 0;
     trace := [];
     hf_service := fun _ _ => Ok vector384;
     match_documents := fun _ => no_reply;
     db_fault := fun _ => None;
     groq_service := fun _ => Ok (Some "report");
     clock := fun n => 1000 + Z.of_nat n |}.

End Sample.

Module Sample5.
Definition record (y : string) (p : Q) : HistoricalData :=
  {| year := y; price := p; currency := "USD" |}.

(** Newest first. *)
Definition rising : list HistoricalData := [record "2024" 120; record "2023" 100].

Definition falling : list HistoricalData := [record "2024" 100; record "2023" 120].
End Sample5.

(** The probe of the first use answers with a vector of the wrong
    length, whenever it is asked. *)
Definition probe_mismatch (w : World) : Prop :=
  forall n, exists v,
    hf_service w n "test" = Ok v /\ List.length v <> EXPECTED_DIMENSIONS.

(** What [generateEmbedding] sends and waits for when every one of its
    [left] remaining attempts fails in the initialization. *)
Fixpoint retry_trace (left attempt : nat) : list Event :=
  match left with
  | O => []
  | S left' =>
      match left' with
      | O => [EvEmbed "test"]
      | S _ =>
          EvEmbed "test" :: EvSleep (2 ^ Z.of_nat attempt * 1000)
          :: retry_trace left' (S attempt)
      end
  end.

(** The error of [initializeEmbeddings] for a probe vector [v]. *)
Definition init_error (v : list Q) : Thrown :=
  JsError ("Failed to initialize embedding model: "
           ++ to_string (JsError ("Model generates "
                                  ++ string_of_nat (List.length v)
                                  ++ " dimensions, expected "
                                  ++ string_of_nat EXPECTED_DIMENSIONS) None))
          None.

Module Sample7.
(** The model behind the service has three dimensions. *)
Definition world : World :=
  {| screen := Sample.screen0;
     documents := [];
     market_prices := [Sample.prices_row];
     embeddings := false;
     tick := 0;
     trace := [];
     hf_service := fun _ _ => Ok [1; 2; 3]%Q;
     match_documents := fun _ => Sample.no_reply;
     db_fault := fun _ => None;
     groq_service := fun _ => Ok (Some "report");
     clock := fun n => 1000 + Z.of_nat n |}.
End Sample7.

(** The candidates that the loop of [findSimilarHistoricalData] lets
    through: not the querying key, tagged as a record, at 50 percent or
    more. *)
Definition gate (hsnCode country : string) (item : MatchItem) : bool :=
  negb (own_key hsnCode country item) && passes_gate item.

(** The ranking of the nearest-neighbour search: descending similarity. *)
Definition ranked (items : list MatchItem) : Prop :=
  StronglySorted (fun a b => (item_similarity b <= item_similarity a)%Q) items.

Definition products_ranked (l : list SimilarProduct) : Prop :=
  StronglySorted (fun a b => (sp_similarity b <= sp_similarity a)%Q) l.

Definition historical_ranked (l : list SimilarHistoricalData) : Prop :=
  StronglySorted (fun a b => (shd_similarity b <= shd_similarity a)%Q) l.

Definition in_range (q : Q) : Prop := (0 <= q)%Q /\ (q <= 100)%Q.

Module Sample1.
Definition metadata (name hsn country : string) : Metadata :=
  {| md_hsn_code := Some hsn; md_name := Some name; md_country := Some country;
     md_type := Some product_with_history; md_description := None;
     md_years := Some ["2024"]; md_prices := Some [("2024", 5%Q)];
     md_currencies := Some [("2024", "USD")];
     md_created_at := None; md_updated_at := None |}.

(** A candidate at 40 percent that carries a year and a price. *)
Definition weak : MatchItem :=
  {| item_content := Some "Product: Coffee";
     item_metadata := Some (metadata "Coffee" "901" "INDIA");
     item_similarity := 4 # 10;
     item_hsn_code := Some "901";
     item_country := Some "INDIA" |}.

(** A candidate at 80 percent. *)
Definition strong : MatchItem :=
  {| item_content := Some "Product: Mate";
     item_metadata := Some (metadata "Mate" "903" "BRAZIL");
     item_similarity := 8 # 10;
     item_hsn_code := Some "903";
     item_country := Some "BRAZIL" |}.

Definition records : list HistoricalData :=
  [{| year := "2024"; price := 120; currency := "USD" |}].

(** The search answers with the weak candidate alone. *)
Definition world : World :=
  {| screen := Sample.screen0;
     documents := [];
     market_prices := [Sample.prices_row];
     embeddings := false;
     tick := 0;
     trace := [];
     hf_service := fun _ _ => Ok Sample.vector384;
     match_documents := fun _ => {| data := Some [weak]; error := None |};
     db_fault := fun _ => None;
     groq_service := fun _ => Ok (Some "report");
     clock := fun n => 1000 + Z.of_nat n |}.
End Sample1.

(** ** Frames: what a computation leaves alone *)

(** [frame R m]: the world after [m] is related by [R] to the world
    before. *)
Definition frame (R : World -> World -> Prop) (A : Type) (m : M A) : Prop :=
  forall w, R w (snd (m w)).

(** A relation that the bookkeeping of the monad respects. *)
Class Framing (R : World -> World -> Prop) : Prop := {
  fr_refl : forall w, R w w;
  fr_trans : forall a b c, R a b -> R b c -> R a c;
  fr_call : forall e w, R w (after_call e w);
  fr_now : forall w, R w (with_tick (S (tick w)) w);
  fr_log : forall t w, R w (with_trace t w);
  fr_embeddings : forall b w, R w (with_embeddings b w);
}.

(** A relation that also allows changes of the screen. *)
Class ScreenFraming (R : World -> World -> Prop) : Prop := {
  fr_screen : forall s w, R w (with_screen s w);
}.

(** A relation that also allows writes to the table [documents]. *)
Class StoreFraming (R : World -> World -> Prop) : Prop := {
  fr_documents : forall ds w, R w (with_documents ds w);
}.

(** The tables and the services are the same. *)
Definition same_tables (w w' : World) : Prop :=
  documents w' = documents w /\ market_prices w' = market_prices w /\
  hf_service w' = hf_service w /\ match_documents w' = match_documents w /\
  db_fault w' = db_fault w /\ groq_service w' = groq_service w /\
  clock w' = clock w.

(** The services are the same and the count of interactions has not gone
    back. *)
Definition same_services (w w' : World) : Prop :=
  hf_service w' = hf_service w /\ match_documents w' = match_documents w /\
  db_fault w' = db_fault w /\ groq_service w' = groq_service w /\
  clock w' = clock w /\ (tick w <= tick w')%nat.

(** The screen is the same. *)
Definition same_screen (w w' : World) : Prop := screen w' = screen w.

(** The reply of the nearest-neighbour query carries an error, no data
    or no rows. *)
Definition unusable (reply : Reply (list MatchItem)) : bool :=
  match error reply, data reply with
  | Some _, _ => true
  | None, None => true
  | None, Some [] => true
  | None, Some (_ :: _) => false
  end.

Definition is_scan (e : Event) : bool :=
  match e with
  | EvScan _ => true
  | _ => false
  end.

Module Sample2.
Definition coffee_records : list HistoricalData :=
  [{| year := "2024"; price := 5; currency := "USD" |}].

(** A document as the upsert writes it. *)
Definition coffee : Document :=
  {| doc_id := 1;
     doc_content := Some (render_document "Coffee" "901" "INDIA" coffee_records);
     doc_embedding := [];
     doc_hsn_code := Some "901";
     doc_country := Some "INDIA";
     doc_metadata := Some (Sample1.metadata "Coffee" "901" "INDIA");
     doc_created_at := Some 10;
     doc_updated_at := None |}.

Definition tea : Document :=
  {| doc_id := 2;
     doc_content := Some (render_document "Tea" "902" "AUSTRALIA" Sample1.records);
     doc_embedding := [];
     doc_hsn_code := Some "902";
     doc_country := Some "AUSTRALIA";
     doc_metadata := Some (Sample1.metadata "Tea" "902" "AUSTRALIA");
     doc_created_at := Some 20;
     doc_updated_at := None |}.

Definition rpc_down : Reply (list MatchItem) :=
  {| data := None;
     error := Some (PgError "PGRST202" "Could not find the function") |}.

(** The nearest-neighbour procedure is not available. *)
Definition world : World :=
  {| screen := Sample.screen0;
     documents := [coffee; tea];
     market_prices := [Sample.prices_row];
     embeddings := false;
     tick := 0;
     trace := [];
     hf_service := fun _ _ => Ok Sample.vector384;
     match_documents := fun _ => rpc_down;
     db_fault := fun _ => None;
     groq_service := fun _ => Ok (Some "report");
     clock := fun n => 1000 + Z.of_nat n |}.

Definition query : string :=
  render_document "Tea" "902" "AUSTRALIA" Sample1.records.

(** The world when the query vector is there. *)
Definition embedded : World := snd (generateEmbedding query 3 world).

(** The worlds of [findSimilarHistoricalData] after the upsert and after
    the query vector. *)
Definition stored : World :=
  snd (storeProductWithHistoricalData "Tea" "902" "AUSTRALIA" Sample1.records
         world).

Definition searched : World := snd (generateEmbedding query 3 stored).
End Sample2.

(** The number of documents with the key [(hsn, country)]. *)
Definition key_count (hsn country : string) (ds : list Document) : nat :=
  List.length (filter (same_key hsn country) ds).

(** The store answers [PGRST116] only as [.single()] does, for no row or
    several rows, never as the fault of a call. *)
Definition store_honest (w : World) : Prop :=
  forall n e, db_fault w n = Some e -> is_pgrst116 e = false.

(** What [select_id] answers in [w]. *)
Definition select_id_reply (hsn country : string) (w : World) : Reply Z :=
  match db_fault w (tick w) with
  | Some e => {| data := None; error := Some e |}
  | None =>
      match filter (same_key hsn country) (documents w) with
      | [d] => {| data := Some (doc_id d); error := None |}
      | _ => {| data := None;
                error := Some (PgError PGRST116
                  "JSON object requested, multiple (or no) rows returned") |}
      end
  end.

(** The row written by [update_document], for the rows with this id. *)
Definition updated_rows (id : Z) (content : string) (embedding : list Q)
  (metadata : Metadata) (updated_at : Z) (ds : list Document) : list Document :=
  map (fun d => if doc_id d =? id
                then update_row content embedding metadata updated_at d
                else d) ds.

Module Sample8.
(** The document of the key, last updated at 5000 by a device whose
    clock was ahead. *)
Definition stored : Document :=
  {| doc_id := 7;
     doc_content := Some (render_document "Tea" "902" "AUSTRALIA" Sample1.records);
     doc_embedding := [];
     doc_hsn_code := Some "902";
     doc_country := Some "AUSTRALIA";
     doc_metadata := Some (Sample1.metadata "Tea" "902" "AUSTRALIA");
     doc_created_at := Some 900;
     doc_updated_at := Some 5000 |}.

(** This device reads 3000 until its clock is set back to 1000. *)
Definition world : World :=
  {| screen := Sample.screen0;
     documents := [stored];
     market_prices := [Sample.prices_row];
     embeddings := false;
     tick := 0;
     trace := [];
     hf_service := fun _ _ => Ok Sample.vector384;
     match_documents := fun _ => Sample.no_reply;
     db_fault := fun _ => None;
     groq_service := fun _ => Ok (Some "report");
     clock := fun n => if (n <? 8)%nat then 3000 else 1000 |}.

Definition once : Result unit * World :=
  storeProductWithHistoricalData "Tea" "902" "AUSTRALIA" Sample1.records world.

Definition twice : Result unit * World :=
  storeProductWithHistoricalData "Tea" "902" "AUSTRALIA" Sample1.records
    (snd once).
End Sample8.

Module Sample6.
Definition too_many_requests : Thrown :=
  NativeError "AxiosError" "Request failed with status code 429".

(** The completion service answers the ninth interaction, the analysis,
    and refuses every other one, so the prediction. *)
Definition world : World :=
  {| screen := Sample.screen0;
     documents := [];
     market_prices := [Sample.prices_row];
     embeddings := false;
     tick := 0;
     trace := [];
     hf_service := fun _ _ => Ok Sample.vector384;
     match_documents := fun _ => Sample.no_reply;
     db_fault := fun _ => None;
     groq_service := fun n => if (n =? 9)%nat then Ok (Some "report")
                              else Throw too_many_requests;
     clock := fun n => 1000 + Z.of_nat n |}.

(** The completion service refuses every request. *)
Definition down : World :=
  {| screen := Sample.screen0;
     documents := [];
     market_prices := [Sample.prices_row];
     embeddings := false;
     tick := 0;
     trace := [];
     hf_service := fun _ _ => Ok Sample.vector384;
     match_documents := fun _ => Sample.no_reply;
     db_fault := fun _ => None;
     groq_service := fun _ => Throw too_many_requests;
     clock := fun n => 1000 + Z.of_nat n |}.

Definition data : list HistoricalData :=
  [{| year := "2024"; price := 120; currency := "USD" |};
   {| year := "2023"; price := 100; currency := "USD" |}].
End Sample6.


(** ** The services behind the events *)

Inductive Service :=
| HuggingFace
| Timer
| DocumentsRead
| DocumentsWrite
| Prices
| Completion
| Dialog.

Definition service_of (e : Event) : Service :=
  match e with
  | EvEmbed _ => HuggingFace
  | EvSleep _ => Timer
  | EvMatchDocuments _ _ | EvSelectId _ _ | EvScan _ => DocumentsRead
  | EvUpdate _ | EvInsert _ _ => DocumentsWrite
  | EvSelectPrices _ => Prices
  | EvGroq _ _ => Completion
  | EvAlert _ _ => Dialog
  end.

(** [emits allowed m]: [m] only adds to the log, and only events of the
    services that [allowed] accepts. *)
Definition emits (allowed : Service -> bool) (A : Type) (m : M A) : Prop :=
  forall w, exists t,
    trace (snd (m w)) = (trace w ++ t)%list /\
    Forall (fun e => allowed (service_of e) = true) t.

Definition service_eqb (a b : Service) : bool :=
  match a, b with
  | HuggingFace, HuggingFace | Timer, Timer | DocumentsRead, DocumentsRead
  | DocumentsWrite, DocumentsWrite | Prices, Prices | Completion, Completion
  | Dialog, Dialog => true
  | _, _ => false
  end.

(** The services of a list, and all but those of a list. *)
Definition only (l : list Service) (s : Service) : bool :=
  existsb (service_eqb s) l.

Definition all_but (l : list Service) (s : Service) : bool :=
  negb (existsb (service_eqb s) l).

(** What [select_prices] answers in [w]. *)
Definition prices_reply (code : option Z) (w : World) : Reply PriceRow :=
  match db_fault w (tick w), code with
  | Some e, _ => {| data := None; error := Some e |}
  | None, None =>
      {| data := None; error := Some (PgError "22P02" "invalid input syntax") |}
  | None, Some c =>
      match filter (code_matches c) (market_prices w) with
      | [row] => {| data := Some row; error := None |}
      | _ => {| data := None;
                error := Some (PgError PGRST116
                  "JSON object requested, multiple (or no) rows returned") |}
      end
  end.


(** The body of the [try] block of [generateEmbedding]. *)
Definition embedding_attempt (text : string) : M (list Q) :=
  bind ensure_embeddings
    (fun _ => bind (embedQuery text)
       (fun embedding =>
          if negb (List.length embedding =? EXPECTED_DIMENSIONS)%nat
          then throw (JsError ("Generated embedding has "
                               ++ string_of_nat (List.length embedding)
                               ++ " dimensions, expected "
                               ++ string_of_nat EXPECTED_DIMENSIONS) None)
          else ret embedding)).

(** The world after [j] failed attempts, the first of them being attempt
    number [attempt]: each one sent the text and was followed by its
    wait. *)
Fixpoint after_failures (text : string) (j attempt : nat) (w : World) : World :=
  match j with
  | O => w
  | S j' =>
      let w1 := after_call (EvEmbed text) w in
      after_failures text j' (S attempt)
        (with_trace (trace w1 ++ [EvSleep (2 ^ Z.of_nat attempt * 1000)]) w1)
  end.

(** The log of [j] failed attempts. *)
Fixpoint failures_trace (text : string) (j attempt : nat) : list Event :=
  match j with
  | O => []
  | S j' =>
      EvEmbed text :: EvSleep (2 ^ Z.of_nat attempt * 1000)
      :: failures_trace text j' (S attempt)
  end.

(** The service refuses the text at the next [j] interactions. *)
Definition refuses (text : string) (j : nat) (w : World) : Prop :=
  forall i, (i < j)%nat -> exists e, hf_service w (tick w + i) text = Throw e.

Module SampleE.
Definition busy : Thrown := NativeError "Error" "Service Unavailable".

(** The client is initialised; the service refuses twice, then answers. *)
Definition world : World :=
  {| screen := Sample.screen0;
     documents := [];
     market_prices := [Sample.prices_row];
     embeddings := true;
     tick := 0;
     trace := [];
     hf_service := fun n _ => if (n <? 2)%nat then Throw busy
                              else Ok Sample.vector384;
     match_documents := fun _ => Sample.no_reply;
     db_fault := fun _ => None;
     groq_service := fun _ => Ok (Some "report");
     clock := fun n => 1000 + Z.of_nat n |}.

(** The service refuses every request. *)
Definition down : World :=
  {| screen := Sample.screen0;
     documents := [];
     market_prices := [Sample.prices_row];
     embeddings := true;
     tick := 0;
     trace := [];
     hf_service := fun _ _ => Throw busy;
     match_documents := fun _ => Sample.no_reply;
     db_fault := fun _ => None;
     groq_service := fun _ => Ok (Some "report");
     clock := fun n => 1000 + Z.of_nat n |}.
End SampleE.

Module SampleS.
(** The store refuses the third interaction, the lookup of the upsert. *)
Definition world : World :=
  {| screen := Sample.screen0;
     documents := [Sample2.coffee; Sample2.tea];
     market_prices := [Sample.prices_row];
     embeddings := true;
     tick := 0;
     trace := [];
     hf_service := fun _ _ => Ok Sample.vector384;
     match_documents := fun _ => Sample.no_reply;
     db_fault := fun n => if (n =? 1)%nat
                          then Some (PgError "57014" "statement timeout")
                          else None;
     groq_service := fun _ => Ok (Some "report");
     clock := fun n => 1000 + Z.of_nat n |}.

(** The same table with a store that answers. *)
Definition calm : World :=
  {| screen := Sample.screen0;
     documents := [Sample2.coffee; Sample2.tea];
     market_prices := [Sample.prices_row];
     embeddings := true;
     tick := 0;
     trace := [];
     hf_service := fun _ _ => Ok Sample.vector384;
     match_documents := fun _ => Sample.no_reply;
     db_fault := fun _ => None;
     groq_service := fun _ => Ok (Some "report");
     clock := fun n => 1000 + Z.of_nat n |}.

Definition stored_item (similarity : Q) : MatchItem :=
  {| item_content := None;
     item_metadata :=
       Some (new_metadata "Tea" "902" "AUSTRALIA" Sample6.data 1000);
     item_similarity := similarity;
     item_hsn_code := Some "902";
     item_country := Some "AUSTRALIA" |}.
End SampleS.

(** Descending order of the similarities of the fallback's entries. *)
Definition matches_ranked (l : list VectorSimilarProduct) : Prop :=
  StronglySorted (fun a b => (vsp_similarity b <= vsp_similarity a)%Q) l.

Module SampleK.

(** A candidate with neither a name nor a content. *)
Definition bare : MatchItem :=
  {| item_content := None;
     item_metadata :=
       Some {| md_hsn_code := Some "905"; md_name := None;
               md_country := Some "KENYA";
               md_type := Some product_with_history; md_description := None;
               md_years := None; md_prices := None; md_currencies := None;
               md_created_at := None; md_updated_at := None |};
     item_similarity := 9 # 10;
     item_hsn_code := Some "905";
     item_country := Some "KENYA" |}.

(** The search answers with the strong candidate of [Sample1] and then
    the bare one. *)
Definition world (items : list MatchItem) : World :=
  {| screen := Sample.screen0;
     documents := [Sample2.coffee; Sample2.tea];
     market_prices := [Sample.prices_row];
     embeddings := true;
     tick := 0;
     trace := [];
     hf_service := fun _ _ => Ok Sample.vector384;
     match_documents := fun _ => {| data := Some items; error := None |};
     db_fault := fun _ => None;
     groq_service := fun _ => Ok (Some "report");
     clock := fun n => 1000 + Z.of_nat n |}.
End SampleK.

(** The candidate has a name in its metadata, or a content to take one
    from. *)
Definition nameable (item : MatchItem) : Prop :=
  truthy_str (metadata_name (item_metadata item)) = true
  \/ item_content item <> None.

(** ** The screen around an analysis *)

(** The inputs of the screen: the three fields and the two switches. *)
Definition same_inputs (w w' : World) : Prop :=
  product (screen w') = product (screen w) /\
  hsnCode (screen w') = hsnCode (screen w) /\
  country (screen w') = country (screen w) /\
  useAI (screen w') = useAI (screen w) /\
  useEmbeddings (screen w') = useEmbeddings (screen w).

Definition same_prediction (w w' : World) : Prop :=
  prediction (screen w') = prediction (screen w).

Definition same_similar (w w' : World) : Prop :=
  similarProducts (screen w') = similarProducts (screen w) /\
  similarHistoricalData (screen w') = similarHistoricalData (screen w).

(** What [reset_screen] leaves on the screen. *)
Definition cleared (s : Screen) : Screen :=
  {| product := product s; hsnCode := hsnCode s; country := country s;
     result := ""; isLoading := true; isLoadingSimilar := false;
     ui_historicalData := []; useAI := useAI s; prediction := "";
     similarProducts := []; similarHistoricalData := [];
     useEmbeddings := useEmbeddings s |}.

(** What the [finally] of [handleAnalyze] leaves on the screen. *)
Definition settled (s : Screen) : Screen :=
  {| product := product s; hsnCode := hsnCode s; country := country s;
     result := result s; isLoading := false; isLoadingSimilar := false;
     ui_historicalData := ui_historicalData s; useAI := useAI s;
     prediction := prediction s; similarProducts := similarProducts s;
     similarHistoricalData := similarHistoricalData s;
     useEmbeddings := useEmbeddings s |}.

(** [R] allows every step that an analysis with the switches of [s] can
    take between the reset of the screen and the [finally]. *)
Definition respects (s : Screen) (R : World -> World -> Prop) : Prop :=
  Framing R /\
  (forall v, frame R (setResult v)) /\
  (forall v, frame R (setHistoricalData v)) /\
  (useEmbeddings s = true ->
   StoreFraming R /\ (forall v, frame R (setIsLoadingSimilar v)) /\
   (forall v, frame R (setSimilarProducts v)) /\
   (forall v, frame R (setSimilarHistoricalData v))) /\
  (useAI s = true -> forall v, frame R (setPrediction v)).

Definition MISSING_INFORMATION : Event :=
  EvAlert "Missing Information" "Please fill in all fields before analyzing".

Module SampleH.
(** The screen of [Sample.screen0] with both switches off. *)
Definition plain : Screen :=
  {| product := "Tea"; hsnCode := "902"; country := "australia";
     result := "stale"; isLoading := false; isLoadingSimilar := false;
     ui_historicalData := []; useAI := false; prediction := "stale";
     similarProducts := []; similarHistoricalData := [];
     useEmbeddings := false |}.

(** Local analysis, with the similarity search. *)
Definition searching : Screen :=
  {| product := "Tea"; hsnCode := "902"; country := "australia";
     result := ""; isLoading := false; isLoadingSimilar := false;
     ui_historicalData := []; useAI := false; prediction := "";
     similarProducts := []; similarHistoricalData := [];
     useEmbeddings := true |}.

(** A market whose column is null in the row of the code. *)
Definition elsewhere : Screen :=
  {| product := "Tea"; hsnCode := "902"; country := "china";
     result := ""; isLoading := false; isLoadingSimilar := false;
     ui_historicalData := []; useAI := true; prediction := "";
     similarProducts := []; similarHistoricalData := [];
     useEmbeddings := true |}.

Definition local : World := with_screen plain Sample.world0.
Definition local_search : World := with_screen searching Sample.world0.
Definition no_market : World := with_screen elsewhere Sample.world0.
End SampleH.

(** * Properties *)

Unset Implicit Arguments.

(** ** Lists, the sort and the slice *)

Section SortFacts.
Variable A : Type.
Variable cmp : A -> A -> option Q.

Lemma insert_In (x y : A) (l : list A) :
  In y (insert cmp x l) <-> y = x \/ In y l.
Proof.
  induction l as [|z t IH]; simpl.
  - intuition.
  - destruct (before cmp x z); simpl; rewrite ?IH; intuition.
Qed.

Lemma sort_In (y : A) (l : list A) : In y (sort cmp l) <-> In y l.
Proof.
  induction l as [|x t IH]; simpl; [reflexivity|].
  unfold sort in IH. rewrite insert_In, IH. intuition.
Qed.

Lemma insert_length (x : A) (l : list A) :
  List.length (insert cmp x l) = S (List.length l).
Proof.
  induction l as [|z t IH]; simpl; [reflexivity|].
  destruct (before cmp x z); simpl; congruence.
Qed.

Lemma sort_length (l : list A) : List.length (sort cmp l) = List.length l.
Proof.
  induction l as [|x t IH]; [reflexivity|].
  change (sort cmp (x :: t)) with (insert cmp x (sort cmp t)).
  rewrite insert_length. simpl. f_equal. exact IH.
Qed.

Lemma sort_Forall (P : A -> Prop) (l : list A) :
  Forall P l -> Forall P (sort cmp l).
Proof.
  rewrite !Forall_forall. intros H x Hx. apply H, sort_In, Hx.
Qed.

(** The sort orders every list whose members the comparator compares
    consistently with a transitive relation [R]. *)
Variable P : A -> Prop.
Variable R : A -> A -> Prop.
Hypothesis before_true : forall x y, P x -> P y -> before cmp x y = true -> R x y.
Hypothesis before_false : forall x y, P x -> P y -> before cmp x y = false -> R y x.
Hypothesis R_trans : forall x y z, P x -> P y -> P z -> R x y -> R y z -> R x z.

Lemma insert_sorted (x : A) (l : list A) :
  P x -> Forall P l -> StronglySorted R l -> StronglySorted R (insert cmp x l).
Proof.
  intros Px Pl Hs. induction Hs as [|z t Hs IH Hz]; simpl.
  - repeat constructor.
  - inversion Pl as [|? ? Pz Pt]; subst.
    destruct (before cmp x z) eqn:E.
    + constructor; [constructor; assumption|].
      constructor; [apply before_true; assumption|].
      rewrite Forall_forall in *. intros u Hu.
      apply R_trans with z; auto.
    + constructor; [apply IH; assumption|].
      rewrite Forall_forall in *. intros u Hu.
      apply insert_In in Hu. destruct Hu as [->|Hu]; auto.
Qed.

Lemma sort_sorted (l : list A) : Forall P l -> StronglySorted R (sort cmp l).
Proof.
  induction 1 as [|x t Px Pt IH]; simpl; [constructor|].
  apply insert_sorted; auto. apply sort_Forall; assumption.
Qed.
End SortFacts.

Lemma firstn_In (A : Type) (n : nat) (l : list A) (x : A) :
  In x (firstn n l) -> In x l.
Proof.
  revert n. induction l as [|y t IH]; intros [|n]; simpl; try tauto.
  intros [->|H]; [left; reflexivity|right; eauto].
Qed.

Lemma firstn_sorted (A : Type) (R : A -> A -> Prop) (n : nat) (l : list A) :
  StronglySorted R l -> StronglySorted R (firstn n l).
Proof.
  intros Hs. revert n. induction Hs as [|x t Hs IH Hx]; intros [|n]; simpl;
    try constructor; auto.
  rewrite Forall_forall in *. intros u Hu. apply Hx.
  revert Hu. apply firstn_In.
Qed.

Lemma firstn_Forall (A : Type) (P : A -> Prop) (n : nat) (l : list A) :
  Forall P l -> Forall P (firstn n l).
Proof.
  rewrite !Forall_forall. intros H x Hx. apply H. revert Hx. apply firstn_In.
Qed.

Lemma filter_map_In (A B : Type) (f : A -> option B) (l : list A) (y : B) :
  In y (filter_map f l) <-> exists x, In x l /\ f x = Some y.
Proof.
  induction l as [|x t IH]; simpl.
  - split; [tauto|intros [? [[] _]]].
  - destruct (f x) as [z|] eqn:E; simpl; rewrite IH; split.
    + intros [Hz|[u [Hu Hf]]]; [exists x; split; [auto|congruence]|eauto].
    + intros [u [[Hx|Hu] Hf]]; [left; congruence|right; eauto].
    + intros [u [Hu Hf]]; eauto.
    + intros [u [[Hx|Hu] Hf]]; [congruence|eauto].
Qed.

Lemma filter_sorted (A : Type) (R : A -> A -> Prop) (f : A -> bool) (l : list A) :
  StronglySorted R l -> StronglySorted R (filter f l).
Proof.
  induction 1 as [|x t Hs IH Hx]; simpl; [constructor|].
  destruct (f x); [constructor|]; auto.
  rewrite Forall_forall in *. intros u Hu. apply Hx.
  apply filter_In in Hu. tauto.
Qed.

(** ** Frames *)

Lemma external_run (e : Event) (w : World) :
  external e w = (Ok (tick w), after_call e w).
Proof. reflexivity. Qed.


Section Frames.
Variable R : World -> World -> Prop.
Context `{Framing R}.

Lemma frame_ret (A : Type) (a : A) : frame R (ret a).
Proof. intros w. apply fr_refl. Qed.

Lemma frame_throw (A : Type) (e : Thrown) : frame R (@throw A e).
Proof. intros w. apply fr_refl. Qed.

Lemma frame_lift (A : Type) (r : Result A) : frame R (lift r).
Proof. intros w. apply fr_refl. Qed.

Lemma frame_get : frame R get.
Proof. intros w. apply fr_refl. Qed.

Lemma frame_bind (A B : Type) (m : M A) (k : A -> M B) :
  frame R m -> (forall a, frame R (k a)) -> frame R (bind m k).
Proof.
  intros Hm Hk w. unfold bind. specialize (Hm w).
  destruct (m w) as [[a|e] w1]; simpl in *; [|exact Hm].
  apply fr_trans with w1; [exact Hm|apply Hk].
Qed.

Lemma frame_try_catch (A : Type) (m : M A) (h : Thrown -> M A) :
  frame R m -> (forall e, frame R (h e)) -> frame R (try_catch m h).
Proof.
  intros Hm Hh w. unfold try_catch. specialize (Hm w).
  destruct (m w) as [[a|e] w1]; simpl in *; [exact Hm|].
  apply fr_trans with w1; [exact Hm|apply Hh].
Qed.

Lemma frame_try_finally (A : Type) (m : M A) (f : M unit) :
  frame R m -> frame R f -> frame R (try_finally m f).
Proof.
  intros Hm Hf w. unfold try_finally. specialize (Hm w).
  destruct (m w) as [r w1]. specialize (Hf w1).
  destruct (f w1) as [[u|e] w2]; simpl in *; apply fr_trans with w1; assumption.
Qed.

Lemma frame_external (e : Event) : frame R (external e).
Proof. intros w. rewrite external_run. apply fr_call. Qed.

Lemma frame_log (e : Event) : frame R (log e).
Proof. intros w. apply fr_log. Qed.

Lemma frame_now : frame R now.
Proof. intros w. apply fr_now. Qed.

Lemma frame_put_embeddings (b : bool) : frame R (put (with_embeddings b)).
Proof. intros w. apply fr_embeddings. Qed.
End Frames.

Lemma frame_set_screen (R : World -> World -> Prop) `{ScreenFraming R}
  (f : Screen -> Screen) : frame R (set_screen f).
Proof. intros w. apply fr_screen. Qed.

Create HintDb frames.

#[global] Hint Resolve frame_ret frame_throw frame_lift frame_get frame_external
  frame_log frame_now frame_set_screen frame_put_embeddings : frames.

(** One step of a frame proof: split the computation at its head. *)
Ltac frame_step :=
  match goal with
  | |- Framing _ => solve [assumption | typeclasses eauto]
  | |- StoreFraming _ => solve [assumption | typeclasses eauto]
  | |- ScreenFraming _ => solve [assumption | typeclasses eauto]
  | |- forall _, _ => intro
  | |- frame _ (bind _ _) => apply frame_bind
  | |- frame _ (try_catch _ _) => apply frame_try_catch
  | |- frame _ (try_finally _ _) => apply frame_try_finally
  | |- frame _ (match ?x with _ => _ end) => destruct x
  | |- frame _ _ => solve [auto with frames]
  end.

Ltac frames := repeat frame_step.

Section FramedOperations.
Variable R : World -> World -> Prop.
Context `{Framing R}.

Lemma frame_embedQuery (text : string) : frame R (embedQuery text).
Proof. unfold embedQuery. frames. Qed.

Lemma frame_initializeEmbeddings : frame R initializeEmbeddings.
Proof. unfold initializeEmbeddings. frames. apply frame_embedQuery. Qed.

Lemma frame_ensure_embeddings : frame R ensure_embeddings.
Proof.
  unfold ensure_embeddings. frames. apply frame_initializeEmbeddings.
Qed.

Lemma frame_generateEmbedding_from (text : string) (retries : nat) :
  forall left attempt, frame R (generateEmbedding_from text retries left attempt).
Proof.
  induction left as [|left IH]; intros attempt; cbn [generateEmbedding_from].
  - frames.
  - frames; auto using frame_ensure_embeddings, frame_embedQuery.
    unfold sleep. frames.
Qed.

Lemma frame_generateEmbedding (text : string) (retries : nat) :
  frame R (generateEmbedding text retries).
Proof. apply frame_generateEmbedding_from. Qed.

Lemma frame_select_id (hsn country : string) : frame R (select_id hsn country).
Proof. unfold select_id. frames. Qed.

Lemma frame_rpc_match_documents (threshold : Q) (count : Z) :
  frame R (rpc_match_documents threshold count).
Proof. unfold rpc_match_documents. frames. Qed.

Lemma frame_scan_documents (ex : option string) : frame R (scan_documents ex).
Proof. unfold scan_documents. frames. Qed.

Lemma frame_post_completion (n : Z) (prompt : string) :
  frame R (post_completion n prompt).
Proof. unfold post_completion. frames. Qed.

Lemma frame_generateMarketPrediction (historicalData : list HistoricalData)
  (productName country : string) (similarProducts : list SimilarProduct) :
  frame R (generateMarketPrediction historicalData productName country
             similarProducts).
Proof.
  unfold generateMarketPrediction. frames. apply frame_post_completion.
Qed.

Lemma frame_searchSimilarProductsSimple (query : string)
  (ex : option string) (k : nat) :
  frame R (searchSimilarProductsSimple query ex k).
Proof.
  unfold searchSimilarProductsSimple. frames. apply frame_scan_documents.
Qed.
End FramedOperations.

(** ** Historical data accessor *)

Lemma Qltb_lt (a b : Q) : Qltb a b = true <-> (a < b)%Q.
Proof.
  unfold Qltb. rewrite negb_true_iff. split.
  - intros H. apply Qnot_le_lt. intros Hle.
    apply Qle_bool_iff in Hle. congruence.
  - intros H. destruct (Qle_bool b a) eqn:E; [|reflexivity].
    apply Qle_bool_iff in E. exfalso. exact (Qlt_not_le _ _ H E).
Qed.

Lemma valid_record_spec (kv : string * JsValue) (r : HistoricalData) :
  valid_record kv = Some r ->
  year r = fst kv /\ currency r = "USD" /\ (0 < price r)%Q
  /\ parseFloat_value (snd kv) = Some (price r).
Proof.
  unfold valid_record. destruct (parseFloat_value (snd kv)) as [p|]; [|discriminate].
  destruct (Qltb 0 p) eqn:E; [|discriminate].
  intros [= <-]. simpl. apply Qltb_lt in E. auto.
Qed.

Lemma valid_record_complete (kv : string * JsValue) (p : Q) :
  parseFloat_value (snd kv) = Some p -> (0 < p)%Q ->
  exists r, valid_record kv = Some r.
Proof.
  intros Hp Hpos. unfold valid_record. rewrite Hp.
  apply Qltb_lt in Hpos. rewrite Hpos. eauto.
Qed.

Lemma before_by_year_true (a b : HistoricalData) :
  has_year a -> has_year b -> before by_year_desc a b = true -> year_ge a b.
Proof.
  intros [ya Ha] [yb Hb]. unfold before, by_year_desc. rewrite Ha, Hb.
  intros H. apply Qle_bool_iff in H. exists ya, yb. repeat split; auto.
  change 0%Q with (inject_Z 0) in H. rewrite <- Zle_Qle in H. lia.
Qed.

Lemma before_by_year_false (a b : HistoricalData) :
  has_year a -> has_year b -> before by_year_desc a b = false -> year_ge b a.
Proof.
  intros [ya Ha] [yb Hb]. unfold before, by_year_desc. rewrite Ha, Hb.
  intros H. exists yb, ya. repeat split; auto.
  destruct (Z_le_gt_dec ya yb) as [Hle|Hgt]; [exact Hle|].
  assert (Hq : (inject_Z (yb - ya) <= inject_Z 0)%Q) by (rewrite <- Zle_Qle; lia).
  apply Qle_bool_iff in Hq. change (inject_Z 0) with 0%Q in Hq. congruence.
Qed.

Lemma year_ge_trans (a b c : HistoricalData) :
  has_year a -> has_year b -> has_year c -> year_ge a b -> year_ge b c -> year_ge a c.
Proof.
  intros _ _ _ [ya [yb [Ha [Hb Hab]]]] [yb' [yc [Hb' [Hc Hbc]]]].
  exists ya, yc. repeat split; auto. rewrite Hb in Hb'. injection Hb' as <-. lia.
Qed.

Section AccessorFacts.
Variable JSON_parse : string -> option JsValue.

(** What [parseCountryData] returns, from the entries of the column. *)
Lemma parseCountryData_entries (cell : JsValue) (kvs : list (string * JsValue)) :
  column_entries JSON_parse cell = Ok kvs ->
  parseCountryData JSON_parse cell
  = Ok (firstn 5 (sort by_year_desc (filter_map valid_record kvs))).
Proof.
  intros H. unfold parseCountryData. rewrite H. reflexivity.
Qed.

Lemma parseCountryData_inv (cell : JsValue) (l : list HistoricalData) :
  parseCountryData JSON_parse cell = Ok l ->
  exists kvs, l = firstn 5 (sort by_year_desc (filter_map valid_record kvs)).
Proof.
  unfold parseCountryData.
  destruct (column_entries JSON_parse cell) as [kvs|e]; [|discriminate].
  intros [= <-]. exists kvs. reflexivity.
Qed.

Lemma parsed_Forall (P : HistoricalData -> Prop) (kvs : list (string * JsValue)) :
  (forall kv r, valid_record kv = Some r -> P r) ->
  Forall P (firstn 5 (sort by_year_desc (filter_map valid_record kvs))).
Proof.
  intros H. apply firstn_Forall, sort_Forall, Forall_forall.
  intros r Hr. apply filter_map_In in Hr. destruct Hr as [kv [_ Hkv]]. eauto.
Qed.

Lemma fetchHistoricalData_inv (hsnCode country : string) (w w' : World)
  (l : list HistoricalData) :
  fetchHistoricalData JSON_parse hsnCode country w = (Ok l, w') ->
  exists cell, parseCountryData JSON_parse cell = Ok l.
Proof.
  unfold fetchHistoricalData, try_catch, bind.
  destruct (select_prices (parseInt hsnCode) w) as [[reply|e] w1]; [|discriminate].
  destruct (error reply); [discriminate|].
  destruct (data reply) as [row|]; [|discriminate].
  destruct (falsy (obj_get country row)).
  - destruct (available_columns row); discriminate.
  - unfold lift.
    destruct (parseCountryData JSON_parse _) as [recs|e] eqn:E; [|discriminate].
    destruct recs; [discriminate|]. unfold ret. intros [= <- <-]. eauto.
Qed.
End AccessorFacts.

Lemma select_prices_found (code : Z) (row : PriceRow) (w : World) :
  db_fault w (tick w) = None ->
  filter (code_matches code) (market_prices w) = [row] ->
  select_prices (Some code) w
  = (Ok {| data := Some row; error := None |},
     after_call (EvSelectPrices (Some code)) w).
Proof.
  intros Hf Hrow. unfold select_prices, bind, external, get, log, put, ret.
  simpl. rewrite Hf, Hrow. reflexivity.
Qed.

(** C10. Every record that [parseCountryData] builds, and so every record
    that [fetchHistoricalData] returns, has the currency ["USD"], whatever
    the stored column says. *)
Theorem parsed_currency_is_USD :
  forall (JSON_parse : string -> option JsValue) (cell : JsValue)
         (hsnCode country : string) (w : World),
    (forall l, parseCountryData JSON_parse cell = Ok l ->
               Forall (fun r => currency r = "USD") l) /\
    (forall l w', fetchHistoricalData JSON_parse hsnCode country w = (Ok l, w') ->
                  Forall (fun r => currency r = "USD") l).
Proof.
  intros JSON_parse cell hsnCode country w.
  assert (Hall : forall c l, parseCountryData JSON_parse c = Ok l ->
                             Forall (fun r => currency r = "USD") l).
  { intros c l H. apply parseCountryData_inv in H. destruct H as [kvs ->].
    apply parsed_Forall. intros kv r Hr. apply valid_record_spec in Hr. tauto. }
  split.
  - apply Hall.
  - intros l w' H. apply fetchHistoricalData_inv in H. destruct H as [c Hc]. eauto.
Qed.

Lemma parsed_currency_is_USD_witness :
  Forall (fun r => currency r = "USD")
    [{| year := "2024"; price := 120; currency := "USD" |};
     {| year := "2023"; price := 100; currency := "USD" |}].
Proof.
  apply (proj2 (parsed_currency_is_USD Sample.no_json JNull "902" "AUSTRALIA"
                  Sample.world0)
           _ (after_call (EvSelectPrices (Some 902)) Sample.world0)).
  vm_compute. reflexivity.
Defined.

(** C4, as the code has it.  When the lookup finds the row, the market
    column is there and one of its entries has a positive price,
    [fetchHistoricalData] returns a non-empty list of at most five
    records, all with a positive price; when moreover every such entry
    has a label that starts with a number, the list is in descending
    order of that number, equal numbers allowed. *)
Theorem fetchHistoricalData_sorted_capped_positive :
  forall (JSON_parse : string -> option JsValue) (hsnCode country : string)
         (w : World) (code : Z) (row : PriceRow) (cell : JsValue)
         (kvs : list (string * JsValue)),
    db_fault w (tick w) = None ->
    parseInt hsnCode = Some code ->
    filter (code_matches code) (market_prices w) = [row] ->
    obj_get country row = Some cell ->
    falsy (Some cell) = false ->
    column_entries JSON_parse cell = Ok kvs ->
    (exists kv p, In kv kvs /\ parseFloat_value (snd kv) = Some p /\ (0 < p)%Q) ->
    exists records,
      fetchHistoricalData JSON_parse hsnCode country w
      = (Ok records, after_call (EvSelectPrices (Some code)) w) /\
      records <> [] /\
      (List.length records <= 5)%nat /\
      Forall (fun r => (0 < price r)%Q) records /\
      (Forall has_year (filter_map valid_record kvs) ->
       StronglySorted year_ge records).
Proof.
  intros JSON_parse hsnCode country w code row cell kvs
         Hfault Hcode Hrow Hcell Hfalsy Hkvs [kv [p [Hin [Hp Hpos]]]].
  set (valid := filter_map valid_record kvs).
  set (records := firstn 5 (sort by_year_desc valid)).
  assert (Hne : records <> []).
  { destruct (valid_record_complete kv p Hp Hpos) as [r Hr].
    assert (Hv : In r valid) by (apply filter_map_In; eauto).
    assert (Hlen : (0 < List.length (sort by_year_desc valid))%nat).
    { rewrite sort_length. destruct valid; [destruct Hv|simpl; lia]. }
    unfold records. destruct (sort by_year_desc valid); simpl in *; [lia|discriminate]. }
  exists records. split; [|split; [exact Hne|split; [|split]]].
  - unfold fetchHistoricalData, try_catch, bind. rewrite Hcode.
    rewrite (select_prices_found code row w Hfault Hrow). simpl.
    rewrite Hcell. rewrite Hfalsy. unfold lift.
    rewrite (parseCountryData_entries JSON_parse cell kvs Hkvs).
    fold valid. fold records. destruct records; [congruence|reflexivity].
  - unfold records. apply firstn_le_length.
  - apply parsed_Forall. intros kv' r Hr. apply valid_record_spec in Hr. tauto.
  - intros Hyears. apply firstn_sorted.
    apply sort_sorted with (P := has_year).
    + apply before_by_year_true.
    + apply before_by_year_false.
    + apply year_ge_trans.
    + exact Hyears.
Qed.

Lemma fetchHistoricalData_sorted_capped_positive_witness :
  exists records,
    fetchHistoricalData Sample.no_json "902" "AUSTRALIA" Sample.world0
    = (Ok records, after_call (EvSelectPrices (Some 902)) Sample.world0) /\
    records <> [] /\
    (List.length records <= 5)%nat /\
    Forall (fun r => (0 < price r)%Q) records /\
    (Forall has_year
       (filter_map valid_record [("2023", JNum 100); ("2024", JStr "120")]) ->
     StronglySorted year_ge records).
Proof.
  apply (fetchHistoricalData_sorted_capped_positive
           Sample.no_json "902" "AUSTRALIA" Sample.world0 902 Sample.prices_row
           (JObj [("2023", JNum 100); ("2024", JStr "120")])
           [("2023", JNum 100); ("2024", JStr "120")]).
  - reflexivity.
  - vm_compute. reflexivity.
  - vm_compute. reflexivity.
  - vm_compute. reflexivity.
  - reflexivity.
  - reflexivity.
  - exists ("2023", JNum 100), 100%Q. split; [left; reflexivity|].
    split; reflexivity.
Defined.

(** C4, the claim as stated fails: two labels of one column may start with
    the same year, and the returned list is then not strictly
    descending. *)
Lemma fetchHistoricalData_strict_counterexample :
  exists r1 r2 w',
    fetchHistoricalData Sample.no_json "902" "INDIA" Sample.world0
    = (Ok [r1; r2], w') /\
    leading_year r1 = Some 2020 /\ leading_year r2 = Some 2020 /\
    ~ StronglySorted year_gt [r1; r2].
Proof.
  exists {| year := "2020-2021"; price := 10; currency := "USD" |},
         {| year := "2020-2022"; price := 12; currency := "USD" |},
         (after_call (EvSelectPrices (Some 902)) Sample.world0).
  split; [vm_compute; reflexivity|].
  split; [vm_compute; reflexivity|].
  split; [vm_compute; reflexivity|].
  intros Hs. inversion Hs as [|? ? _ Hall]; subst.
  inversion Hall as [|? ? [ya [yb [Ha [Hb Hlt]]]] _]; subst.
  vm_compute in Ha. vm_compute in Hb.
  injection Ha as <-. injection Hb as <-. lia.
Qed.

(** ** Local analysis *)

(** C5. On [(2024, 120), (2023, 100)] the local analysis finds the trend
    "increasing", a recent change of 20.0 percent and the position at the
    highest historical price; on [(2024, 100), (2023, 120)] it finds the
    trend "decreasing" and a recent change of -50/3 percent, which is
    -16.67 to two decimals. *)
Theorem analyzeLocalData_examples :
  (trend (Sample5.record "2024" 120) [Sample5.record "2023" 100] = "increasing" /\
   (recentChange (Sample5.record "2024" 120) [Sample5.record "2023" 100] == 20)%Q /\
   toFixed (recentChange (Sample5.record "2024" 120) [Sample5.record "2023" 100]) 1
   = "20.0" /\
   market_position (Sample5.record "2024" 120) [Sample5.record "2023" 100]
   = "🔥 At HIGHEST historical price" /\
   includes (analyzeLocalData Sample5.rising "Tea" "AUSTRALIA" "902" [])
            ("Recent Trend: INCREASING" ++ nl ++ "• Recent Change: +20.0%") = true /\
   includes (analyzeLocalData Sample5.rising "Tea" "AUSTRALIA" "902" [])
            "🔥 At HIGHEST historical price" = true)
  /\
  (trend (Sample5.record "2024" 100) [Sample5.record "2023" 120] = "decreasing" /\
   (recentChange (Sample5.record "2024" 100) [Sample5.record "2023" 120]
    == - (50 # 3))%Q /\
   toFixed (recentChange (Sample5.record "2024" 100) [Sample5.record "2023" 120]) 2
   = "-16.67" /\
   includes (analyzeLocalData Sample5.falling "Tea" "AUSTRALIA" "902" [])
            "Recent Trend: DECREASING" = true).
Proof.
  repeat split; vm_compute; reflexivity.
Qed.

(** ** The empty operation *)

(** C9. [initializeProductEmbedding] does nothing for every input: it
    returns, and the world it leaves (both tables, the module state, the
    clock position and the log of external calls) is the world it
    found. *)
Theorem initializeProductEmbedding_noop :
  forall (productName hsnCode country : string) (w : World),
    initializeProductEmbedding productName hsnCode country w = (Ok tt, w).
Proof.
  intros. reflexivity.
Qed.

(** ** Embedding client *)

Lemma embedQuery_run (text : string) (w : World) :
  embedQuery text w = (hf_service w (tick w) text, after_call (EvEmbed text) w).
Proof.
  unfold embedQuery, bind. rewrite external_run. unfold get, lift. reflexivity.
Qed.

Lemma initializeEmbeddings_mismatch (w : World) (v : list Q) :
  hf_service w (tick w) "test" = Ok v ->
  List.length v <> EXPECTED_DIMENSIONS ->
  initializeEmbeddings w = (Throw (init_error v), after_call (EvEmbed "test") w).
Proof.
  intros Hv Hlen.
  unfold initializeEmbeddings, try_catch, bind.
  rewrite embedQuery_run, Hv.
  apply Nat.eqb_neq in Hlen. rewrite Hlen. reflexivity.
Qed.

Lemma failed_attempt (text : string) (w : World) (v : list Q) :
  embeddings w = false ->
  hf_service w (tick w) "test" = Ok v ->
  List.length v <> EXPECTED_DIMENSIONS ->
  bind ensure_embeddings
    (fun _ => bind (embedQuery text)
       (fun embedding =>
          if negb (List.length embedding =? EXPECTED_DIMENSIONS)%nat
          then throw (JsError ("Generated embedding has "
                               ++ string_of_nat (List.length embedding)
                               ++ " dimensions, expected "
                               ++ string_of_nat EXPECTED_DIMENSIONS) None)
          else ret embedding)) w
  = (Throw (init_error v), after_call (EvEmbed "test") w).
Proof.
  intros He Hv Hlen. unfold bind at 1. unfold ensure_embeddings.
  unfold bind at 1. unfold get at 1. rewrite He.
  unfold bind at 1. rewrite (initializeEmbeddings_mismatch w v Hv Hlen).
  reflexivity.
Qed.

Lemma generateEmbedding_from_mismatch (text : string) (retries : nat) :
  forall (left attempt : nat) (w : World),
    (attempt + left = S retries)%nat -> (1 <= left)%nat ->
    embeddings w = false -> probe_mismatch w ->
    exists v w',
      generateEmbedding_from text retries left attempt w
      = (Throw (JsError ("Failed to generate embedding after "
                         ++ string_of_nat retries ++ " attempts: "
                         ++ to_string (init_error v)) None), w') /\
      List.length v <> EXPECTED_DIMENSIONS /\
      trace w' = (trace w ++ retry_trace left attempt)%list /\
      embeddings w' = false /\
      documents w' = documents w.
Proof.
  induction left as [|left IH]; intros attempt w Hsum Hpos He Hbad; [lia|].
  destruct (Hbad (tick w)) as [v [Hv Hlen]].
  cbn [generateEmbedding_from]. unfold try_catch.
  rewrite (failed_attempt text w v He Hv Hlen).
  destruct left as [|left].
  - assert (attempt = retries) as -> by lia.
    rewrite Nat.eqb_refl. exists v, (after_call (EvEmbed "test") w).
    repeat split; auto.
  - assert (Hneq : (attempt =? retries)%nat = false) by (apply Nat.eqb_neq; lia).
    rewrite Hneq.
    unfold bind at 1. unfold sleep, log, put.
    set (w1 := with_trace _ (after_call (EvEmbed "test") w)).
    destruct (IH (S attempt) w1) as [v' [w' [Hrun [Hlen' [Htr [He' Hd]]]]]];
      [lia|lia|exact He|exact Hbad|].
    exists v', w'. split; [exact Hrun|]. split; [exact Hlen'|].
    split; [|split; [exact He'|rewrite Hd; reflexivity]].
    rewrite Htr. subst w1. cbn [trace with_trace after_call with_tick].
    change (retry_trace (S (S left)) attempt)
      with (EvEmbed "test" :: EvSleep (2 ^ Z.of_nat attempt * 1000)
              :: retry_trace (S left) (S attempt)).
    rewrite <- !app_assoc. reflexivity.
Qed.

(** C7, as the code has it.  When the probe of the first use comes back
    with a wrong length, [initializeEmbeddings] fails at once, after the
    one probe; [generateEmbedding] however treats this like any other
    failure: each of its attempts runs the initialization again, with
    waits of [2 ^ attempt] seconds in between, and only the last attempt
    surfaces the error. *)
Theorem generateEmbedding_retries_initialization :
  forall (text : string) (retries : nat) (w : World),
    (1 <= retries)%nat ->
    embeddings w = false ->
    probe_mismatch w ->
    (exists v,
       initializeEmbeddings w
       = (Throw (init_error v), after_call (EvEmbed "test") w)) /\
    (exists v w',
       generateEmbedding text retries w
       = (Throw (JsError ("Failed to generate embedding after "
                          ++ string_of_nat retries ++ " attempts: "
                          ++ to_string (init_error v)) None), w') /\
       trace w' = (trace w ++ retry_trace retries 1)%list /\
       embeddings w' = false).
Proof.
  intros text retries w Hpos He Hbad. split.
  - destruct (Hbad (tick w)) as [v [Hv Hlen]]. exists v.
    apply initializeEmbeddings_mismatch; assumption.
  - destruct (generateEmbedding_from_mismatch text retries retries 1 w)
      as [v [w' [Hrun [_ [Htr [He' _]]]]]]; try assumption; [lia|].
    exists v, w'. auto.
Qed.

Lemma generateEmbedding_retries_initialization_witness :
  (exists v,
     initializeEmbeddings Sample7.world
     = (Throw (init_error v), after_call (EvEmbed "test") Sample7.world)) /\
  (exists v w',
     generateEmbedding "Product: Tea" 3 Sample7.world
     = (Throw (JsError ("Failed to generate embedding after "
                        ++ string_of_nat 3 ++ " attempts: "
                        ++ to_string (init_error v)) None), w') /\
     trace w' = (trace Sample7.world ++ retry_trace 3 1)%list /\
     embeddings w' = false).
Proof.
  apply (generateEmbedding_retries_initialization "Product: Tea" 3 Sample7.world).
  - lia.
  - reflexivity.
  - intros n. exists [1; 2; 3]%Q. split; [reflexivity|].
    unfold EXPECTED_DIMENSIONS. simpl. lia.
Defined.

(** C7, the claim as stated fails: with a model of three dimensions
    behind the service, [generateEmbedding] probes three times and waits
    two and four seconds in between, before it gives up. *)
Lemma generateEmbedding_retry_counterexample :
  hf_service Sample7.world 0 "test" = Ok [1; 2; 3]%Q /\
  trace (snd (generateEmbedding "Product: Tea" 3 Sample7.world))
  = [EvEmbed "test"; EvSleep 2000; EvEmbed "test"; EvSleep 4000; EvEmbed "test"] /\
  fst (generateEmbedding "Product: Tea" 3 Sample7.world)
  = Throw (JsError
      "Failed to generate embedding after 3 attempts: Error: Failed to initialize embedding model: Error: Model generates 3 dimensions, expected 384"
      None).
Proof.
  repeat split; vm_compute; reflexivity.
Qed.

(** ** Similarity search: the primary path *)

Lemma Qmin_cases (a b : Q) :
  (Qmin a b = a /\ (a <= b)%Q) \/ (Qmin a b = b /\ (b <= a)%Q).
Proof.
  unfold Qmin. destruct (Qle_bool a b) eqn:E.
  - left. split; [reflexivity|]. apply Qle_bool_iff. exact E.
  - right. split; [reflexivity|]. apply Qlt_le_weak, Qnot_le_lt.
    intros H. apply Qle_bool_iff in H. congruence.
Qed.

Lemma Qmin_le_l (a b : Q) : (Qmin a b <= a)%Q.
Proof.
  destruct (Qmin_cases a b) as [[-> _]|[-> H]]; [apply Qle_refl|exact H].
Qed.

Lemma Qmin_mono (c a b : Q) : (a <= b)%Q -> (Qmin c a <= Qmin c b)%Q.
Proof.
  intros Hab.
  destruct (Qmin_cases c a) as [[-> Ha]|[-> Ha]];
    destruct (Qmin_cases c b) as [[-> Hb]|[-> Hb]].
  - apply Qle_refl.
  - apply Qle_trans with a; assumption.
  - exact Ha.
  - exact Hab.
Qed.

Lemma capped_in_range (s : Q) : (0 <= s * 100)%Q -> in_range (Qmin 100 (s * 100)).
Proof.
  intros H. split; [|apply Qmin_le_l].
  destruct (Qmin_cases 100 (s * 100)) as [[-> _]|[-> _]]; [discriminate|exact H].
Qed.

Lemma capped_mono (a b : Q) :
  (a <= b)%Q -> (Qmin 100 (a * 100) <= Qmin 100 (b * 100))%Q.
Proof.
  intros H. apply Qmin_mono. apply Qmult_le_compat_r; [exact H|discriminate].
Qed.

Lemma passes_gate_range (item : MatchItem) :
  passes_gate item = true -> (0 <= item_similarity item * 100)%Q.
Proof.
  unfold passes_gate. rewrite andb_true_iff. intros [_ H].
  apply Qle_bool_iff in H. apply Qle_trans with 50%Q; [discriminate|exact H].
Qed.

Lemma map_sorted (A B : Type) (R : A -> A -> Prop) (S : B -> B -> Prop)
  (f : A -> B) (l : list A) :
  (forall a b, R a b -> S (f a) (f b)) ->
  StronglySorted R l -> StronglySorted S (map f l).
Proof.
  intros Hf. induction 1 as [|x t Hs IH Hx]; simpl; constructor; auto.
  rewrite Forall_forall in *. intros y Hy.
  apply in_map_iff in Hy. destruct Hy as [u [<- Hu]]. auto.
Qed.

Lemma filter_map_sorted (A B : Type) (R : A -> A -> Prop) (S : B -> B -> Prop)
  (f : A -> option B) (l : list A) :
  (forall a b fa fb, f a = Some fa -> f b = Some fb -> R a b -> S fa fb) ->
  StronglySorted R l -> StronglySorted S (filter_map f l).
Proof.
  intros Hf. induction 1 as [|x t Hs IH Hx]; simpl; [constructor|].
  destruct (f x) as [y|] eqn:E; [|exact IH]. constructor; [exact IH|].
  rewrite Forall_forall in *. intros z Hz.
  apply filter_map_In in Hz. destruct Hz as [u [Hu Hfu]]. eauto.
Qed.

Lemma process_item_gate (hsnCode country : string)
  (acc : list SimilarProduct * list SimilarHistoricalData) (item : MatchItem) :
  process_item hsnCode country acc item
  = if gate hsnCode country item
    then ((fst acc ++ [to_product item])%list,
          match to_historical item with
          | Some h => (snd acc ++ [h])%list
          | None => snd acc
          end)
    else acc.
Proof.
  unfold process_item, gate.
  destruct (own_key hsnCode country item); simpl; [reflexivity|].
  destruct (passes_gate item); [|reflexivity].
  destruct (to_historical item); reflexivity.
Qed.

(** The loop is a filter followed by two maps. *)
Lemma fold_process_item (hsnCode country : string) (items : list MatchItem) :
  forall (ps : list SimilarProduct) (hs : list SimilarHistoricalData),
    fold_left (process_item hsnCode country) items (ps, hs)
    = ((ps ++ map to_product (filter (gate hsnCode country) items))%list,
       (hs ++ filter_map to_historical (filter (gate hsnCode country) items))%list).
Proof.
  induction items as [|item t IH]; intros ps hs.
  - simpl. rewrite !app_nil_r. reflexivity.
  - cbn [fold_left filter]. rewrite process_item_gate. cbn [fst snd].
    destruct (gate hsnCode country item).
    + cbn [map filter_map]. destruct (to_historical item) as [h|];
        rewrite IH, <- !app_assoc; reflexivity.
    + apply IH.
Qed.

Lemma primary_results_eq (hsnCode country : string) (limit : nat)
  (items : list MatchItem) :
  primary_results hsnCode country limit items
  = (firstn limit (map to_product (filter (gate hsnCode country) items)),
     firstn limit (filter_map to_historical (filter (gate hsnCode country) items))).
Proof.
  unfold primary_results, no_results. rewrite fold_process_item. reflexivity.
Qed.

Lemma to_historical_similarity (item : MatchItem) (h : SimilarHistoricalData) :
  to_historical item = Some h ->
  shd_similarity h = Qmin 100 (item_similarity item * 100).
Proof.
  unfold to_historical. destruct (item_metadata item) as [md|]; [|discriminate].
  destruct (md_years md); [|discriminate].
  destruct (md_prices md); [|discriminate].
  intros [= <-]. reflexivity.
Qed.

(** C1, as the code has it.  In the primary path the products are the
    candidates that pass the gate (another key, the record tag, 50 percent
    or more); the historical entries come from the same candidates, those
    among them that carry years and prices, so the 50 percent gate applies
    to both lists.  Both lists are cut to [limit] entries and keep the
    descending ranking of the search. *)
Theorem primary_results_gate_cap_order :
  forall (hsnCode country : string) (limit : nat) (items : list MatchItem),
    let out := primary_results hsnCode country limit items in
    fst out = firstn limit (map to_product (filter (gate hsnCode country) items)) /\
    snd out = firstn limit (filter_map to_historical
                              (filter (gate hsnCode country) items)) /\
    (List.length (fst out) <= limit)%nat /\
    (List.length (snd out) <= limit)%nat /\
    (ranked items -> products_ranked (fst out) /\ historical_ranked (snd out)).
Proof.
  intros hsnCode country limit items out. subst out.
  rewrite primary_results_eq. cbn [fst snd].
  split; [reflexivity|]. split; [reflexivity|].
  split; [apply firstn_le_length|]. split; [apply firstn_le_length|].
  intros Hr. split.
  - apply firstn_sorted.
    apply map_sorted with (R := fun a b => (item_similarity b <= item_similarity a)%Q).
    + intros a b Hab. simpl. apply capped_mono. exact Hab.
    + apply filter_sorted. exact Hr.
  - apply firstn_sorted.
    apply filter_map_sorted
      with (R := fun a b => (item_similarity b <= item_similarity a)%Q).
    + intros a b fa fb Ha Hb Hab.
      rewrite (to_historical_similarity a fa Ha), (to_historical_similarity b fb Hb).
      apply capped_mono. exact Hab.
    + apply filter_sorted. exact Hr.
Qed.

Lemma primary_results_gate_cap_order_witness :
  let out := primary_results "902" "AUSTRALIA" 5 [Sample1.strong; Sample1.weak] in
  fst out = firstn 5 (map to_product
                        (filter (gate "902" "AUSTRALIA")
                                [Sample1.strong; Sample1.weak])) /\
  snd out = firstn 5 (filter_map to_historical
                        (filter (gate "902" "AUSTRALIA")
                                [Sample1.strong; Sample1.weak])) /\
  (List.length (fst out) <= 5)%nat /\
  (List.length (snd out) <= 5)%nat /\
  products_ranked (fst out) /\ historical_ranked (snd out).
Proof.
  pose proof (primary_results_gate_cap_order "902" "AUSTRALIA" 5
                [Sample1.strong; Sample1.weak]) as H.
  cbv zeta in H. destruct H as [H1 [H2 [H3 [H4 H5]]]].
  cbv zeta. repeat split; try assumption; apply H5;
    (constructor; [constructor; [constructor|constructor]
                  |constructor; [vm_compute; discriminate|constructor]]).
Defined.

(** C1, the claim as stated fails: a candidate at 40 percent with a year
    and a price contributes no historical entry. *)
Lemma primary_results_threshold_counterexample :
  to_historical Sample1.weak <> None /\
  own_key "902" "AUSTRALIA" Sample1.weak = false /\
  primary_results "902" "AUSTRALIA" 5 [Sample1.weak] = ([], []) /\
  fst (findSimilarHistoricalData "Tea" "902" "AUSTRALIA" Sample1.records 5
         Sample1.world) = Ok ([], []).
Proof.
  split; [vm_compute; discriminate|].
  repeat split; vm_compute; reflexivity.
Qed.

#[global] Instance same_tables_framing : Framing same_tables.
Proof.
  split; unfold same_tables.
  - tauto.
  - intros a b c H1 H2. decompose [and] H1. decompose [and] H2.
    repeat split; congruence.
  - intros; simpl; tauto.
  - intros; simpl; tauto.
  - intros; simpl; tauto.
  - intros; simpl; tauto.
Qed.

#[global] Instance same_tables_screen : ScreenFraming same_tables.
Proof. split. intros s w. unfold same_tables. simpl. tauto. Qed.

#[global] Instance same_screen_framing : Framing same_screen.
Proof.
  split; unfold same_screen; try (intros; reflexivity).
  intros a b c H1 H2. congruence.
Qed.

#[global] Instance same_screen_store : StoreFraming same_screen.
Proof. split. intros ds w. reflexivity. Qed.

#[global] Instance same_services_framing : Framing same_services.
Proof.
  split; unfold same_services.
  - intros w. repeat split; auto.
  - intros a b c H1 H2. decompose [and] H1. decompose [and] H2.
    repeat split; try congruence. lia.
  - intros; simpl; repeat split; auto.
  - intros; simpl; repeat split; auto.
  - intros; simpl; repeat split; auto.
  - intros; simpl; repeat split; auto.
Qed.

#[global] Instance same_services_screen : ScreenFraming same_services.
Proof. split. intros s w. unfold same_services. simpl. repeat split; auto. Qed.

#[global] Instance same_services_store : StoreFraming same_services.
Proof.
  split. intros ds w. unfold same_services. simpl. repeat split; auto.
Qed.

(** ** Similarity search: the keyword fallback *)

Lemma keyword_similarity_range (words : list string) (doc : Document) :
  in_range (keyword_similarity words doc).
Proof.
  unfold keyword_similarity, in_range.
  set (c := List.length (commonWords words doc)).
  set (m := Nat.max (List.length words) 1).
  assert (Hc : (c <= m)%nat).
  { subst c m. unfold commonWords.
    pose proof (filter_length_le
                  (fun queryWord =>
                     existsb (fun docWord => includes docWord queryWord
                                             || includes queryWord docWord)
                             (allWords doc)) words).
    lia. }
  assert (Hm : (1 <= m)%nat) by (subst m; lia).
  assert (Hmq : (0 < inject_Z (Z.of_nat m))%Q).
  { change 0%Q with (inject_Z 0). rewrite <- Zlt_Qlt. lia. }
  assert (Hcq : (0 <= inject_Z (Z.of_nat c))%Q).
  { change 0%Q with (inject_Z 0). rewrite <- Zle_Qle. lia. }
  assert (Hle : (inject_Z (Z.of_nat c) <= inject_Z (Z.of_nat m))%Q).
  { rewrite <- Zle_Qle. lia. }
  split.
  - apply Qmult_le_0_compat; [|discriminate].
    apply Qle_shift_div_l; [exact Hmq|]. rewrite Qmult_0_l. exact Hcq.
  - setoid_replace 100%Q with (1 * 100)%Q at 2 by reflexivity.
    apply Qmult_le_compat_r; [|discriminate].
    apply Qle_shift_div_r; [exact Hmq|]. rewrite Qmult_1_l. exact Hle.
Qed.

Lemma score_fold_In (words : list string) (docs : list Document) :
  forall (acc : list VectorSimilarProduct) (v : VectorSimilarProduct),
    In v (fold_left (score_document words) docs acc) ->
    In v acc \/
    exists d, In d docs /\ v = to_keyword_match (keyword_similarity words d) d.
Proof.
  induction docs as [|d t IH]; intros acc v Hv; simpl in Hv; [auto|].
  apply IH in Hv. destruct Hv as [Hv|[d' [Hd' ->]]].
  - unfold score_document in Hv.
    destruct (Qltb 20 (keyword_similarity words d)); [|auto].
    apply in_app_or in Hv. destruct Hv as [Hv|[<-|[]]]; [auto|].
    right. exists d. split; [left|]; reflexivity.
  - right. exists d'. split; [right; exact Hd'|reflexivity].
Qed.

(** The rows that the fallback scores. *)
Lemma simple_run (query : string) (ex : option string) (k : nat) (w : World) :
  searchSimilarProductsSimple query ex k w
  = (Ok (match db_fault w (tick w) with
         | Some _ => []
         | None =>
             firstn k (sort by_similarity_desc
                         (fold_left (score_document (queryWords query))
                                    (scan_rows ex (documents w)) []))
         end),
     after_call (EvScan ex) w).
Proof.
  assert (Hscan : scan_documents ex w
                  = (Ok (match db_fault w (tick w) with
                         | Some e => {| data := None; error := Some e |}
                         | None => {| data := Some (scan_rows ex (documents w));
                                      error := None |}
                         end),
                     after_call (EvScan ex) w)).
  { unfold scan_documents. unfold bind at 1. rewrite external_run.
    unfold bind, get. cbn [db_fault documents after_call with_tick with_trace].
    destruct (db_fault w (tick w)); reflexivity. }
  unfold searchSimilarProductsSimple, try_catch. unfold bind at 1.
  rewrite Hscan. destruct (db_fault w (tick w)); reflexivity.
Qed.

Lemma simple_In (query : string) (ex : option string) (k : nat) (w w' : World)
  (l : list VectorSimilarProduct) (v : VectorSimilarProduct) :
  searchSimilarProductsSimple query ex k w = (Ok l, w') -> In v l ->
  exists d, In d (scan_rows ex (documents w))
            /\ v = to_keyword_match (keyword_similarity (queryWords query) d) d.
Proof.
  rewrite simple_run. intros [= <- _] Hv.
  destruct (db_fault w (tick w)); [destruct Hv|].
  apply firstn_In, sort_In, score_fold_In in Hv.
  destruct Hv as [[]|Hv]. exact Hv.
Qed.

Lemma simple_total (query : string) (ex : option string) (k : nat) (w : World) :
  exists l,
    searchSimilarProductsSimple query ex k w = (Ok l, after_call (EvScan ex) w) /\
    (List.length l <= k)%nat /\
    Forall (fun v => in_range (vsp_similarity v)) l.
Proof.
  eexists. split; [apply simple_run|]. split.
  - destruct (db_fault w (tick w)); [simpl; lia|apply firstn_le_length].
  - apply Forall_forall. intros v Hv.
    destruct (simple_In query ex k w _ _ v (simple_run query ex k w) Hv)
      as [d [_ ->]].
    simpl. apply keyword_similarity_range.
Qed.

(** ** Similarity search: the primary path with its fallback *)

Lemma rpc_run (threshold : Q) (count : Z) (w : World) :
  rpc_match_documents threshold count w
  = (Ok (match_documents w (tick w)),
     after_call (EvMatchDocuments threshold count) w).
Proof.
  unfold rpc_match_documents. unfold bind at 1. rewrite external_run.
  reflexivity.
Qed.

Lemma map_result_In (A B : Type) (f : A -> Result B) (l : list A) :
  forall l' y, map_result f l = Ok l' -> In y l' ->
               exists x, In x l /\ f x = Ok y.
Proof.
  induction l as [|x t IH]; intros l' y; simpl.
  - intros [= <-] [].
  - destruct (f x) as [fx|e] eqn:E; [|discriminate].
    destruct (map_result f t) as [ys|e]; [|discriminate].
    intros [= <-] [<-|Hy]; [eauto|].
    destruct (IH ys y eq_refl Hy) as [u [Hu Hf]]. eauto.
Qed.

Lemma keep_item_range (ex : option string) (item : MatchItem) :
  keep_item ex item = true -> (0 <= item_similarity item * 100)%Q.
Proof.
  intros H.
  assert (Hs : Qle_bool (1 # 10) (item_similarity item) = true).
  { unfold keep_item in H. destruct ex as [x|].
    - destruct (truthy_str (Some x)
                && (opt_eqb (item_hsn_code item) x
                    || opt_eqb (metadata_hsn_code (item_metadata item)) x));
        [discriminate|].
      destruct (negb (is_history (item_metadata item))); [discriminate|exact H].
    - destruct (negb (is_history (item_metadata item))); [discriminate|exact H]. }
  apply Qle_bool_iff in Hs.
  apply Qmult_le_0_compat; [|discriminate].
  apply Qle_trans with (1 # 10)%Q; [discriminate|exact Hs].
Qed.

Lemma to_vector_match_similarity (item : MatchItem) (v : VectorSimilarProduct) :
  to_vector_match item = Ok v ->
  vsp_similarity v = Qmin 100 (item_similarity item * 100).
Proof.
  unfold to_vector_match.
  destruct (truthy_str (metadata_name (item_metadata item))).
  - intros [= <-]. reflexivity.
  - destruct (item_content item); [|discriminate]. intros [= <-]. reflexivity.
Qed.

(** [searchSimilarProducts] either hands over to the fallback, on the same
    tables, or returns the mapped candidates of the primary path. *)
Lemma searchSimilarProducts_cases (query : string) (ex : option string)
  (k : nat) (w : World) :
  (exists w1,
     searchSimilarProducts query ex k w
     = searchSimilarProductsSimple query ex k w1 /\ same_tables w w1) \/
  (exists items l w1,
     searchSimilarProducts query ex k w = (Ok l, w1) /\
     map_result to_vector_match (firstn k (filter (keep_item ex) items)) = Ok l).
Proof.
  remember (searchSimilarProducts query ex k w) as res eqn:Hres.
  unfold searchSimilarProducts, try_catch in Hres. unfold bind at 1 in Hres.
  pose proof (frame_generateEmbedding same_tables query 3 w) as Hfr.
  destruct (generateEmbedding query 3 w) as [[emb|e] w1]; simpl in Hfr.
  - unfold bind at 1 in Hres. rewrite rpc_run in Hres.
    set (w2 := after_call _ w1) in *.
    assert (H2 : same_tables w w2).
    { apply fr_trans with w1; [exact Hfr|apply fr_call]. }
    assert (Hfall : (let (r, w') := searchSimilarProductsSimple query ex k w2 in
                     match r with
                     | Ok a => (Ok a, w')
                     | Throw _ => searchSimilarProductsSimple query ex k w'
                     end) = searchSimilarProductsSimple query ex k w2).
    { rewrite simple_run. reflexivity. }
    destruct (error (match_documents w1 (tick w1))).
    { left. exists w2. rewrite Hfall in Hres. auto. }
    destruct (data (match_documents w1 (tick w1))) as [[|i items]|].
    + left. exists w2. rewrite Hfall in Hres. auto.
    + unfold lift in Hres.
      destruct (map_result to_vector_match
                  (slice0 k (filter (keep_item ex) (i :: items)))) as [l|e'] eqn:E.
      * right. exists (i :: items), l, w2. split; [exact Hres|exact E].
      * left. exists w2. auto.
    + left. exists w2. rewrite Hfall in Hres. auto.
  - left. exists w1. auto.
Qed.

Lemma findSimilarHistoricalData_cases (productName hsnCode country : string)
  (historicalData : list HistoricalData) (limit : nat) (w : World) :
  exists w',
    findSimilarHistoricalData productName hsnCode country historicalData limit w
    = (Ok no_results, w') \/
    exists items,
      findSimilarHistoricalData productName hsnCode country historicalData limit w
      = (Ok (primary_results hsnCode country limit items), w').
Proof.
  remember (findSimilarHistoricalData productName hsnCode country
              historicalData limit w) as res eqn:Hres.
  unfold findSimilarHistoricalData, try_catch in Hres. unfold bind at 1 in Hres.
  destruct (storeProductWithHistoricalData _ _ _ _ w) as [[u|e] w1];
    [|exists w1; left; exact Hres].
  unfold bind at 1 in Hres.
  destruct (generateEmbedding _ 3 w1) as [[emb|e] w2];
    [|exists w2; left; exact Hres].
  unfold bind at 1 in Hres. rewrite rpc_run in Hres.
  set (w3 := after_call _ w2) in *. exists w3.
  destruct (error (match_documents w2 (tick w2))); [left; exact Hres|].
  destruct (data (match_documents w2 (tick w2))) as [[|i items]|];
    [left; exact Hres| |left; exact Hres].
  right. exists (i :: items). exact Hres.
Qed.

Lemma primary_results_range (hsnCode country : string) (limit : nat)
  (items : list MatchItem) :
  Forall (fun p => in_range (sp_similarity p))
         (fst (primary_results hsnCode country limit items)) /\
  Forall (fun h => in_range (shd_similarity h))
         (snd (primary_results hsnCode country limit items)).
Proof.
  rewrite primary_results_eq. cbn [fst snd]. split.
  - apply firstn_Forall, Forall_forall. intros p Hp.
    apply in_map_iff in Hp. destruct Hp as [item [<- Hi]].
    apply filter_In in Hi. destruct Hi as [_ Hg].
    unfold gate in Hg. apply andb_true_iff in Hg. destruct Hg as [_ Hg].
    simpl. apply capped_in_range, passes_gate_range, Hg.
  - apply firstn_Forall, Forall_forall. intros h Hh.
    apply filter_map_In in Hh. destruct Hh as [item [Hi Hh]].
    apply filter_In in Hi. destruct Hi as [_ Hg].
    unfold gate in Hg. apply andb_true_iff in Hg. destruct Hg as [_ Hg].
    rewrite (to_historical_similarity item h Hh).
    apply capped_in_range, passes_gate_range, Hg.
Qed.

(** C3. Every similarity that a search returns lies between 0 and 100:
    in [searchSimilarProducts] (by its primary path or by its fallback), in
    the keyword fallback [searchSimilarProductsSimple], and in both lists
    of [findSimilarHistoricalData].  Each of the three always returns. *)
Theorem similarity_scores_in_range :
  forall (query : string) (excludeHsnCode : option string) (k : nat)
         (productName hsnCode country : string)
         (historicalData : list HistoricalData) (limit : nat) (w : World),
    (exists l w',
       searchSimilarProducts query excludeHsnCode k w = (Ok l, w') /\
       Forall (fun v => in_range (vsp_similarity v)) l) /\
    (exists l w',
       searchSimilarProductsSimple query excludeHsnCode k w = (Ok l, w') /\
       Forall (fun v => in_range (vsp_similarity v)) l) /\
    (exists ps hs w',
       findSimilarHistoricalData productName hsnCode country historicalData
         limit w = (Ok (ps, hs), w') /\
       Forall (fun p => in_range (sp_similarity p)) ps /\
       Forall (fun h => in_range (shd_similarity h)) hs).
Proof.
  intros query ex k productName hsnCode country historicalData limit w.
  split; [|split].
  - destruct (searchSimilarProducts_cases query ex k w)
      as [[w1 [-> _]]|[items [l [w1 [-> Hmap]]]]].
    + destruct (simple_total query ex k w1) as [l [-> [_ Hl]]]. eauto.
    + exists l, w1. split; [reflexivity|].
      apply Forall_forall. intros v Hv.
      destruct (map_result_In _ _ _ _ l v Hmap Hv) as [item [Hi Hf]].
      apply firstn_In, filter_In in Hi. destruct Hi as [_ Hkeep].
      rewrite (to_vector_match_similarity item v Hf).
      apply capped_in_range. apply (keep_item_range ex). exact Hkeep.
  - destruct (simple_total query ex k w) as [l [-> [_ Hl]]]. eauto.
  - destruct (findSimilarHistoricalData_cases productName hsnCode country
                historicalData limit w) as [w' [->|[items ->]]].
    + exists [], [], w'. repeat split; constructor.
    + destruct (primary_results_range hsnCode country limit items) as [Hp Hh].
      destruct (primary_results hsnCode country limit items) as [ps hs].
      exists ps, hs, w'. auto.
Qed.

Lemma scan_rows_In (x : string) (ds : list Document) (d : Document) :
  x <> "" -> In d (scan_rows (Some x) ds) -> In d ds /\ neq_hsn x d = true.
Proof.
  intros Hx. unfold scan_rows.
  assert (Ht : truthy_str (Some x) = true).
  { simpl. destruct (String.eqb_spec x ""); [contradiction|reflexivity]. }
  rewrite Ht. intros Hd. apply firstn_In in Hd.
  apply filter_In in Hd. destruct Hd as [Hd Hneq].
  apply filter_In in Hd. tauto.
Qed.

Lemma keyword_match_excludes (x : string) (s : Q) (d : Document) :
  neq_hsn x d = true -> doc_hsn_code d <> Some "" ->
  vsp_hsn_code (to_keyword_match s d) <> x.
Proof.
  unfold neq_hsn. simpl. destruct (doc_hsn_code d) as [c|]; [|discriminate].
  intros Hneq Hc. unfold or_str at 1.
  destruct (String.eqb_spec c ""); [subst; congruence|].
  destruct (String.eqb_spec c x); [discriminate|assumption].
Qed.

(** C2, as the code has it.  In [searchSimilarProducts], when the
    nearest-neighbour query answers with an error, without data or with
    no rows, the keyword fallback runs: the result is the fallback's, the
    table scan is the last interaction, the list has at most [k] entries
    and, when no stored document has an empty code column, none of the
    entries has the excluded code.  [findSimilarHistoricalData] has no
    fallback: in the same situation it returns two empty lists, and the
    query is its last interaction. *)
Theorem fallback_on_failure :
  (forall (query : string) (ex : option string) (k : nat) (w w1 : World)
          (emb : list Q),
     generateEmbedding query 3 w = (Ok emb, w1) ->
     unusable (match_documents w1 (tick w1)) = true ->
     let w2 := after_call (EvMatchDocuments (1 # 10) (Z.of_nat k + 10)) w1 in
     exists l,
       searchSimilarProducts query ex k w = (Ok l, after_call (EvScan ex) w2) /\
       searchSimilarProductsSimple query ex k w2
       = (Ok l, after_call (EvScan ex) w2) /\
       (List.length l <= k)%nat /\
       (forall x, ex = Some x -> x <> "" ->
                  Forall (fun d => doc_hsn_code d <> Some "") (documents w) ->
                  Forall (fun v => vsp_hsn_code v <> x) l)) /\
  (forall (productName hsnCode country : string)
          (historicalData : list HistoricalData) (limit : nat)
          (w wa wb : World) (emb : list Q),
     storeProductWithHistoricalData productName hsnCode country historicalData w
     = (Ok tt, wa) ->
     generateEmbedding
       (render_document productName hsnCode country historicalData) 3 wa
     = (Ok emb, wb) ->
     unusable (match_documents wb (tick wb)) = true ->
     findSimilarHistoricalData productName hsnCode country historicalData limit w
     = (Ok ([], []),
        after_call (EvMatchDocuments (3 # 10) (Z.of_nat limit * 2)) wb)).
Proof.
  split.
  - intros query ex k w w1 emb Hemb Hbad w2.
    destruct (simple_total query ex k w2) as [l [Hrun [Hlen _]]].
    exists l. split; [|split; [exact Hrun|split; [exact Hlen|]]].
    + unfold searchSimilarProducts, try_catch. unfold bind at 1. rewrite Hemb.
      unfold bind at 1. rewrite rpc_run. fold w2.
      unfold unusable in Hbad.
      destruct (error (match_documents w1 (tick w1))).
      { rewrite Hrun. reflexivity. }
      destruct (data (match_documents w1 (tick w1))) as [[|i items]|];
        [rewrite Hrun; reflexivity|discriminate|rewrite Hrun; reflexivity].
    + intros x -> Hx Hdocs. apply Forall_forall. intros v Hv.
      destruct (simple_In query (Some x) k w2 _ l v Hrun Hv) as [d [Hd ->]].
      pose proof (frame_generateEmbedding same_tables query 3 w) as Hfr.
      rewrite Hemb in Hfr. destruct Hfr as [Hsame _]. simpl in Hsame.
      assert (Hw2 : documents w2 = documents w) by (subst w2; simpl; exact Hsame).
      rewrite Hw2 in Hd. apply scan_rows_In in Hd; [|exact Hx].
      destruct Hd as [Hin Hneq].
      apply keyword_match_excludes; [exact Hneq|].
      rewrite Forall_forall in Hdocs. auto.
  - intros productName hsnCode country historicalData limit w wa wb emb
           Hstore Hemb Hbad.
    unfold findSimilarHistoricalData, try_catch. unfold bind at 1. rewrite Hstore.
    unfold bind at 1. rewrite Hemb. unfold bind at 1. rewrite rpc_run.
    unfold unusable in Hbad.
    destruct (error (match_documents wb (tick wb))); [reflexivity|].
    destruct (data (match_documents wb (tick wb))) as [[|i items]|];
      [reflexivity|discriminate|reflexivity].
Qed.

Lemma fallback_on_failure_witness :
  (let w2 := after_call (EvMatchDocuments (1 # 10) (Z.of_nat 5 + 10))
               Sample2.embedded in
   exists l,
     searchSimilarProducts Sample2.query (Some "902") 5 Sample2.world
     = (Ok l, after_call (EvScan (Some "902")) w2) /\
     searchSimilarProductsSimple Sample2.query (Some "902") 5 w2
     = (Ok l, after_call (EvScan (Some "902")) w2) /\
     (List.length l <= 5)%nat /\
     (forall x, Some "902" = Some x -> x <> "" ->
                Forall (fun d => doc_hsn_code d <> Some "")
                       (documents Sample2.world) ->
                Forall (fun v => vsp_hsn_code v <> x) l)) /\
  findSimilarHistoricalData "Tea" "902" "AUSTRALIA" Sample1.records 5
    Sample2.world
  = (Ok ([], []),
     after_call (EvMatchDocuments (3 # 10) (Z.of_nat 5 * 2)) Sample2.searched).
Proof.
  destruct fallback_on_failure as [Hsearch Hfind]. split.
  - apply (Hsearch Sample2.query (Some "902") 5%nat Sample2.world
             Sample2.embedded Sample.vector384).
    + vm_compute. reflexivity.
    + vm_compute. reflexivity.
  - apply (Hfind "Tea" "902" "AUSTRALIA" Sample1.records 5%nat Sample2.world
             Sample2.stored Sample2.searched Sample.vector384).
    + vm_compute. reflexivity.
    + vm_compute. reflexivity.
    + vm_compute. reflexivity.
Defined.

(** C2, the claim as stated fails: [findSimilarHistoricalData], the search
    that the screen calls, has no fallback.  With the nearest-neighbour
    procedure down it returns two empty lists and never scans the table,
    although the keyword search over the same table finds a product. *)
Lemma findSimilarHistoricalData_fallback_counterexample :
  let run := findSimilarHistoricalData "Tea" "902" "AUSTRALIA" Sample1.records 5
               Sample2.world in
  (forall n, error (match_documents Sample2.world n) <> None) /\
  In (EvMatchDocuments (3 # 10) 10) (trace (snd run)) /\
  fst run = Ok ([], []) /\
  existsb is_scan (trace (snd run)) = false /\
  option_map (map vsp_hsn_code)
    (match fst (searchSimilarProductsSimple Sample2.query (Some "902") 5 (snd run))
     with
     | Ok l => Some l
     | Throw _ => None
     end) = Some ["901"].
Proof.
  cbv zeta. split; [intros n; discriminate|].
  split; [vm_compute; tauto|].
  repeat split; vm_compute; reflexivity.
Qed.

(** ** Document store adapter *)

Lemma select_id_run (hsn country : string) (w : World) :
  select_id hsn country w
  = (Ok (select_id_reply hsn country w), after_call (EvSelectId hsn country) w).
Proof.
  unfold select_id. unfold bind at 1. rewrite external_run.
  unfold bind, get, select_id_reply.
  cbn [db_fault documents after_call with_tick with_trace].
  destruct (db_fault w (tick w)); [reflexivity|].
  destruct (filter (same_key hsn country) (documents w)) as [|d [|d' t]];
    reflexivity.
Qed.

Lemma now_run (w : World) :
  now w = (Ok (clock w (tick w)), with_tick (S (tick w)) w).
Proof. reflexivity. Qed.

Lemma update_document_run (id : Z) (content : string) (embedding : list Q)
  (metadata : Metadata) (updated_at : Z) (w : World) :
  update_document id content embedding metadata updated_at w
  = (Ok (db_fault w (tick w)),
     match db_fault w (tick w) with
     | Some _ => after_call (EvUpdate id) w
     | None =>
         with_documents
           (updated_rows id content embedding metadata updated_at (documents w))
           (after_call (EvUpdate id) w)
     end).
Proof.
  unfold update_document. unfold bind at 1. rewrite external_run.
  unfold bind, get. cbn [db_fault documents after_call with_tick with_trace].
  destruct (db_fault w (tick w)); reflexivity.
Qed.

Lemma insert_document_run (content : string) (embedding : list Q)
  (hsn country : string) (metadata : Metadata) (created_at : Z) (w : World) :
  insert_document content embedding hsn country metadata created_at w
  = (Ok (db_fault w (tick w)),
     match db_fault w (tick w) with
     | Some _ => after_call (EvInsert hsn country) w
     | None =>
         with_documents
           (documents w ++
            [new_row (fresh_id (documents w)) content embedding hsn country
                     metadata created_at])
           (after_call (EvInsert hsn country) w)
     end).
Proof.
  unfold insert_document. unfold bind at 1. rewrite external_run.
  unfold bind, get. cbn [db_fault documents after_call with_tick with_trace].
  destruct (db_fault w (tick w)); reflexivity.
Qed.

Ltac insert_tail H :=
  cbn [error_code opt_eqb] in H;
  replace (String.eqb PGRST116 PGRST116) with true in H by reflexivity;
  cbn [negb] in H;
  unfold bind at 1 in H; unfold ret at 1 in H;
  unfold bind at 1 in H; rewrite now_run in H;
  unfold bind at 1 in H; rewrite now_run in H;
  unfold bind at 1 in H; rewrite insert_document_run in H;
  cbn [db_fault documents tick with_tick] in H.

(** What one upsert with records does to the table: nothing when it
    fails; when it succeeds, either the one document of the key is
    rewritten in place, with a reading of the clock from this call as its
    update time, or, when the key has no single document, a row of the key
    is appended. *)
Lemma store_effect (productName hsnCode country : string) (d0 : HistoricalData)
  (rest : list HistoricalData) (w : World) (r : Result unit) (w' : World) :
  store_honest w ->
  storeProductWithHistoricalData productName hsnCode country (d0 :: rest) w
  = (r, w') ->
  (r <> Ok tt /\ documents w' = documents w) \/
  (r = Ok tt /\
   exists d emb md n,
     filter (same_key hsnCode country) (documents w) = [d] /\
     (tick w <= n < tick w')%nat /\
     documents w'
     = updated_rows (doc_id d)
         (render_document productName hsnCode country (d0 :: rest)) emb md
         (clock w n) (documents w)) \/
  (r = Ok tt /\
   (forall d, filter (same_key hsnCode country) (documents w) <> [d]) /\
   exists new, documents w' = (documents w ++ [new])%list
               /\ same_key hsnCode country new = true).
Proof.
  intros Hhonest H.
  unfold storeProductWithHistoricalData, try_catch in H.
  unfold bind at 1 in H.
  pose proof (frame_generateEmbedding same_tables (render_document productName hsnCode country (d0 :: rest)) 3 w) as Ht.
  pose proof (frame_generateEmbedding same_services (render_document productName hsnCode country (d0 :: rest)) 3 w) as Hs.
  destruct (generateEmbedding _ 3 w) as [[emb|e] wa] eqn:Eemb; simpl in Ht, Hs.
  - destruct Ht as [Hdocs [_ [_ [_ [Hfault [_ Hclock]]]]]].
    destruct Hs as [_ [_ [_ [_ [_ Htick]]]]].
    unfold bind at 1 in H. rewrite select_id_run in H.
    set (ws := after_call _ wa) in *.
    unfold select_id_reply in H.
    destruct (db_fault wa (tick wa)) as [e|] eqn:Ef.
    + cbn [error data] in H.
      assert (He : is_pgrst116 e = false).
      { apply (Hhonest (tick wa)). rewrite <- Hfault. exact Ef. }
      unfold is_pgrst116 in He. rewrite He in H. 
      cbv [bind throw negb] in H. injection H as <- <-.
      left. split; [discriminate|]. exact Hdocs.
    + destruct (filter (same_key hsnCode country) (documents wa)) as [|d [|d' t]] eqn:Efil;
        cbn [error data] in H.
      * (* no row: insert *)
        insert_tail H.
        destruct (db_fault ws (S (S (tick ws)))).
        -- cbv [throw] in H. injection H as <- <-.
           left. split; [discriminate|exact Hdocs].
        -- cbv [ret] in H. injection H as <- <-.
           right. right. split; [reflexivity|]. split.
           ++ intros d. rewrite <- Hdocs, Efil. discriminate.
           ++ eexists. split.
              ** cbn [documents with_documents]. subst ws.
                 cbn [documents after_call with_tick with_trace].
                 rewrite Hdocs. reflexivity.
              ** unfold same_key, new_row. cbn [doc_hsn_code doc_country opt_eqb].
                 rewrite !String.eqb_refl. reflexivity.
      * (* one row: update *)
        unfold bind at 1 in H. unfold ret at 1 in H.
        unfold bind at 1 in H. rewrite now_run in H.
        unfold bind at 1 in H. rewrite now_run in H.
        unfold bind at 1 in H. rewrite now_run in H.
        unfold bind at 1 in H. rewrite update_document_run in H.
        cbn [db_fault documents tick clock with_tick] in H.
        destruct (db_fault ws (S (S (S (tick ws))))).
        -- cbv [throw] in H. injection H as <- <-.
           left. split; [discriminate|exact Hdocs].
        -- cbv [ret] in H. injection H as <- <-.
           right. left. split; [reflexivity|].
           exists d, emb,
             (with_updated_at (clock ws (S (tick ws)))
                (new_metadata productName hsnCode country (d0 :: rest)
                              (clock ws (tick ws)))),
             (S (S (tick ws))).
           split; [rewrite <- Hdocs; exact Efil|]. split.
           ++ subst ws. cbn [tick with_documents after_call with_tick with_trace]. lia.
           ++ cbn [documents with_documents]. subst ws.
              cbn [documents clock after_call with_tick with_trace].
              rewrite Hdocs, Hclock. reflexivity.
      * (* several rows: insert *)
        insert_tail H.
        destruct (db_fault ws (S (S (tick ws)))).
        -- cbv [throw] in H. injection H as <- <-.
           left. split; [discriminate|exact Hdocs].
        -- cbv [ret] in H. injection H as <- <-.
           right. right. split; [reflexivity|]. split.
           ++ intros d1. rewrite <- Hdocs, Efil. discriminate.
           ++ eexists. split.
              ** cbn [documents with_documents]. subst ws.
                 cbn [documents after_call with_tick with_trace].
                 rewrite Hdocs. reflexivity.
              ** unfold same_key, new_row. cbn [doc_hsn_code doc_country opt_eqb].
                 rewrite !String.eqb_refl. reflexivity.
  - cbv [throw] in H. injection H as <- <-.
    left. split; [discriminate|]. destruct Ht as [Hdocs _]. exact Hdocs.
Qed.

Section StoreFrames.
Variable R : World -> World -> Prop.
Context `{Framing R} `{StoreFraming R}.

Lemma frame_put_documents (ds : list Document) : frame R (put (with_documents ds)).
Proof. intros w. apply fr_documents. Qed.

Lemma frame_update_document (id : Z) (content : string) (embedding : list Q)
  (metadata : Metadata) (updated_at : Z) :
  frame R (update_document id content embedding metadata updated_at).
Proof. unfold update_document. frames. apply frame_put_documents. Qed.

Lemma frame_insert_document (content : string) (embedding : list Q)
  (hsn country : string) (metadata : Metadata) (created_at : Z) :
  frame R (insert_document content embedding hsn country metadata created_at).
Proof. unfold insert_document. frames. apply frame_put_documents. Qed.

Lemma frame_storeProductWithHistoricalData (productName hsnCode country : string)
  (historicalData : list HistoricalData) :
  frame R (storeProductWithHistoricalData productName hsnCode country
             historicalData).
Proof.
  unfold storeProductWithHistoricalData.
  frames; auto using frame_generateEmbedding, frame_select_id,
            frame_update_document, frame_insert_document.
Qed.
End StoreFrames.

Lemma filter_updated_rows (hsn country : string) (id : Z) (content : string)
  (embedding : list Q) (metadata : Metadata) (updated_at : Z)
  (ds : list Document) :
  filter (same_key hsn country)
         (updated_rows id content embedding metadata updated_at ds)
  = updated_rows id content embedding metadata updated_at
      (filter (same_key hsn country) ds).
Proof.
  unfold updated_rows. induction ds as [|d t IH]; [reflexivity|].
  cbn [map filter].
  assert (Hk : same_key hsn country
                 (if doc_id d =? id
                  then update_row content embedding metadata updated_at d
                  else d)
               = same_key hsn country d).
  { destruct (doc_id d =? id); reflexivity. }
  rewrite Hk. destruct (same_key hsn country d); cbn [map]; rewrite IH; reflexivity.
Qed.

Lemma key_count_updated_rows (hsn country : string) (id : Z) (content : string)
  (embedding : list Q) (metadata : Metadata) (updated_at : Z)
  (ds : list Document) :
  key_count hsn country (updated_rows id content embedding metadata updated_at ds)
  = key_count hsn country ds.
Proof.
  unfold key_count. rewrite filter_updated_rows. unfold updated_rows.
  apply length_map.
Qed.

Lemma no_single_row (hsn country : string) (ds : list Document) :
  (key_count hsn country ds <= 1)%nat ->
  (forall d, filter (same_key hsn country) ds <> [d]) ->
  filter (same_key hsn country) ds = [].
Proof.
  unfold key_count. intros Hle Hno.
  destruct (filter (same_key hsn country) ds) as [|d [|d' t]];
    [reflexivity|exfalso; apply (Hno d); reflexivity|simpl in Hle; lia].
Qed.

(** One upsert keeps the key with at most one document, and leaves
    exactly one when it succeeds. *)
Lemma store_key_count (productName hsnCode country : string) (d0 : HistoricalData)
  (rest : list HistoricalData) (w : World) (r : Result unit) (w' : World) :
  store_honest w ->
  (key_count hsnCode country (documents w) <= 1)%nat ->
  storeProductWithHistoricalData productName hsnCode country (d0 :: rest) w
  = (r, w') ->
  (key_count hsnCode country (documents w') <= 1)%nat /\
  (r = Ok tt -> exists d, filter (same_key hsnCode country) (documents w') = [d]).
Proof.
  intros Hhonest Hle Hrun.
  destruct (store_effect productName hsnCode country d0 rest w r w' Hhonest Hrun)
    as [[Hr Hd]|[[Hr [d [emb [md [n [Hfil [_ Hd]]]]]]]|[Hr [Hno [new [Hd Hkey]]]]]].
  - rewrite Hd. split; [exact Hle|]. intros ->. congruence.
  - rewrite Hd. split; [rewrite key_count_updated_rows; exact Hle|].
    intros _. rewrite filter_updated_rows, Hfil. eexists. reflexivity.
  - rewrite Hd. unfold key_count. rewrite filter_app.
    rewrite (no_single_row hsnCode country (documents w) Hle Hno).
    cbn [filter app]. rewrite Hkey. split; [simpl; lia|]. eauto.
Qed.

(** C8, as the code has it.  From a store that holds at most one document
    for the key, and that reports [PGRST116] only for a lookup, two
    upserts with records leave at most one document for the key.  When
    both succeed, the second one rewrites in place the document that the
    first one created or updated: the same id, no new row, and as update
    time a reading of this device's clock taken during the second call,
    later than the time stored before exactly when that reading is. *)
Theorem upsert_twice_one_document :
  forall (name1 name2 hsnCode country : string)
         (d1 : HistoricalData) (rest1 : list HistoricalData)
         (d2 : HistoricalData) (rest2 : list HistoricalData)
         (w w1 w2 : World) (r1 r2 : Result unit),
    store_honest w ->
    (key_count hsnCode country (documents w) <= 1)%nat ->
    storeProductWithHistoricalData name1 hsnCode country (d1 :: rest1) w
    = (r1, w1) ->
    storeProductWithHistoricalData name2 hsnCode country (d2 :: rest2) w1
    = (r2, w2) ->
    (key_count hsnCode country (documents w2) <= 1)%nat /\
    (r1 = Ok tt -> r2 = Ok tt ->
     exists doc1 doc2 n,
       filter (same_key hsnCode country) (documents w1) = [doc1] /\
       filter (same_key hsnCode country) (documents w2) = [doc2] /\
       doc_id doc2 = doc_id doc1 /\
       List.length (documents w2) = List.length (documents w1) /\
       (tick w1 <= n < tick w2)%nat /\
       doc_updated_at doc2 = Some (clock w n)).
Proof.
  intros name1 name2 hsnCode country d1 rest1 d2 rest2 w w1 w2 r1 r2
         Hhonest Hle Hrun1 Hrun2.
  pose proof (frame_storeProductWithHistoricalData same_services
                name1 hsnCode country (d1 :: rest1) w) as Hs.
  rewrite Hrun1 in Hs. destruct Hs as [_ [_ [Hfault [_ [Hclock _]]]]].
  simpl in Hfault, Hclock.
  assert (Hhonest1 : store_honest w1).
  { intros n e He. apply (Hhonest n). rewrite <- Hfault. exact He. }
  destruct (store_key_count name1 hsnCode country d1 rest1 w r1 w1
              Hhonest Hle Hrun1) as [Hle1 Hone1].
  destruct (store_key_count name2 hsnCode country d2 rest2 w1 r2 w2
              Hhonest1 Hle1 Hrun2) as [Hle2 _].
  split; [exact Hle2|]. intros Hr1 Hr2.
  destruct (Hone1 Hr1) as [doc1 Hdoc1].
  destruct (store_effect name2 hsnCode country d2 rest2 w1 r2 w2 Hhonest1 Hrun2)
    as [[Hr _]|[[_ [d [emb [md [n [Hfil [Hn Hd]]]]]]]|[_ [Hno _]]]].
  - contradiction.
  - rewrite Hdoc1 in Hfil. injection Hfil as <-.
    exists doc1,
      (update_row (render_document name2 hsnCode country (d2 :: rest2)) emb md
                  (clock w1 n) doc1), n.
    split; [exact Hdoc1|]. split.
    + rewrite Hd, filter_updated_rows, Hdoc1. unfold updated_rows. cbn [map].
      rewrite Z.eqb_refl. reflexivity.
    + split; [reflexivity|]. split.
      * rewrite Hd. unfold updated_rows. apply length_map.
      * split; [exact Hn|]. cbn [doc_updated_at update_row]. rewrite Hclock.
        reflexivity.
  - exfalso. apply (Hno doc1). exact Hdoc1.
Qed.

Lemma upsert_twice_one_document_witness :
  let run1 := storeProductWithHistoricalData "Tea" "902" "AUSTRALIA"
                Sample1.records Sample.world0 in
  let run2 := storeProductWithHistoricalData "Tea" "902" "AUSTRALIA"
                Sample1.records (snd run1) in
  (key_count "902" "AUSTRALIA" (documents (snd run2)) <= 1)%nat /\
  (fst run1 = Ok tt -> fst run2 = Ok tt ->
   exists doc1 doc2 n,
     filter (same_key "902" "AUSTRALIA") (documents (snd run1)) = [doc1] /\
     filter (same_key "902" "AUSTRALIA") (documents (snd run2)) = [doc2] /\
     doc_id doc2 = doc_id doc1 /\
     List.length (documents (snd run2)) = List.length (documents (snd run1)) /\
     (tick (snd run1) <= n < tick (snd run2))%nat /\
     doc_updated_at doc2 = Some (clock Sample.world0 n)).
Proof.
  cbv zeta.
  apply (upsert_twice_one_document "Tea" "Tea" "902" "AUSTRALIA"
           {| year := "2024"; price := 120; currency := "USD" |} []
           {| year := "2024"; price := 120; currency := "USD" |} []
           Sample.world0).
  - intros n e He. discriminate He.
  - vm_compute. lia.
  - apply surjective_pairing.
  - apply surjective_pairing.
Defined.

(** C8, the claim as stated fails: the update time is the reading of the
    device's clock, which may be behind the time already stored.  The
    document was last updated at 5000; the two upserts of a device that
    reads 3000 and then, set back, 1000 leave one document, with update
    times that go down. *)
Lemma upsert_timestamp_counterexample :
  fst Sample8.once = Ok tt /\ fst Sample8.twice = Ok tt /\
  map doc_updated_at (documents Sample8.world) = [Some 5000] /\
  map doc_updated_at (documents (snd Sample8.once)) = [Some 3000] /\
  map doc_updated_at (documents (snd Sample8.twice)) = [Some 1000].
Proof.
  repeat split; vm_compute; reflexivity.
Qed.

(** ** The remote analysis of the screen *)

(** C6. In the remote mode of [handleAnalyze], once the records and the
    similar products are gathered: when the analysis call succeeds and the
    prediction call fails, the screen shows the analysis text, and the
    prediction is the fixed placeholder; when the analysis call fails, the
    error leaves the remote branch at once, no prediction is requested,
    and the handler of [handleAnalyze] reports it: an alert and the result
    "Analysis failed". *)
Theorem prediction_failure_is_contained :
  forall (JSON_parse : string -> option JsValue) (w w0 w1 : World)
         (data : list HistoricalData)
         (similar : list SimilarProduct * list SimilarHistoricalData),
    missing_information (screen w) = false ->
    useAI (screen w) = true ->
    reset_screen w = (Ok tt, w0) ->
    gather JSON_parse (screen w) w0 = (Ok (Some (data, similar)), w1) ->
    (forall text w2 e w3,
       analyzeWithEnhancedContext data (trim (product (screen w)))
         (trim (country (screen w))) (trim (hsnCode (screen w))) similar w1
       = (Ok text, w2) ->
       generateMarketPrediction data (trim (product (screen w)))
         (trim (country (screen w))) (fst similar)
         (snd (setResult (ANALYSIS_HEADER ++ text) w2))
       = (Throw e, w3) ->
       exists w',
         handleAnalyze JSON_parse w = (Ok tt, w') /\
         result (screen w') = ANALYSIS_HEADER ++ text /\
         prediction (screen w') = PREDICTION_UNAVAILABLE /\
         trace w' = trace w3) /\
    (forall e w2,
       analyzeWithEnhancedContext data (trim (product (screen w)))
         (trim (country (screen w))) (trim (hsnCode (screen w))) similar w1
       = (Throw e, w2) ->
       analyze_remote (screen w) data similar w1 = (Throw e, w2) /\
       exists w',
         handleAnalyze JSON_parse w = (Ok tt, w') /\
         result (screen w') = "Analysis failed: " ++ to_string e /\
         prediction (screen w') = prediction (screen w2) /\
         trace w'
         = (trace w2 ++ [EvAlert "Analysis Error" (analysis_error_message e)])%list).
Proof.
  intros JSON_parse w w0 w1 data similar Hinput Hai Hreset Hgather. split.
  - intros text w2 e w3 Hmain Hpred.
    pose proof (frame_generateMarketPrediction same_screen data
                  (trim (product (screen w))) (trim (country (screen w)))
                  (fst similar) (snd (setResult (ANALYSIS_HEADER ++ text) w2)))
      as Hfr.
    rewrite Hpred in Hfr. unfold same_screen in Hfr.
    cbn [snd setResult set_screen put] in Hfr.
    unfold handleAnalyze. unfold bind at 1. unfold get_screen at 1.
    rewrite Hinput. unfold bind at 1. rewrite Hreset.
    unfold try_finally, try_catch. unfold bind at 1. rewrite Hgather.
    rewrite Hai. unfold analyze_remote. unfold bind at 1. rewrite Hmain.
    unfold bind at 1.
    change (setResult (ANALYSIS_HEADER ++ text) w2)
      with (Ok tt, snd (setResult (ANALYSIS_HEADER ++ text) w2)).
    cbv iota beta. unfold try_catch. unfold bind at 1. rewrite Hpred.
    eexists. split; [reflexivity|].
    cbn [screen with_screen result prediction trace]. rewrite Hfr.
    repeat split; reflexivity.
  - intros e w2 Hmain. split.
    + unfold analyze_remote. unfold bind at 1. rewrite Hmain. reflexivity.
    + unfold handleAnalyze. unfold bind at 1. unfold get_screen at 1.
      rewrite Hinput. unfold bind at 1. rewrite Hreset.
      unfold try_finally, try_catch. unfold bind at 1. rewrite Hgather.
      rewrite Hai. unfold analyze_remote. unfold bind at 1. rewrite Hmain.
      eexists. split; [reflexivity|].
      repeat split; reflexivity.
Qed.

Lemma prediction_failure_is_contained_witness :
  (exists w',
     handleAnalyze Sample.no_json Sample6.world = (Ok tt, w') /\
     result (screen w') = ANALYSIS_HEADER ++ "report" /\
     prediction (screen w') = PREDICTION_UNAVAILABLE) /\
  (exists w',
     handleAnalyze Sample.no_json Sample6.down = (Ok tt, w') /\
     result (screen w')
     = "Analysis failed: "
       ++ to_string (JsError "Failed to analyze with Groq"
                             (Some Sample6.too_many_requests)) /\
     prediction (screen w') = "").
Proof.
  split.
  - set (w := Sample6.world).
    set (w0 := snd (reset_screen w)).
    set (w1 := snd (gather Sample.no_json (screen w) w0)).
    set (w2 := snd (analyzeWithEnhancedContext Sample6.data "Tea" "australia"
                      "902" ([], []) w1)).
    set (w3 := snd (generateMarketPrediction Sample6.data "Tea" "australia" []
                      (snd (setResult (ANALYSIS_HEADER ++ "report") w2)))).
    assert (H1 : missing_information (screen w) = false) by (vm_compute; reflexivity).
    assert (H2 : useAI (screen w) = true) by reflexivity.
    assert (H3 : reset_screen w = (Ok tt, w0)) by reflexivity.
    assert (H4 : gather Sample.no_json (screen w) w0
                 = (Ok (Some (Sample6.data, ([], []))), w1))
      by (vm_compute; reflexivity).
    destruct (prediction_failure_is_contained Sample.no_json w w0 w1
                Sample6.data ([], []) H1 H2 H3 H4) as [Ha _].
    destruct (Ha "report" w2
                (JsError "Failed to generate prediction"
                         (Some Sample6.too_many_requests)) w3)
      as [w' [Hrun [Hres [Hpred _]]]].
    + vm_compute. reflexivity.
    + vm_compute. reflexivity.
    + exists w'. auto.
  - set (w := Sample6.down).
    set (w0 := snd (reset_screen w)).
    set (w1 := snd (gather Sample.no_json (screen w) w0)).
    set (w2 := snd (analyzeWithEnhancedContext Sample6.data "Tea" "australia"
                      "902" ([], []) w1)).
    assert (H1 : missing_information (screen w) = false) by (vm_compute; reflexivity).
    assert (H2 : useAI (screen w) = true) by reflexivity.
    assert (H3 : reset_screen w = (Ok tt, w0)) by reflexivity.
    assert (H4 : gather Sample.no_json (screen w) w0
                 = (Ok (Some (Sample6.data, ([], []))), w1))
      by (vm_compute; reflexivity).
    destruct (prediction_failure_is_contained Sample.no_json w w0 w1
                Sample6.data ([], []) H1 H2 H3 H4) as [_ Hb].
    destruct (Hb (JsError "Failed to analyze with Groq"
                          (Some Sample6.too_many_requests)) w2)
      as [_ [w' [Hrun [Hres [Hpred _]]]]].
    + vm_compute. reflexivity.
    + exists w'. split; [exact Hrun|]. split; [exact Hres|].
      rewrite Hpred. vm_compute. reflexivity.
Defined.


(** * Further properties *)

(** ** What a computation may reach *)

Section Emits.
Variable allowed : Service -> bool.

Lemma emits_silent (A : Type) (m : M A) :
  (forall w, trace (snd (m w)) = trace w) -> emits allowed m.
Proof.
  intros H w. exists []. rewrite app_nil_r. split; [apply H|constructor].
Qed.

Lemma emits_ret (A : Type) (a : A) : emits allowed (ret a).
Proof. apply emits_silent. reflexivity. Qed.

Lemma emits_throw (A : Type) (e : Thrown) : emits allowed (@throw A e).
Proof. apply emits_silent. reflexivity. Qed.

Lemma emits_lift (A : Type) (r : Result A) : emits allowed (lift r).
Proof. apply emits_silent. reflexivity. Qed.

Lemma emits_get : emits allowed get.
Proof. apply emits_silent. reflexivity. Qed.

Lemma emits_get_screen : emits allowed get_screen.
Proof. apply emits_silent. reflexivity. Qed.

Lemma emits_now : emits allowed now.
Proof. apply emits_silent. reflexivity. Qed.

Lemma emits_set_screen (f : Screen -> Screen) : emits allowed (set_screen f).
Proof. apply emits_silent. reflexivity. Qed.

Lemma emits_put_embeddings (b : bool) : emits allowed (put (with_embeddings b)).
Proof. apply emits_silent. reflexivity. Qed.

Lemma emits_put_documents (ds : list Document) :
  emits allowed (put (with_documents ds)).
Proof. apply emits_silent. reflexivity. Qed.

Lemma emits_log (e : Event) : allowed (service_of e) = true -> emits allowed (log e).
Proof.
  intros He w. exists [e]. split; [reflexivity|]. constructor; [exact He|constructor].
Qed.

Lemma emits_external (e : Event) :
  allowed (service_of e) = true -> emits allowed (external e).
Proof.
  intros He w. rewrite external_run. exists [e]. split; [reflexivity|].
  constructor; [exact He|constructor].
Qed.

Lemma emits_bind (A B : Type) (m : M A) (k : A -> M B) :
  emits allowed m -> (forall a, emits allowed (k a)) -> emits allowed (bind m k).
Proof.
  intros Hm Hk w. unfold bind. destruct (Hm w) as [t1 [E1 F1]].
  destruct (m w) as [[a|e] w1]; simpl in *; [|eauto].
  destruct (Hk a w1) as [t2 [E2 F2]]. exists (t1 ++ t2)%list.
  rewrite E2, E1, app_assoc. split; [reflexivity|]. apply Forall_app; auto.
Qed.

Lemma emits_try_catch (A : Type) (m : M A) (h : Thrown -> M A) :
  emits allowed m -> (forall e, emits allowed (h e)) ->
  emits allowed (try_catch m h).
Proof.
  intros Hm Hh w. unfold try_catch. destruct (Hm w) as [t1 [E1 F1]].
  destruct (m w) as [[a|e] w1]; simpl in *; [eauto|].
  destruct (Hh e w1) as [t2 [E2 F2]]. exists (t1 ++ t2)%list.
  rewrite E2, E1, app_assoc. split; [reflexivity|]. apply Forall_app; auto.
Qed.

Lemma emits_try_finally (A : Type) (m : M A) (f : M unit) :
  emits allowed m -> emits allowed f -> emits allowed (try_finally m f).
Proof.
  intros Hm Hf w. unfold try_finally. destruct (Hm w) as [t1 [E1 F1]].
  destruct (m w) as [r w1]. destruct (Hf w1) as [t2 [E2 F2]].
  exists (t1 ++ t2)%list. simpl in *.
  destruct (f w1) as [[u|e] w2]; simpl in *;
    (rewrite E2, E1, app_assoc; split; [reflexivity|apply Forall_app; auto]).
Qed.
End Emits.

Create HintDb emits.

#[global] Hint Resolve emits_ret emits_throw emits_lift emits_get emits_get_screen
  emits_now emits_set_screen emits_put_embeddings emits_put_documents : emits.

(** One step of such a proof. *)
Ltac emits_step :=
  match goal with
  | |- _ = true => solve [assumption | reflexivity]
  | |- forall _, _ => intro
  | |- emits _ (bind _ _) => apply emits_bind
  | |- emits _ (try_catch _ _) => apply emits_try_catch
  | |- emits _ (try_finally _ _) => apply emits_try_finally
  | |- emits _ (external _) => apply emits_external
  | |- emits _ (log _) => apply emits_log
  | |- emits _ (alert _ _) => apply emits_log
  | |- emits _ (sleep _) => apply emits_log
  | |- emits _ (match ?x with _ => _ end) => destruct x
  | |- emits _ _ => solve [auto with emits]
  end.

Ltac emits_all := repeat emits_step.

Section EmittingOperations.
Variable allowed : Service -> bool.

Lemma emits_embedQuery (text : string) :
  allowed HuggingFace = true -> emits allowed (embedQuery text).
Proof. intros. unfold embedQuery. emits_all. Qed.

Lemma emits_generateEmbedding (text : string) (retries : nat) :
  allowed HuggingFace = true -> allowed Timer = true ->
  emits allowed (generateEmbedding text retries).
Proof.
  intros Hh Ht. unfold generateEmbedding. generalize 1%nat as attempt.
  generalize retries at 2 as left.
  induction left as [|left IH]; intros attempt; cbn [generateEmbedding_from].
  - emits_all.
  - unfold ensure_embeddings, initializeEmbeddings.
    emits_all; auto using emits_embedQuery.
Qed.

Lemma emits_select_prices (code : option Z) :
  allowed Prices = true -> emits allowed (select_prices code).
Proof. intros. unfold select_prices. emits_all. Qed.

Lemma emits_fetchHistoricalData (JSON_parse : string -> option JsValue)
  (hsnCode country : string) :
  allowed Prices = true ->
  emits allowed (fetchHistoricalData JSON_parse hsnCode country).
Proof.
  intros. unfold fetchHistoricalData. emits_all; auto using emits_select_prices.
Qed.

Lemma emits_getAvailableCountries (hsnCode : string) :
  allowed Prices = true -> emits allowed (getAvailableCountries hsnCode).
Proof.
  intros. unfold getAvailableCountries. emits_all; auto using emits_select_prices.
Qed.
End EmittingOperations.

(** ** Historical data accessor, further *)

Lemma select_prices_run (code : option Z) (w : World) :
  select_prices code w
  = (Ok (prices_reply code w), after_call (EvSelectPrices code) w).
Proof.
  unfold select_prices. unfold bind at 1. rewrite external_run.
  unfold bind, get, prices_reply.
  cbn [db_fault market_prices after_call with_tick with_trace].
  destruct (db_fault w (tick w)); [reflexivity|].
  destruct code as [c|]; [|reflexivity].
  destruct (filter (code_matches c) (market_prices w)) as [|row [|row' t]];
    reflexivity.
Qed.

Lemma prices_reply_found (code : option Z) (w : World) (row : PriceRow) :
  error (prices_reply code w) = None ->
  data (prices_reply code w) = Some row ->
  db_fault w (tick w) = None /\
  exists c, code = Some c /\ filter (code_matches c) (market_prices w) = [row].
Proof.
  unfold prices_reply. destruct (db_fault w (tick w)); [discriminate|].
  destruct code as [c|]; [|discriminate].
  destruct (filter (code_matches c) (market_prices w)) as [|r [|r' t]] eqn:E;
    try discriminate.
  intros _ [= ->]. eauto.
Qed.

Lemma obj_get_In (V : Type) (k : string) (o : list (string * V)) (v : V) :
  obj_get k o = Some v -> In (k, v) o.
Proof.
  unfold obj_get. destruct (find (fun kv => String.eqb k (fst kv)) o) as [[k' v']|] eqn:E;
    [|discriminate].
  intros [= <-]. apply find_some in E. destruct E as [Hin Hk].
  apply String.eqb_eq in Hk. simpl in Hk. subst k'. exact Hin.
Qed.

(** What a successful [fetchHistoricalData] tells about the table. *)
Lemma fetchHistoricalData_found (JSON_parse : string -> option JsValue)
  (hsnCode country : string) (w w' : World) (l : list HistoricalData) :
  fetchHistoricalData JSON_parse hsnCode country w = (Ok l, w') ->
  w' = after_call (EvSelectPrices (parseInt hsnCode)) w /\
  exists c row cell,
    parseInt hsnCode = Some c /\
    filter (code_matches c) (market_prices w) = [row] /\
    obj_get country row = Some cell /\ falsy (Some cell) = false /\
    parseCountryData JSON_parse cell = Ok l /\ l <> [].
Proof.
  unfold fetchHistoricalData, try_catch. unfold bind at 1.
  rewrite select_prices_run.
  destruct (error (prices_reply (parseInt hsnCode) w)) eqn:Ee; [discriminate|].
  destruct (data (prices_reply (parseInt hsnCode) w)) as [row|] eqn:Ed;
    [|discriminate].
  destruct (prices_reply_found _ _ _ Ee Ed) as [_ [c [Hc Hrow]]].
  destruct (obj_get country row) as [cell|] eqn:Ecell.
  - destruct (falsy (Some cell)) eqn:Ef.
    + destruct (available_columns row); discriminate.
    + unfold bind, lift.
      destruct (parseCountryData JSON_parse cell) as [recs|e] eqn:Ep; [|discriminate].
      destruct recs as [|r recs]; [discriminate|]. unfold ret.
      intros [= <- <-]. split; [reflexivity|].
      exists c, row, cell. repeat split; auto. discriminate.
  - cbn [falsy]. destruct (available_columns row); discriminate.
Qed.

(** X1. [fetchHistoricalData] makes one lookup in the price table and
    changes nothing else.  What it returns is never empty, has at most
    five records and only positive prices; whatever goes wrong is thrown
    as "Error fetching historical data : " with the cause attached. *)
Theorem fetchHistoricalData_outcome :
  forall (JSON_parse : string -> option JsValue) (hsnCode country : string)
         (w : World),
    snd (fetchHistoricalData JSON_parse hsnCode country w)
    = after_call (EvSelectPrices (parseInt hsnCode)) w /\
    match fst (fetchHistoricalData JSON_parse hsnCode country w) with
    | Ok l =>
        l <> [] /\ (List.length l <= 5)%nat /\
        Forall (fun r => (0 < price r)%Q) l
    | Throw e =>
        exists cause, e = JsError "Error fetching historical data : " (Some cause)
    end.
Proof.
  intros JSON_parse hsnCode country w.
  destruct (fetchHistoricalData JSON_parse hsnCode country w) as [[l|e] w'] eqn:E.
  - destruct (fetchHistoricalData_found _ _ _ _ _ _ E)
      as [-> [c [row [cell [_ [_ [_ [_ [Hp Hne]]]]]]]]].
    cbn [fst snd]. split; [reflexivity|]. split; [exact Hne|].
    apply parseCountryData_inv in Hp. destruct Hp as [kvs ->]. split.
    + apply firstn_le_length.
    + apply parsed_Forall. intros kv r Hr. apply valid_record_spec in Hr. tauto.
  - cbn [fst snd]. revert E.
    unfold fetchHistoricalData, try_catch. unfold bind at 1.
    rewrite select_prices_run.
    destruct (error (prices_reply (parseInt hsnCode) w));
      [intros [= <- <-]; eauto|].
    destruct (data (prices_reply (parseInt hsnCode) w)) as [row|];
      [|intros [= <- <-]; eauto].
    destruct (falsy (obj_get country row)).
    + destruct (available_columns row); intros [= <- <-]; eauto.
    + unfold bind, lift.
      destruct (parseCountryData JSON_parse _) as [recs|e'];
        [|intros [= <- <-]; eauto].
      destruct recs; [intros [= <- <-]; eauto|discriminate].
Qed.

Lemma getAvailableCountries_run (hsnCode : string) (w : World) :
  getAvailableCountries hsnCode w
  = (Ok (match error (prices_reply (parseInt hsnCode) w),
               data (prices_reply (parseInt hsnCode) w) with
         | None, Some row => available_columns row
         | _, _ => []
         end),
     after_call (EvSelectPrices (parseInt hsnCode)) w).
Proof.
  unfold getAvailableCountries. unfold bind at 1. rewrite select_prices_run.
  destruct (error (prices_reply (parseInt hsnCode) w)); [reflexivity|].
  destruct (data (prices_reply (parseInt hsnCode) w)); reflexivity.
Qed.

Lemma prices_reply_row (c : Z) (row : PriceRow) (w : World) :
  db_fault w (tick w) = None ->
  filter (code_matches c) (market_prices w) = [row] ->
  prices_reply (Some c) w = {| data := Some row; error := None |}.
Proof. intros Hf Hrow. unfold prices_reply. rewrite Hf, Hrow. reflexivity. Qed.



Lemma available_columns_In (row : PriceRow) (c : string) :
  In c (available_columns row) <->
  reserved_column c = false /\ exists v, In (c, v) row /\ v <> JNull.
Proof.
  unfold available_columns. rewrite in_map_iff. split.
  - intros [[k v] [<- Hin]]. apply filter_In in Hin. destruct Hin as [Hin Hk].
    apply andb_true_iff in Hk. destruct Hk as [Hres Hv]. simpl in *.
    apply negb_true_iff in Hres. split; [exact Hres|].
    exists v. split; [exact Hin|]. intros ->. discriminate.
  - intros [Hres [v [Hin Hv]]]. exists (c, v). split; [reflexivity|].
    apply filter_In. split; [exact Hin|]. simpl. rewrite Hres. simpl.
    destruct v; try reflexivity. contradiction.
Qed.

(** X3. [getAvailableCountries] never throws and makes one lookup in the
    price table.  Every market it returns is a column of a stored row
    with a value other than null, and none of [hsn_code], [id],
    [created_at], [updated_at]; when the lookup fails or does not find
    exactly one row, the list is empty. *)
Theorem getAvailableCountries_safe :
  forall (hsnCode : string) (w : World),
    exists l,
      getAvailableCountries hsnCode w
      = (Ok l, after_call (EvSelectPrices (parseInt hsnCode)) w) /\
      Forall (fun c =>
                reserved_column c = false /\
                exists row v, In row (market_prices w) /\ In (c, v) row
                              /\ v <> JNull) l /\
      ((db_fault w (tick w) <> None \/ parseInt hsnCode = None \/
        (forall c row, parseInt hsnCode = Some c ->
                       filter (code_matches c) (market_prices w) <> [row])) ->
       l = []).
Proof.
  intros hsnCode w. eexists. split; [apply getAvailableCountries_run|]. split.
  - destruct (error (prices_reply (parseInt hsnCode) w)) eqn:Ee; [constructor|].
    destruct (data (prices_reply (parseInt hsnCode) w)) as [row|] eqn:Ed;
      [|constructor].
    destruct (prices_reply_found _ _ _ Ee Ed) as [_ [c [_ Hrow]]].
    assert (Hin : In row (market_prices w)).
    { assert (H : In row (filter (code_matches c) (market_prices w)))
        by (rewrite Hrow; left; reflexivity).
      apply filter_In in H. tauto. }
    apply Forall_forall. intros col Hcol. apply available_columns_In in Hcol.
    destruct Hcol as [Hres [v [Hv Hnull]]]. split; [exact Hres|]. eauto.
  - intros Hfail.
    destruct (error (prices_reply (parseInt hsnCode) w)) eqn:Ee; [reflexivity|].
    destruct (data (prices_reply (parseInt hsnCode) w)) as [row|] eqn:Ed;
      [|reflexivity].
    destruct (prices_reply_found _ _ _ Ee Ed) as [Hf [c [Hc Hrow]]].
    destruct Hfail as [H|[H|H]]; [contradiction|congruence|].
    exfalso. exact (H c row Hc Hrow).
Qed.

(** X4. A market for which [fetchHistoricalData] has just returned
    records is among the markets that [getAvailableCountries] then
    offers for the same code, provided the second lookup goes through
    and the market is not the name of one of the four reserved columns. *)
Theorem fetched_market_is_available :
  forall (JSON_parse : string -> option JsValue) (hsnCode country : string)
         (w w1 : World) (l : list HistoricalData),
    fetchHistoricalData JSON_parse hsnCode country w = (Ok l, w1) ->
    db_fault w1 (tick w1) = None ->
    reserved_column country = false ->
    exists markets,
      fst (getAvailableCountries hsnCode w1) = Ok markets /\ In country markets.
Proof.
  intros JSON_parse hsnCode country w w1 l Hfetch Hf Hres.
  destruct (fetchHistoricalData_found _ _ _ _ _ _ Hfetch)
    as [-> [c [row [cell [Hc [Hrow [Hcell [Hfalsy _]]]]]]]].
  exists (available_columns row). split.
  - rewrite getAvailableCountries_run. rewrite Hc in *.
    rewrite (prices_reply_row c row _ Hf Hrow). reflexivity.
  - apply available_columns_In. split; [exact Hres|].
    exists cell. split; [apply obj_get_In; exact Hcell|].
    intros ->. discriminate.
Qed.

Lemma fetched_market_is_available_witness :
  exists markets,
    fst (getAvailableCountries "902"
           (after_call (EvSelectPrices (Some 902)) Sample.world0)) = Ok markets /\
    In "AUSTRALIA" markets.
Proof.
  apply (fetched_market_is_available Sample.no_json "902" "AUSTRALIA"
           Sample.world0 _
           [{| year := "2024"; price := 120; currency := "USD" |};
            {| year := "2023"; price := 100; currency := "USD" |}]).
  - vm_compute. reflexivity.
  - reflexivity.
  - reflexivity.
Defined.

(** ** Embedding client, further *)

Lemma generateEmbedding_from_step (text : string) (retries left attempt : nat) :
  generateEmbedding_from text retries (S left) attempt
  = try_catch (embedding_attempt text)
      (fun error =>
         if (attempt =? retries)%nat then
           throw (JsError ("Failed to generate embedding after "
                           ++ string_of_nat retries ++ " attempts: "
                           ++ to_string error) None)
         else
           bind (sleep (2 ^ Z.of_nat attempt * 1000))
                (fun _ => generateEmbedding_from text retries left (S attempt))).
Proof. reflexivity. Qed.

Lemma ensure_embeddings_ok (w w1 : World) :
  ensure_embeddings w = (Ok tt, w1) ->
  embeddings w1 = true /\ hf_service w1 = hf_service w.
Proof.
  unfold ensure_embeddings. unfold bind at 1. unfold get at 1.
  destruct (embeddings w) eqn:E.
  - intros [= <-]. auto.
  - unfold bind at 1.
    pose proof (frame_initializeEmbeddings same_tables w) as Hfr.
    destruct (initializeEmbeddings w) as [[u|e] w0]; [|discriminate].
    intros [= <-]. split; [reflexivity|]. simpl in *. apply Hfr.
Qed.

Lemma embedding_attempt_ok (text : string) (w w1 : World) (v : list Q) :
  embedding_attempt text w = (Ok v, w1) ->
  List.length v = EXPECTED_DIMENSIONS /\ embeddings w1 = true.
Proof.
  unfold embedding_attempt. unfold bind at 1.
  destruct (ensure_embeddings w) as [[[]|e] w0] eqn:E; [|discriminate].
  apply ensure_embeddings_ok in E. destruct E as [He _].
  unfold bind at 1. rewrite embedQuery_run.
  destruct (hf_service w0 (tick w0) text) as [v0|e]; [|discriminate].
  destruct (List.length v0 =? EXPECTED_DIMENSIONS)%nat eqn:El; [|discriminate].
  intros [= <- <-]. split; [apply Nat.eqb_eq; exact El|exact He].
Qed.

(** X5. Every vector that [generateEmbedding] returns has 384 entries,
    and the client is initialised afterwards. *)
Theorem generateEmbedding_dimensions :
  forall (text : string) (retries : nat) (w w' : World) (v : list Q),
    generateEmbedding text retries w = (Ok v, w') ->
    List.length v = EXPECTED_DIMENSIONS /\ embeddings w' = true.
Proof.
  intros text retries. unfold generateEmbedding. generalize 1%nat as attempt.
  generalize retries at 2 as left.
  induction left as [|left IH]; intros attempt w w' v; [discriminate|].
  rewrite generateEmbedding_from_step. unfold try_catch.
  destruct (embedding_attempt text w) as [[v0|e] w1] eqn:E.
  - intros [= <- <-]. exact (embedding_attempt_ok text w w1 v0 E).
  - destruct (attempt =? retries)%nat; [discriminate|].
    unfold bind at 1. unfold sleep, log, put. apply IH.
Qed.

Lemma generateEmbedding_dimensions_witness :
  List.length Sample.vector384 = EXPECTED_DIMENSIONS /\
  embeddings (snd (generateEmbedding "Product: Tea" 3 Sample.world0)) = true.
Proof.
  apply (generateEmbedding_dimensions "Product: Tea" 3 Sample.world0).
  vm_compute. reflexivity.
Defined.

Lemma embedding_attempt_initialised (text : string) (w : World) :
  embeddings w = true ->
  embedding_attempt text w
  = (match hf_service w (tick w) text with
     | Ok v =>
         if negb (List.length v =? EXPECTED_DIMENSIONS)%nat
         then Throw (JsError ("Generated embedding has "
                              ++ string_of_nat (List.length v)
                              ++ " dimensions, expected "
                              ++ string_of_nat EXPECTED_DIMENSIONS) None)
         else Ok v
     | Throw e => Throw e
     end,
     after_call (EvEmbed text) w).
Proof.
  intros He. unfold embedding_attempt. unfold bind at 1.
  unfold ensure_embeddings. unfold bind at 1. unfold get at 1. rewrite He.
  unfold ret at 1. unfold bind at 1. rewrite embedQuery_run.
  destruct (hf_service w (tick w) text) as [v|e]; [|reflexivity].
  destruct (negb (List.length v =? EXPECTED_DIMENSIONS)%nat); reflexivity.
Qed.

Lemma after_failures_facts (text : string) :
  forall (j attempt : nat) (w : World),
    embeddings (after_failures text j attempt w) = embeddings w /\
    hf_service (after_failures text j attempt w) = hf_service w /\
    tick (after_failures text j attempt w) = (tick w + j)%nat /\
    trace (after_failures text j attempt w)
    = (trace w ++ failures_trace text j attempt)%list.
Proof.
  induction j as [|j IH]; intros attempt w; cbn [after_failures failures_trace].
  - rewrite app_nil_r. repeat split; auto.
  - match goal with |- context [after_failures text j (S attempt) ?w1] =>
      destruct (IH (S attempt) w1) as [He [Hh [Ht Htr]]] end.
    rewrite He, Hh, Ht, Htr.
    cbn [embeddings hf_service tick trace after_call with_tick with_trace].
    rewrite <- !app_assoc. repeat split; auto; lia.
Qed.

(** After [j] refused attempts the loop is at attempt [attempt + j]. *)
Lemma generateEmbedding_from_refused (text : string) (retries : nat) :
  forall (j left attempt : nat) (w : World),
    embeddings w = true ->
    refuses text j w ->
    (j < left)%nat -> (attempt + left = S retries)%nat ->
    generateEmbedding_from text retries left attempt w
    = generateEmbedding_from text retries (left - j) (attempt + j)
        (after_failures text j attempt w).
Proof.
  induction j as [|j IH]; intros left attempt w He Href Hlt Hsum.
  - cbn [after_failures]. rewrite Nat.sub_0_r, Nat.add_0_r. reflexivity.
  - destruct left as [|left]; [lia|].
    rewrite generateEmbedding_from_step. unfold try_catch.
    rewrite (embedding_attempt_initialised text w He).
    destruct (Href 0%nat) as [e Hfail]; [lia|].
    rewrite Nat.add_0_r in Hfail. rewrite Hfail.
    assert (Hneq : (attempt =? retries)%nat = false) by (apply Nat.eqb_neq; lia).
    rewrite Hneq. unfold bind at 1. unfold sleep, log, put.
    cbn [after_failures].
    rewrite IH; [|exact He| |lia|lia].
    + replace (S left - S j)%nat with (left - j)%nat by lia.
      replace (attempt + S j)%nat with (S attempt + j)%nat by lia.
      reflexivity.
    + intros i Hi. destruct (Href (S i)) as [e' He']; [lia|].
      exists e'. cbn [hf_service tick after_call with_tick with_trace].
      replace (S (tick w) + i)%nat with (tick w + S i)%nat by lia. exact He'.
Qed.

(** X6. With the client initialised, when the service refuses the text
    [j] times and then answers with a vector of 384 entries, and [j] is
    below [retries], [generateEmbedding] returns that vector; it has sent
    the text [j + 1] times and has waited [2 ^ i] seconds after the
    [i]-th refusal. *)
Theorem generateEmbedding_recovers :
  forall (text : string) (retries j : nat) (w : World) (v : list Q),
    embeddings w = true ->
    (j < retries)%nat ->
    refuses text j w ->
    hf_service w (tick w + j) text = Ok v ->
    List.length v = EXPECTED_DIMENSIONS ->
    exists w',
      generateEmbedding text retries w = (Ok v, w') /\
      trace w' = (trace w ++ failures_trace text j 1 ++ [EvEmbed text])%list /\
      tick w' = (tick w + j + 1)%nat.
Proof.
  intros text retries j w v He Hlt Href Hok Hlen.
  destruct (after_failures_facts text j 1 w) as [He' [Hh [Ht Htr]]].
  unfold generateEmbedding.
  rewrite (generateEmbedding_from_refused text retries j retries 1 w He Href Hlt);
    [|lia].
  destruct (retries - j)%nat as [|left] eqn:El; [lia|].
  rewrite generateEmbedding_from_step. unfold try_catch.
  rewrite embedding_attempt_initialised; [|rewrite He'; exact He].
  rewrite Hh, Ht, Hok. apply Nat.eqb_eq in Hlen. rewrite Hlen. cbn [negb].
  eexists. split; [reflexivity|].
  cbn [trace tick after_call with_tick with_trace]. rewrite Htr, Ht.
  rewrite <- app_assoc. split; [reflexivity|lia].
Qed.

Lemma generateEmbedding_recovers_witness :
  exists w',
    generateEmbedding "Product: Tea" 3 SampleE.world = (Ok Sample.vector384, w') /\
    trace w'
    = (trace SampleE.world ++ failures_trace "Product: Tea" 2 1
       ++ [EvEmbed "Product: Tea"])%list /\
    tick w' = (tick SampleE.world + 2 + 1)%nat.
Proof.
  apply (generateEmbedding_recovers "Product: Tea" 3 2 SampleE.world
           Sample.vector384).
  - reflexivity.
  - lia.
  - intros i Hi. exists SampleE.busy.
    destruct i as [|[|i]]; [reflexivity|reflexivity|lia].
  - reflexivity.
  - vm_compute. reflexivity.
Defined.

(** X7. With the client initialised, when the service refuses the text at
    every one of the [retries] attempts, [generateEmbedding] fails after
    the last one with "Failed to generate embedding after [retries]
    attempts" followed by the last refusal; it has waited between the
    attempts and not after the last. *)
Theorem generateEmbedding_gives_up :
  forall (text : string) (retries : nat) (w : World),
    embeddings w = true ->
    (1 <= retries)%nat ->
    refuses text retries w ->
    exists e w',
      hf_service w (tick w + (retries - 1)) text = Throw e /\
      generateEmbedding text retries w
      = (Throw (JsError ("Failed to generate embedding after "
                         ++ string_of_nat retries ++ " attempts: "
                         ++ to_string e) None), w') /\
      trace w'
      = (trace w ++ failures_trace text (retries - 1) 1 ++ [EvEmbed text])%list.
Proof.
  intros text retries w He Hpos Href.
  destruct (after_failures_facts text (retries - 1) 1 w) as [He' [Hh [Ht Htr]]].
  destruct (Href (retries - 1)%nat) as [e Hlast]; [lia|].
  exists e. unfold generateEmbedding.
  rewrite (generateEmbedding_from_refused text retries (retries - 1) retries 1 w He);
    [|intros i Hi; apply Href; lia|lia|lia].
  replace (retries - (retries - 1))%nat with 1%nat by lia.
  replace (1 + (retries - 1))%nat with retries by lia.
  rewrite generateEmbedding_from_step. unfold try_catch.
  rewrite embedding_attempt_initialised; [|rewrite He'; exact He].
  rewrite Hh, Ht, Hlast, Nat.eqb_refl.
  eexists. split; [reflexivity|]. split; [reflexivity|].
  cbn [trace after_call with_tick with_trace]. rewrite Htr.
  rewrite <- app_assoc. reflexivity.
Qed.

Lemma generateEmbedding_gives_up_witness :
  exists e w',
    hf_service SampleE.down (tick SampleE.down + (3 - 1)) "Product: Tea" = Throw e /\
    generateEmbedding "Product: Tea" 3 SampleE.down
    = (Throw (JsError ("Failed to generate embedding after "
                       ++ string_of_nat 3 ++ " attempts: "
                       ++ to_string e) None), w') /\
    trace w'
    = (trace SampleE.down ++ failures_trace "Product: Tea" (3 - 1) 1
       ++ [EvEmbed "Product: Tea"])%list.
Proof.
  apply (generateEmbedding_gives_up "Product: Tea" 3 SampleE.down).
  - reflexivity.
  - lia.
  - intros i Hi. exists SampleE.busy. reflexivity.
Defined.

(** ** Document store adapter, further *)

(** The three outcomes of one upsert with records, whatever the store
    answers. *)
Lemma store_shape (productName hsnCode country : string) (d0 : HistoricalData)
  (rest : list HistoricalData) (w : World) (r : Result unit) (w' : World) :
  storeProductWithHistoricalData productName hsnCode country (d0 :: rest) w
  = (r, w') ->
  (r <> Ok tt /\ documents w' = documents w) \/
  (r = Ok tt /\
   exists d emb md t,
     filter (same_key hsnCode country) (documents w) = [d] /\
     documents w'
     = updated_rows (doc_id d)
         (render_document productName hsnCode country (d0 :: rest)) emb md t
         (documents w)) \/
  (r = Ok tt /\
   exists emb created t,
     documents w'
     = (documents w ++
        [new_row (fresh_id (documents w))
           (render_document productName hsnCode country (d0 :: rest)) emb
           hsnCode country
           (new_metadata productName hsnCode country (d0 :: rest) created) t])%list).
Proof.
  intros H.
  unfold storeProductWithHistoricalData, try_catch in H.
  unfold bind at 1 in H.
  pose proof (frame_generateEmbedding same_tables
                (render_document productName hsnCode country (d0 :: rest)) 3 w)
    as Ht.
  destruct (generateEmbedding _ 3 w) as [[emb|e] wa] eqn:Eemb; simpl in Ht.
  - destruct Ht as [Hdocs _].
    unfold bind at 1 in H. rewrite select_id_run in H.
    set (ws := after_call _ wa) in *.
    assert (Hinsert :
      forall H' : (let (r, w') :=
                     bind (ret tt)
                       (fun _ => bind now (fun created => bind now (fun t1 =>
                          bind (insert_document
                                  (render_document productName hsnCode country
                                                   (d0 :: rest))
                                  emb hsnCode country
                                  (new_metadata productName hsnCode country
                                                (d0 :: rest) created) t1)
                               (fun insertError =>
                                  match insertError with
                                  | Some e => throw e
                                  | None => ret tt
                                  end)))) ws in
                   match r with
                   | Ok a => (Ok a, w')
                   | Throw e => throw (JsError "Error updating record : " (Some e)) w'
                   end) = (r, w'),
        (r <> Ok tt /\ documents w' = documents w) \/
        (r = Ok tt /\
         exists emb0 created t,
           documents w'
           = (documents w ++
              [new_row (fresh_id (documents w))
                 (render_document productName hsnCode country (d0 :: rest)) emb0
                 hsnCode country
                 (new_metadata productName hsnCode country (d0 :: rest) created)
                 t])%list)).
    { intros H'.
      unfold bind at 1 in H'. unfold ret at 1 in H'.
      unfold bind at 1 in H'. rewrite now_run in H'.
      unfold bind at 1 in H'. rewrite now_run in H'.
      unfold bind at 1 in H'. rewrite insert_document_run in H'.
      cbn [db_fault documents tick with_tick] in H'.
      destruct (db_fault ws (S (S (tick ws)))).
      - cbv [throw] in H'. injection H' as <- <-.
        left. split; [discriminate|exact Hdocs].
      - cbv [ret] in H'. injection H' as <- <-.
        right. split; [reflexivity|]. do 3 eexists.
        cbn [documents with_documents]. subst ws.
        cbn [documents after_call with_tick with_trace].
        rewrite Hdocs. reflexivity. }
    unfold select_id_reply in H.
    destruct (db_fault wa (tick wa)) as [e|] eqn:Ef.
    + cbn [error data] in H.
      destruct (opt_eqb (error_code e) PGRST116) eqn:Ecode; cbn [negb] in H.
      * destruct (Hinsert H) as [Hl|Hr]; [left; exact Hl|right; right; exact Hr].
      * cbv [bind throw] in H. injection H as <- <-.
        left. split; [discriminate|exact Hdocs].
    + destruct (filter (same_key hsnCode country) (documents wa))
        as [|d [|d' t]] eqn:Efil; cbn [error data] in H.
      * cbn [error_code opt_eqb] in H.
        replace (String.eqb PGRST116 PGRST116) with true in H by reflexivity.
        cbn [negb] in H.
        destruct (Hinsert H) as [Hl|Hr]; [left; exact Hl|right; right; exact Hr].
      * unfold bind at 1 in H. unfold ret at 1 in H.
        unfold bind at 1 in H. rewrite now_run in H.
        unfold bind at 1 in H. rewrite now_run in H.
        unfold bind at 1 in H. rewrite now_run in H.
        unfold bind at 1 in H. rewrite update_document_run in H.
        cbn [db_fault documents tick clock with_tick] in H.
        destruct (db_fault ws (S (S (S (tick ws))))).
        -- cbv [throw] in H. injection H as <- <-.
           left. split; [discriminate|exact Hdocs].
        -- cbv [ret] in H. injection H as <- <-.
           right. left. split; [reflexivity|].
           exists d. do 3 eexists.
           split; [rewrite <- Hdocs; exact Efil|].
           cbn [documents with_documents]. subst ws.
           cbn [documents clock after_call with_tick with_trace].
           rewrite Hdocs. reflexivity.
      * cbn [error_code opt_eqb] in H.
        replace (String.eqb PGRST116 PGRST116) with true in H by reflexivity.
        cbn [negb] in H.
        destruct (Hinsert H) as [Hl|Hr]; [left; exact Hl|right; right; exact Hr].
  - cbv [throw] in H. injection H as <- <-.
    left. split; [discriminate|]. destruct Ht as [Hdocs _]. exact Hdocs.
Qed.

Lemma try_catch_rethrow (A : Type) (m : M A) (f : Thrown -> Thrown)
  (w w' : World) (e : Thrown) :
  try_catch m (fun error => throw (f error)) w = (Throw e, w') ->
  exists cause, e = f cause.
Proof.
  unfold try_catch. destruct (m w) as [[a|e0] w0]; [discriminate|].
  unfold throw. intros [= <- _]. eauto.
Qed.

(** X8. An upsert without records does nothing at all.  An upsert that
    fails leaves the table [documents] as it was, and what it throws is
    "Error updating record : " with the cause attached. *)
Theorem upsert_failure_is_clean :
  forall (productName hsnCode country : string) (w : World),
    storeProductWithHistoricalData productName hsnCode country [] w = (Ok tt, w) /\
    (forall historicalData e w',
       storeProductWithHistoricalData productName hsnCode country historicalData w
       = (Throw e, w') ->
       documents w' = documents w /\
       exists cause, e = JsError "Error updating record : " (Some cause)).
Proof.
  intros productName hsnCode country w. split; [reflexivity|].
  intros historicalData e w' H. split.
  - destruct historicalData as [|d0 rest]; [discriminate|].
    destruct (store_shape productName hsnCode country d0 rest w _ w' H)
      as [[_ Hd]|[[Hr _]|[Hr _]]]; [exact Hd|discriminate|discriminate].
  - unfold storeProductWithHistoricalData in H.
    apply (try_catch_rethrow _ _
             (fun error => JsError "Error updating record : " (Some error))) in H.
    exact H.
Qed.

Lemma upsert_failure_is_clean_witness :
  let run := storeProductWithHistoricalData "Tea" "902" "AUSTRALIA"
               Sample1.records SampleS.world in
  documents (snd run) = documents SampleS.world /\
  fst run
  = Throw (JsError "Error updating record : "
             (Some (JsError "Error checking existing document: statement timeout"
                            None))).
Proof.
  cbv zeta.
  destruct (storeProductWithHistoricalData "Tea" "902" "AUSTRALIA"
              Sample1.records SampleS.world) as [r w'] eqn:E.
  assert (Hr : r = Throw (JsError "Error updating record : "
                            (Some (JsError
                               "Error checking existing document: statement timeout"
                               None)))).
  { apply (f_equal fst) in E. vm_compute in E. symmetry. exact E. }
  subst r. split; [|reflexivity].
  exact (proj1 (proj2 (upsert_failure_is_clean "Tea" "902" "AUSTRALIA" SampleS.world)
                  Sample1.records _ w' E)).
Defined.

Lemma fresh_id_above (ds : list Document) (d : Document) :
  In d ds -> doc_id d < fresh_id ds.
Proof.
  unfold fresh_id. intros Hd.
  assert (H : doc_id d <= fold_right (fun d m => Z.max (doc_id d) m) 0 ds).
  { induction ds as [|x t IH]; [destruct Hd|]. cbn [fold_right].
    destruct Hd as [->|Hd]; [lia|]. specialize (IH Hd). lia. }
  lia.
Qed.

Lemma NoDup_snoc (A : Type) (l : list A) (x : A) :
  NoDup l -> ~ In x l -> NoDup (l ++ [x]).
Proof.
  induction 1 as [|y t Hy Ht IH]; intros Hx; simpl.
  - constructor; [tauto|constructor].
  - constructor.
    + rewrite in_app_iff. simpl. intros [H|[H|[]]]; [tauto|].
      apply Hx. left. symmetry. exact H.
    + apply IH. intros H. apply Hx. right. exact H.
Qed.

Lemma updated_rows_ids (id : Z) (content : string) (embedding : list Q)
  (metadata : Metadata) (t : Z) (ds : list Document) :
  map doc_id (updated_rows id content embedding metadata t ds) = map doc_id ds.
Proof.
  unfold updated_rows. rewrite map_map. apply map_ext. intros d.
  destruct (doc_id d =? id); reflexivity.
Qed.

Lemma NoDup_map_eq (A B : Type) (f : A -> B) (l : list A) (a b : A) :
  NoDup (map f l) -> In a l -> In b l -> f a = f b -> a = b.
Proof.
  induction l as [|x t IH]; simpl; [tauto|].
  intros Hnd Ha Hb Hf. inversion Hnd as [|? ? Hx Ht]; subst.
  destruct Ha as [->|Ha]; destruct Hb as [->|Hb]; auto.
  - exfalso. apply Hx. rewrite Hf. apply in_map. exact Hb.
  - exfalso. apply Hx. rewrite <- Hf. apply in_map. exact Ha.
Qed.

(** X9. When the ids of the table are distinct, they are still distinct
    after an upsert, whatever its outcome; every document of another key
    is still there, unchanged; and the table has gained at most one
    row. *)
Theorem upsert_preserves_other_documents :
  forall (productName hsnCode country : string)
         (historicalData : list HistoricalData) (w w' : World) (r : Result unit),
    NoDup (map doc_id (documents w)) ->
    storeProductWithHistoricalData productName hsnCode country historicalData w
    = (r, w') ->
    NoDup (map doc_id (documents w')) /\
    (forall d, In d (documents w) -> same_key hsnCode country d = false ->
               In d (documents w')) /\
    (List.length (documents w) <= List.length (documents w')
     <= S (List.length (documents w)))%nat.
Proof.
  intros productName hsnCode country historicalData w w' r Hnd H.
  destruct historicalData as [|d0 rest].
  { injection H as <- <-. repeat split; auto. }
  destruct (store_shape productName hsnCode country d0 rest w r w' H)
    as [[_ ->]|[[_ [d1 [emb [md [t [Hfil ->]]]]]]|[_ [emb [created [t ->]]]]]].
  - repeat split; auto.
  - split; [rewrite updated_rows_ids; exact Hnd|]. split.
    + intros d Hd Hkey.
      assert (H1 : In d1 (filter (same_key hsnCode country) (documents w)))
        by (rewrite Hfil; left; reflexivity).
      apply filter_In in H1. destruct H1 as [Hin1 Hkey1].
      assert (Hid : (doc_id d =? doc_id d1) = false).
      { apply Z.eqb_neq. intros Heq.
        assert (d = d1) by (apply (NoDup_map_eq _ _ doc_id (documents w)); auto).
        subst d. congruence. }
      unfold updated_rows. apply in_map_iff. exists d. rewrite Hid. auto.
    + unfold updated_rows. rewrite length_map. lia.
  - split.
    + rewrite map_app. cbn [map new_row doc_id]. apply NoDup_snoc; [exact Hnd|].
      intros Hin. apply in_map_iff in Hin. destruct Hin as [d [Hid Hd]].
      apply fresh_id_above in Hd. lia.
    + split; [intros d Hd _; apply in_or_app; left; exact Hd|].
      rewrite length_app. simpl. lia.
Qed.

Lemma upsert_preserves_other_documents_witness :
  let run := storeProductWithHistoricalData "Tea" "902" "AUSTRALIA"
               Sample1.records SampleS.calm in
  NoDup (map doc_id (documents (snd run))) /\
  (forall d, In d (documents SampleS.calm) -> same_key "902" "AUSTRALIA" d = false ->
             In d (documents (snd run))) /\
  (List.length (documents SampleS.calm) <= List.length (documents (snd run))
   <= S (List.length (documents SampleS.calm)))%nat.
Proof.
  cbv zeta.
  apply (upsert_preserves_other_documents "Tea" "902" "AUSTRALIA" Sample1.records
           SampleS.calm _
           (fst (storeProductWithHistoricalData "Tea" "902" "AUSTRALIA"
                   Sample1.records SampleS.calm))).
  - simpl. constructor; [simpl; intros [H|[]]; discriminate H|].
    constructor; [simpl; tauto|constructor].
  - apply surjective_pairing.
Defined.

(** ** The metadata round trip *)







(** ** Similarity search, further *)

From Stdlib Require Import Lqa.

Lemma or_str_default (a : option string) (d x : string) :
  or_str a d = x -> x <> d -> a = Some x.
Proof.
  unfold or_str. destruct a as [s|]; [|congruence].
  destruct (String.eqb s ""); congruence.
Qed.

Lemma opt_eqb_refl (x : string) : opt_eqb (Some x) x = true.
Proof. simpl. apply String.eqb_refl. Qed.

Lemma gate_not_own (hsnCode country : string) (item : MatchItem) :
  hsnCode <> "Unknown" -> country <> "Unknown" ->
  gate hsnCode country item = true ->
  ~ (or_str (item_hsn_code item) "Unknown" = hsnCode /\
     [or_str (item_country item) "Unknown"] = [country]).
Proof.
  intros Hh Hc Hg [H1 H2]. injection H2 as H2.
  apply or_str_default in H1; [|exact Hh].
  apply or_str_default in H2; [|exact Hc].
  unfold gate, own_key in Hg. rewrite H1, H2, !opt_eqb_refl in Hg. discriminate.
Qed.

Lemma to_historical_identity (item : MatchItem) (h : SimilarHistoricalData) :
  to_historical item = Some h ->
  shd_hsn_code h = or_str (item_hsn_code item) "Unknown" /\
  shd_countries h = [or_str (item_country item) "Unknown"].
Proof.
  unfold to_historical. destruct (item_metadata item) as [md|]; [|discriminate].
  destruct (md_years md); [|discriminate].
  destruct (md_prices md); [|discriminate].
  intros [= <-]. split; reflexivity.
Qed.

(** X11. [findSimilarHistoricalData] never lists the querying product
    itself: no entry of either list has both the querying code and the
    querying market, for a code and a market other than the placeholder
    "Unknown". *)
Theorem findSimilarHistoricalData_excludes_self :
  forall (productName hsnCode country : string)
         (historicalData : list HistoricalData) (limit : nat) (w w' : World)
         (ps : list SimilarProduct) (hs : list SimilarHistoricalData),
    hsnCode <> "Unknown" -> country <> "Unknown" ->
    findSimilarHistoricalData productName hsnCode country historicalData limit w
    = (Ok (ps, hs), w') ->
    Forall (fun p => ~ (sp_hsn_code p = hsnCode /\ sp_countries p = [country])) ps /\
    Forall (fun h => ~ (shd_hsn_code h = hsnCode /\ shd_countries h = [country])) hs.
Proof.
  intros productName hsnCode country historicalData limit w w' ps hs Hh Hc Hrun.
  destruct (findSimilarHistoricalData_cases productName hsnCode country
              historicalData limit w) as [w1 [H|[items H]]];
    rewrite H in Hrun.
  - injection Hrun as <- <- _. split; constructor.
  - rewrite primary_results_eq in Hrun. injection Hrun as <- <- _. split.
    + apply firstn_Forall, Forall_forall. intros p Hp.
      apply in_map_iff in Hp. destruct Hp as [item [<- Hi]].
      apply filter_In in Hi. destruct Hi as [_ Hg].
      apply (gate_not_own hsnCode country item Hh Hc Hg).
    + apply firstn_Forall, Forall_forall. intros h Hin.
      apply filter_map_In in Hin. destruct Hin as [item [Hi Hto]].
      apply filter_In in Hi. destruct Hi as [_ Hg].
      destruct (to_historical_identity item h Hto) as [-> ->].
      apply (gate_not_own hsnCode country item Hh Hc Hg).
Qed.

Lemma findSimilarHistoricalData_excludes_self_witness :
  Forall (fun p => ~ (sp_hsn_code p = "902" /\ sp_countries p = ["AUSTRALIA"]))
         [to_product Sample1.strong] /\
  Forall (fun h => ~ (shd_hsn_code h = "902" /\ shd_countries h = ["AUSTRALIA"]))
         (filter_map to_historical [Sample1.strong]).
Proof.
  apply (findSimilarHistoricalData_excludes_self "Tea" "902" "AUSTRALIA"
           Sample1.records 5
           (SampleK.world [SampleS.stored_item (9 # 10); Sample1.strong])
           (snd (findSimilarHistoricalData "Tea" "902" "AUSTRALIA" Sample1.records 5
                   (SampleK.world [SampleS.stored_item (9 # 10); Sample1.strong])))).
  - discriminate.
  - discriminate.
  - vm_compute. reflexivity.
Defined.

Lemma score_fold_scored (words : list string) (docs : list Document) :
  forall (acc : list VectorSimilarProduct) (v : VectorSimilarProduct),
    In v (fold_left (score_document words) docs acc) ->
    In v acc \/
    exists d, In d docs /\ Qltb 20 (keyword_similarity words d) = true /\
              v = to_keyword_match (keyword_similarity words d) d.
Proof.
  induction docs as [|d t IH]; intros acc v Hv; simpl in Hv; [auto|].
  apply IH in Hv. destruct Hv as [Hv|[d' [Hd' [Hs ->]]]].
  - unfold score_document in Hv.
    destruct (Qltb 20 (keyword_similarity words d)) eqn:E; [|auto].
    apply in_app_or in Hv. destruct Hv as [Hv|[<-|[]]]; [auto|].
    right. exists d. split; [left; reflexivity|]. auto.
  - right. exists d'. split; [right; exact Hd'|]. auto.
Qed.

Lemma scan_rows_history (ex : option string) (ds : list Document) (d : Document) :
  In d (scan_rows ex ds) -> is_history (doc_metadata d) = true.
Proof.
  unfold scan_rows. intros Hd. apply firstn_In in Hd.
  assert (H : In d (filter (fun d => is_history (doc_metadata d)) ds)).
  { destruct ex as [x|]; [|exact Hd].
    destruct (truthy_str (Some x)); [|exact Hd].
    apply filter_In in Hd. tauto. }
  apply filter_In in H. tauto.
Qed.

Lemma by_similarity_sorted (l : list VectorSimilarProduct) :
  matches_ranked (sort by_similarity_desc l).
Proof.
  apply sort_sorted with (P := fun _ => True).
  - intros a b _ _ H. unfold before, by_similarity_desc in H.
    apply Qle_bool_iff in H. lra.
  - intros a b _ _ H. unfold before, by_similarity_desc in H.
    destruct (Qle_bool (vsp_similarity b - vsp_similarity a) 0) eqn:E;
      [discriminate|].
    assert (Hn : ~ (vsp_similarity b - vsp_similarity a <= 0)%Q).
    { intros Hle. apply Qle_bool_iff in Hle. congruence. }
    apply Qnot_le_lt in Hn. lra.
  - intros a b c _ _ _ H1 H2. lra.
  - apply Forall_forall. auto.
Qed.

(** X12. The keyword fallback never throws and makes one scan of the
    table.  Its list is in descending order of similarity, every entry
    scores above 20 and carries the record tag; when the scan fails, the
    list is empty. *)
Theorem searchSimilarProductsSimple_ranked :
  forall (query : string) (excludeHsnCode : option string) (k : nat) (w : World),
    exists l,
      searchSimilarProductsSimple query excludeHsnCode k w
      = (Ok l, after_call (EvScan excludeHsnCode) w) /\
      matches_ranked l /\
      Forall (fun v => (20 < vsp_similarity v)%Q
                       /\ is_history (vsp_metadata v) = true) l /\
      (db_fault w (tick w) <> None -> l = []).
Proof.
  intros query ex k w. eexists. split; [apply simple_run|].
  destruct (db_fault w (tick w)) as [e|].
  - split; [constructor|]. split; [constructor|reflexivity].
  - split; [apply firstn_sorted, by_similarity_sorted|]. split; [|congruence].
    apply firstn_Forall, sort_Forall, Forall_forall. intros v Hv.
    apply score_fold_scored in Hv. destruct Hv as [[]|[d [Hd [Hs ->]]]].
    split; [apply Qltb_lt; exact Hs|].
    simpl. apply (scan_rows_history ex (documents w) d Hd).
Qed.





(** X14. For a query without a word of more than two characters the
    keyword fallback finds nothing, whatever the table holds. *)
Theorem searchSimilarProductsSimple_short_query :
  forall (query : string) (excludeHsnCode : option string) (k : nat) (w : World),
    queryWords query = [] ->
    searchSimilarProductsSimple query excludeHsnCode k w
    = (Ok [], after_call (EvScan excludeHsnCode) w).
Proof.
  intros query ex k w Hq. rewrite simple_run, Hq.
  destruct (db_fault w (tick w)); [reflexivity|].
  assert (H : forall docs, fold_left (score_document []) docs [] = []).
  { induction docs as [|d t IH]; [reflexivity|]. simpl. exact IH. }
  rewrite H. destruct k; reflexivity.
Qed.

Lemma searchSimilarProductsSimple_short_query_witness :
  searchSimilarProductsSimple "a of it" None 5 SampleS.calm
  = (Ok [], after_call (EvScan None) SampleS.calm).
Proof.
  apply (searchSimilarProductsSimple_short_query "a of it" None 5 SampleS.calm).
  reflexivity.
Defined.

Lemma map_result_total (A B : Type) (f : A -> Result B) (l : list A) :
  Forall (fun x => exists y, f x = Ok y) l -> exists l', map_result f l = Ok l'.
Proof.
  induction 1 as [|x t [y Hy] Ht [l' IH]]; simpl; [eauto|].
  rewrite Hy, IH. eauto.
Qed.

Lemma map_result_length (A B : Type) (f : A -> Result B) (l : list A) :
  forall l', map_result f l = Ok l' -> List.length l' = List.length l.
Proof.
  induction l as [|x t IH]; intros l'; simpl.
  - intros [= <-]. reflexivity.
  - destruct (f x); [|discriminate].
    destruct (map_result f t) as [ys|]; [|discriminate].
    intros [= <-]. simpl. f_equal. apply IH. reflexivity.
Qed.

Lemma map_result_sorted (A B : Type) (R : A -> A -> Prop) (S : B -> B -> Prop)
  (f : A -> Result B) (l : list A) :
  (forall a b fa fb, f a = Ok fa -> f b = Ok fb -> R a b -> S fa fb) ->
  StronglySorted R l ->
  forall l', map_result f l = Ok l' -> StronglySorted S l'.
Proof.
  intros Hf. induction 1 as [|x t Hs IH Hx]; intros l'; simpl.
  - intros [= <-]. constructor.
  - destruct (f x) as [y|] eqn:Ey; [|discriminate].
    destruct (map_result f t) as [ys|] eqn:Et; [|discriminate].
    intros [= <-]. constructor; [apply IH; reflexivity|].
    rewrite Forall_forall in *. intros z Hz.
    destruct (map_result_In _ _ f t ys z Et Hz) as [u [Hu Hfu]]. eauto.
Qed.

Lemma map_result_throws (A B : Type) (f : A -> Result B) (l : list A)
  (x : A) (e : Thrown) :
  In x l -> f x = Throw e -> exists e', map_result f l = Throw e'.
Proof.
  induction l as [|y t IH]; simpl; [tauto|].
  intros [->|Hx] Hf.
  - rewrite Hf. eauto.
  - destruct (f y); [|eauto]. destruct (IH Hx Hf) as [e' ->]. eauto.
Qed.

Lemma to_vector_match_nameable (item : MatchItem) :
  nameable item -> exists v, to_vector_match item = Ok v.
Proof.
  unfold nameable, to_vector_match.
  destruct (truthy_str (metadata_name (item_metadata item))); [eauto|].
  intros [H|H]; [discriminate|].
  destruct (item_content item); [eauto|contradiction].
Qed.

Lemma to_vector_match_fields (item : MatchItem) (v : VectorSimilarProduct) :
  to_vector_match item = Ok v ->
  vsp_metadata v = item_metadata item /\
  vsp_hsn_code v
  = or_str (item_hsn_code item)
           (or_str (metadata_hsn_code (item_metadata item)) "Unknown").
Proof.
  unfold to_vector_match.
  destruct (truthy_str (metadata_name (item_metadata item))).
  - intros [= <-]. split; reflexivity.
  - destruct (item_content item); [|discriminate]. intros [= <-]. split; reflexivity.
Qed.

Lemma keep_item_facts (ex : option string) (item : MatchItem) :
  keep_item ex item = true ->
  is_history (item_metadata item) = true /\
  (1 # 10 <= item_similarity item)%Q /\
  (forall x, ex = Some x -> x <> "" ->
             opt_eqb (item_hsn_code item) x = false /\
             opt_eqb (metadata_hsn_code (item_metadata item)) x = false).
Proof.
  intros H. unfold keep_item in H. destruct ex as [x|].
  - destruct (truthy_str (Some x)) eqn:Et; cbn [andb] in H.
    + destruct (opt_eqb (item_hsn_code item) x
                || opt_eqb (metadata_hsn_code (item_metadata item)) x) eqn:Eo;
        [discriminate|].
      apply orb_false_iff in Eo.
      destruct (is_history (item_metadata item)); [|discriminate].
      cbn [negb] in H. apply Qle_bool_iff in H.
      split; [reflexivity|]. split; [exact H|].
      intros y [= <-] _. exact Eo.
    + destruct (is_history (item_metadata item)); [|discriminate].
      cbn [negb] in H. apply Qle_bool_iff in H.
      split; [reflexivity|]. split; [exact H|].
      intros y [= <-] Hy. exfalso. simpl in Et.
      destruct (String.eqb_spec x ""); [contradiction|discriminate].
  - destruct (is_history (item_metadata item)); [|discriminate].
    cbn [negb] in H. apply Qle_bool_iff in H.
    split; [reflexivity|]. split; [exact H|].
    intros y Hy. discriminate.
Qed.

(** X15. The primary path of [searchSimilarProducts].  When the
    nearest-neighbour query answers with rows, and every row has a name
    or a content, the result comes from these rows alone, without a scan
    of the table: at most [k] entries, each with the record tag and a
    similarity between 10 and 100, in the order of the rows, so ranked
    when they are; and none with the excluded code, for a code other
    than the placeholder "Unknown". *)
Theorem searchSimilarProducts_primary :
  forall (query : string) (excludeHsnCode : option string) (k : nat)
         (w w1 : World) (emb : list Q) (item : MatchItem) (items : list MatchItem),
    generateEmbedding query 3 w = (Ok emb, w1) ->
    match_documents w1 (tick w1)
    = {| data := Some (item :: items); error := None |} ->
    Forall nameable (item :: items) ->
    exists l,
      searchSimilarProducts query excludeHsnCode k w
      = (Ok l, after_call (EvMatchDocuments (1 # 10) (Z.of_nat k + 10)) w1) /\
      (List.length l <= k)%nat /\
      Forall (fun v => is_history (vsp_metadata v) = true /\
                       (10 <= vsp_similarity v)%Q /\ (vsp_similarity v <= 100)%Q) l /\
      (forall x, excludeHsnCode = Some x -> x <> "" -> x <> "Unknown" ->
                 Forall (fun v => vsp_hsn_code v <> x) l) /\
      (ranked (item :: items) -> matches_ranked l).
Proof.
  intros query ex k w w1 emb item items Hemb Hreply Hnames.
  set (kept := firstn k (filter (keep_item ex) (item :: items))).
  assert (Hkept : forall i, In i kept -> keep_item ex i = true /\ nameable i).
  { intros i Hi. apply firstn_In, filter_In in Hi. destruct Hi as [Hin Hk].
    rewrite Forall_forall in Hnames. auto. }
  destruct (map_result_total _ _ to_vector_match kept) as [l Hl].
  { apply Forall_forall. intros i Hi. apply to_vector_match_nameable.
    apply Hkept. exact Hi. }
  exists l. split; [|split; [|split; [|split]]].
  - unfold searchSimilarProducts, try_catch. unfold bind at 1. rewrite Hemb.
    unfold bind at 1. rewrite rpc_run, Hreply. cbn [error data]. unfold lift.
    unfold slice0. fold kept. rewrite Hl. reflexivity.
  - rewrite (map_result_length _ _ _ _ l Hl). apply firstn_le_length.
  - apply Forall_forall. intros v Hv.
    destruct (map_result_In _ _ _ _ l v Hl Hv) as [i [Hi Hf]].
    destruct (Hkept i Hi) as [Hk _].
    destruct (keep_item_facts ex i Hk) as [Hh [Hs _]].
    destruct (to_vector_match_fields i v Hf) as [-> _].
    rewrite (to_vector_match_similarity i v Hf). split; [exact Hh|].
    split; [|apply Qmin_le_l].
    destruct (Qmin_cases 100 (item_similarity i * 100)) as [[-> _]|[-> _]]; lra.
  - intros x -> Hx Hunk. apply Forall_forall. intros v Hv.
    destruct (map_result_In _ _ _ _ l v Hl Hv) as [i [Hi Hf]].
    destruct (Hkept i Hi) as [Hk _].
    destruct (keep_item_facts (Some x) i Hk) as [_ [_ Hex]].
    destruct (Hex x eq_refl Hx) as [H1 H2].
    destruct (to_vector_match_fields i v Hf) as [_ ->].
    intros Heq. unfold or_str at 1 in Heq.
    destruct (item_hsn_code i) as [s|] eqn:Es.
    + destruct (String.eqb s "").
      * apply or_str_default in Heq; [|exact Hunk].
        rewrite Heq, opt_eqb_refl in H2. discriminate.
      * subst s. rewrite opt_eqb_refl in H1. discriminate.
    + apply or_str_default in Heq; [|exact Hunk].
      rewrite Heq, opt_eqb_refl in H2. discriminate.
  - intros Hr.
    apply (map_result_sorted _ _
             (fun a b => (item_similarity b <= item_similarity a)%Q)
             (fun a b => (vsp_similarity b <= vsp_similarity a)%Q)
             to_vector_match kept); [| |exact Hl].
    + intros a b fa fb Ha Hb Hab.
      rewrite (to_vector_match_similarity a fa Ha),
              (to_vector_match_similarity b fb Hb).
      apply capped_mono. exact Hab.
    + apply firstn_sorted, filter_sorted. exact Hr.
Qed.

Lemma searchSimilarProducts_primary_witness :
  exists l,
    searchSimilarProducts Sample2.query (Some "902") 5
      (SampleK.world [Sample1.strong; Sample1.weak])
    = (Ok l, after_call (EvMatchDocuments (1 # 10) (Z.of_nat 5 + 10))
               (snd (generateEmbedding Sample2.query 3
                       (SampleK.world [Sample1.strong; Sample1.weak])))) /\
    (List.length l <= 5)%nat /\
    Forall (fun v => is_history (vsp_metadata v) = true /\
                     (10 <= vsp_similarity v)%Q /\ (vsp_similarity v <= 100)%Q) l /\
    (forall x, Some "902" = Some x -> x <> "" -> x <> "Unknown" ->
               Forall (fun v => vsp_hsn_code v <> x) l) /\
    (ranked [Sample1.strong; Sample1.weak] -> matches_ranked l).
Proof.
  apply (searchSimilarProducts_primary Sample2.query (Some "902") 5%nat
           (SampleK.world [Sample1.strong; Sample1.weak]) _ Sample.vector384).
  - vm_compute. reflexivity.
  - reflexivity.
  - repeat constructor.
Defined.

(** X16. One row without a name and without a content among the rows
    that the primary path keeps makes [searchSimilarProducts] drop all of
    them: reading the content throws, and the result is the keyword
    fallback's. *)
Theorem searchSimilarProducts_bare_row :
  forall (query : string) (excludeHsnCode : option string) (k : nat)
         (w w1 : World) (emb : list Q) (items : list MatchItem) (bad : MatchItem),
    generateEmbedding query 3 w = (Ok emb, w1) ->
    match_documents w1 (tick w1) = {| data := Some items; error := None |} ->
    In bad (firstn k (filter (keep_item excludeHsnCode) items)) ->
    truthy_str (metadata_name (item_metadata bad)) = false ->
    item_content bad = None ->
    searchSimilarProducts query excludeHsnCode k w
    = searchSimilarProductsSimple query excludeHsnCode k
        (after_call (EvMatchDocuments (1 # 10) (Z.of_nat k + 10)) w1).
Proof.
  intros query ex k w w1 emb items bad Hemb Hreply Hbad Hname Hcontent.
  assert (Hthrow : exists e, to_vector_match bad = Throw e).
  { unfold to_vector_match. rewrite Hname, Hcontent. eauto. }
  destruct Hthrow as [e He].
  destruct (map_result_throws _ _ to_vector_match _ bad e Hbad He) as [e' He'].
  unfold searchSimilarProducts, try_catch. unfold bind at 1. rewrite Hemb.
  unfold bind at 1. rewrite rpc_run, Hreply. cbn [error data].
  destruct items as [|i items]; [destruct k; destruct Hbad|].
  unfold lift, slice0. rewrite He'. reflexivity.
Qed.

Lemma searchSimilarProducts_bare_row_witness :
  searchSimilarProducts Sample2.query (Some "902") 5
    (SampleK.world [Sample1.strong; SampleK.bare])
  = searchSimilarProductsSimple Sample2.query (Some "902") 5
      (after_call (EvMatchDocuments (1 # 10) (Z.of_nat 5 + 10))
         (snd (generateEmbedding Sample2.query 3
                 (SampleK.world [Sample1.strong; SampleK.bare])))).
Proof.
  apply (searchSimilarProducts_bare_row Sample2.query (Some "902") 5%nat
           (SampleK.world [Sample1.strong; SampleK.bare]) _ Sample.vector384
           [Sample1.strong; SampleK.bare] SampleK.bare).
  - vm_compute. reflexivity.
  - reflexivity.
  - vm_compute. tauto.
  - reflexivity.
  - reflexivity.
Defined.

(** ** Local analysis, further *)

Lemma Qmin_le_r (a b : Q) : (Qmin a b <= b)%Q.
Proof.
  destruct (Qmin_cases a b) as [[-> H]|[-> _]]; [exact H|apply Qle_refl].
Qed.

Lemma Qmax_cases (a b : Q) :
  (Qmax a b = b /\ (a <= b)%Q) \/ (Qmax a b = a /\ (b <= a)%Q).
Proof.
  unfold Qmax. destruct (Qle_bool a b) eqn:E.
  - left. split; [reflexivity|]. apply Qle_bool_iff. exact E.
  - right. split; [reflexivity|]. apply Qlt_le_weak, Qnot_le_lt.
    intros H. apply Qle_bool_iff in H. congruence.
Qed.

(** The minimum of a list with head [x] is below every member and is one
    of them. *)
Lemma min_list_spec (l : list Q) :
  forall x, Forall (fun p => (min_list x l <= p)%Q) (x :: l) /\ In (min_list x l) (x :: l).
Proof.
  unfold min_list. induction l as [|y t IH]; intros x; cbn [fold_left].
  - split; [constructor; [apply Qle_refl|constructor]|left; reflexivity].
  - destruct (IH (Qmin x y)) as [Hall Hin].
    inversion Hall as [|? ? Hm Ht]; subst. split.
    + constructor; [|constructor; [|exact Ht]].
      * apply Qle_trans with (Qmin x y); [exact Hm|apply Qmin_le_l].
      * apply Qle_trans with (Qmin x y); [exact Hm|apply Qmin_le_r].
    + destruct Hin as [Hin|Hin]; [|right; right; exact Hin].
      rewrite <- Hin. destruct (Qmin_cases x y) as [[-> _]|[-> _]];
        [left|right; left]; reflexivity.
Qed.

Lemma max_list_spec (l : list Q) :
  forall x, Forall (fun p => (p <= max_list x l)%Q) (x :: l) /\ In (max_list x l) (x :: l).
Proof.
  unfold max_list. induction l as [|y t IH]; intros x; cbn [fold_left].
  - split; [constructor; [apply Qle_refl|constructor]|left; reflexivity].
  - destruct (IH (Qmax x y)) as [Hall Hin].
    inversion Hall as [|? ? Hm Ht]; subst.
    assert (Hx : (x <= Qmax x y)%Q)
      by (destruct (Qmax_cases x y) as [[-> H]|[-> _]]; [exact H|apply Qle_refl]).
    assert (Hy : (y <= Qmax x y)%Q)
      by (destruct (Qmax_cases x y) as [[-> _]|[-> H]]; [apply Qle_refl|exact H]).
    split.
    + constructor; [|constructor; [|exact Ht]].
      * apply Qle_trans with (Qmax x y); assumption.
      * apply Qle_trans with (Qmax x y); assumption.
    + destruct Hin as [Hin|Hin]; [|right; right; exact Hin].
      rewrite <- Hin. destruct (Qmax_cases x y) as [[-> _]|[-> _]];
        [right; left|left]; reflexivity.
Qed.

(** X17. The historical range of the local analysis is the range of the
    records: every price lies between the minimum and the maximum, both
    are prices of records, and the report says "At HIGHEST historical
    price" exactly when no record has a higher price than the newest
    one. *)
Theorem local_analysis_range :
  forall (d0 : HistoricalData) (rest : list HistoricalData),
    Forall (fun d => (minHistoricalPrice d0 rest <= price d)%Q
                     /\ (price d <= maxHistoricalPrice d0 rest)%Q) (d0 :: rest) /\
    In (minHistoricalPrice d0 rest) (map price (d0 :: rest)) /\
    In (maxHistoricalPrice d0 rest) (map price (d0 :: rest)) /\
    (market_position d0 rest = "🔥 At HIGHEST historical price" <->
     Forall (fun d => (price d <= price d0)%Q) (d0 :: rest)).
Proof.
  intros d0 rest. unfold minHistoricalPrice, maxHistoricalPrice.
  destruct (min_list_spec (map price rest) (price d0)) as [Hmin Hmin_in].
  destruct (max_list_spec (map price rest) (price d0)) as [Hmax Hmax_in].
  change (price d0 :: map price rest) with (map price (d0 :: rest)) in *.
  rewrite Forall_forall in Hmin, Hmax.
  split; [|split; [exact Hmin_in|split; [exact Hmax_in|]]].
  - apply Forall_forall. intros d Hd.
    split; [apply Hmin|apply Hmax]; apply in_map; exact Hd.
  - unfold market_position, currentSellingPrice, minHistoricalPrice,
      maxHistoricalPrice.
    destruct (Qeq_bool (price d0) (max_list (price d0) (map price rest))) eqn:E.
    + split; [intros _|reflexivity].
      apply Qeq_bool_iff in E. apply Forall_forall. intros d Hd.
      rewrite E. apply Hmax. apply in_map. exact Hd.
    + split.
      * intros H.
        destruct (Qeq_bool (price d0) (min_list (price d0) (map price rest)));
          [discriminate H|].
        destruct (Qltb _ (price d0)); discriminate H.
      * intros Hall. exfalso.
        assert (Heq : (price d0 == max_list (price d0) (map price rest))%Q).
        { apply Qle_antisym.
          - apply Hmax. left. reflexivity.
          - apply in_map_iff in Hmax_in. destruct Hmax_in as [d [<- Hd]].
            rewrite Forall_forall in Hall. apply Hall. exact Hd. }
        apply Qeq_bool_iff in Heq. congruence.
Qed.



(** ** The screen, further *)

Section EmittingPipeline.
Variable allowed : Service -> bool.

Lemma emits_select_id (hsn country : string) :
  allowed DocumentsRead = true -> emits allowed (select_id hsn country).
Proof. intros. unfold select_id. emits_all. Qed.

Lemma emits_rpc_match_documents (threshold : Q) (count : Z) :
  allowed DocumentsRead = true ->
  emits allowed (rpc_match_documents threshold count).
Proof. intros. unfold rpc_match_documents. emits_all. Qed.

Lemma emits_update_document (id : Z) (content : string) (embedding : list Q)
  (metadata : Metadata) (updated_at : Z) :
  allowed DocumentsWrite = true ->
  emits allowed (update_document id content embedding metadata updated_at).
Proof. intros. unfold update_document. emits_all. Qed.

Lemma emits_insert_document (content : string) (embedding : list Q)
  (hsn country : string) (metadata : Metadata) (created_at : Z) :
  allowed DocumentsWrite = true ->
  emits allowed (insert_document content embedding hsn country metadata created_at).
Proof. intros. unfold insert_document. emits_all. Qed.

Lemma emits_storeProductWithHistoricalData (productName hsnCode country : string)
  (historicalData : list HistoricalData) :
  allowed HuggingFace = true -> allowed Timer = true ->
  allowed DocumentsRead = true -> allowed DocumentsWrite = true ->
  emits allowed (storeProductWithHistoricalData productName hsnCode country
                   historicalData).
Proof.
  intros. unfold storeProductWithHistoricalData.
  emits_all; auto using emits_generateEmbedding, emits_select_id,
               emits_update_document, emits_insert_document.
Qed.

Lemma emits_findSimilarHistoricalData (productName hsnCode country : string)
  (historicalData : list HistoricalData) (limit : nat) :
  allowed HuggingFace = true -> allowed Timer = true ->
  allowed DocumentsRead = true -> allowed DocumentsWrite = true ->
  emits allowed (findSimilarHistoricalData productName hsnCode country
                   historicalData limit).
Proof.
  intros. unfold findSimilarHistoricalData.
  emits_all; auto using emits_generateEmbedding, emits_rpc_match_documents,
               emits_storeProductWithHistoricalData.
Qed.

Lemma emits_setResult (v : string) : emits allowed (setResult v).
Proof. apply emits_silent. reflexivity. Qed.

Lemma emits_setPrediction (v : string) : emits allowed (setPrediction v).
Proof. apply emits_silent. reflexivity. Qed.

Lemma emits_setIsLoading (v : bool) : emits allowed (setIsLoading v).
Proof. apply emits_silent. reflexivity. Qed.

Lemma emits_setIsLoadingSimilar (v : bool) : emits allowed (setIsLoadingSimilar v).
Proof. apply emits_silent. reflexivity. Qed.

Lemma emits_setHistoricalData (v : list HistoricalData) :
  emits allowed (setHistoricalData v).
Proof. apply emits_silent. reflexivity. Qed.

Lemma emits_setSimilarProducts (v : list SimilarProduct) :
  emits allowed (setSimilarProducts v).
Proof. apply emits_silent. reflexivity. Qed.

Lemma emits_setSimilarHistoricalData (v : list SimilarHistoricalData) :
  emits allowed (setSimilarHistoricalData v).
Proof. apply emits_silent. reflexivity. Qed.

Lemma emits_reset_screen : emits allowed reset_screen.
Proof. apply emits_silent. reflexivity. Qed.

Lemma emits_initializeProductEmbedding (productName hsnCode country : string) :
  emits allowed (initializeProductEmbedding productName hsnCode country).
Proof. apply emits_silent. reflexivity. Qed.

Lemma emits_report_missing_data (s : Screen) (dataError : Thrown) :
  allowed Prices = true -> allowed Dialog = true ->
  emits allowed (report_missing_data s dataError).
Proof.
  intros. unfold report_missing_data.
  emits_all; auto using emits_getAvailableCountries, emits_setResult.
Qed.

Lemma emits_load_similar (s : Screen) (data : list HistoricalData) :
  allowed HuggingFace = true -> allowed Timer = true ->
  allowed DocumentsRead = true -> allowed DocumentsWrite = true ->
  emits allowed (load_similar s data).
Proof.
  intros. unfold load_similar.
  emits_all; auto using emits_findSimilarHistoricalData, emits_setIsLoadingSimilar,
               emits_setSimilarProducts, emits_setSimilarHistoricalData.
Qed.

Lemma emits_post_completion (n : Z) (prompt : string) :
  allowed Completion = true -> emits allowed (post_completion n prompt).
Proof. intros. unfold post_completion. emits_all. Qed.

Lemma emits_analyze_remote (s : Screen) (data : list HistoricalData)
  (similar : list SimilarProduct * list SimilarHistoricalData) :
  allowed Completion = true -> emits allowed (analyze_remote s data similar).
Proof.
  intros. unfold analyze_remote, analyzeWithEnhancedContext,
            generateMarketPrediction.
  emits_all; auto using emits_post_completion, emits_setResult,
               emits_setPrediction.
Qed.

(** The services that an analysis with the switches of [s] may reach. *)
Lemma emits_handleAnalyze (JSON_parse : string -> option JsValue) (w : World) :
  allowed Prices = true -> allowed Dialog = true ->
  (useEmbeddings (screen w) = true ->
   allowed HuggingFace = true /\ allowed Timer = true /\
   allowed DocumentsRead = true /\ allowed DocumentsWrite = true) ->
  (useAI (screen w) = true -> allowed Completion = true) ->
  exists t,
    trace (snd (handleAnalyze JSON_parse w)) = (trace w ++ t)%list /\
    Forall (fun e => allowed (service_of e) = true) t.
Proof.
  intros Hp Hd Hemb Hai.
  unfold handleAnalyze. unfold bind at 1. unfold get_screen at 1.
  set (s := screen w) in *.
  match goal with |- context [snd (?m w)] => assert (Hm : emits allowed m) end;
    [|exact (Hm w)].
  destruct (missing_information s); [emits_all|].
  apply emits_bind; [apply emits_reset_screen|intros _].
  apply emits_try_finally;
    [|emits_all; auto using emits_setIsLoading, emits_setIsLoadingSimilar].
  apply emits_try_catch; [|emits_all; apply emits_setResult].
  apply emits_bind.
  - unfold gather. destruct (useEmbeddings s) eqn:Ee.
    + destruct (Hemb eq_refl) as [H1 [H2 [H3 H4]]].
      emits_all; auto using emits_initializeProductEmbedding,
                   emits_fetchHistoricalData, emits_setHistoricalData,
                   emits_report_missing_data, emits_load_similar.
    + emits_all; auto using emits_fetchHistoricalData, emits_setHistoricalData,
                   emits_report_missing_data.
  - intros [[data similar]|]; [|apply emits_ret].
    destruct (useAI s) eqn:Ea.
    + apply emits_analyze_remote. auto.
    + apply emits_setResult.
Qed.
End EmittingPipeline.

Section PipelineFrames.
Variable R : World -> World -> Prop.
Context `{Framing R}.

Lemma frame_select_prices (code : option Z) : frame R (select_prices code).
Proof. intros w. rewrite select_prices_run. apply fr_call. Qed.

Lemma frame_fetchHistoricalData (JSON_parse : string -> option JsValue)
  (hsnCode country : string) :
  frame R (fetchHistoricalData JSON_parse hsnCode country).
Proof.
  unfold fetchHistoricalData. frames; auto using frame_select_prices.
Qed.

Lemma frame_getAvailableCountries (hsnCode : string) :
  frame R (getAvailableCountries hsnCode).
Proof.
  unfold getAvailableCountries. frames; auto using frame_select_prices.
Qed.

Lemma frame_alert (title message : string) : frame R (alert title message).
Proof. unfold alert. frames. Qed.

Lemma frame_analyzeWithEnhancedContext (historicalData : list HistoricalData)
  (productName country hsnCode : string)
  (similarResults : list SimilarProduct * list SimilarHistoricalData) :
  frame R (analyzeWithEnhancedContext historicalData productName country hsnCode
             similarResults).
Proof.
  unfold analyzeWithEnhancedContext. frames.
  apply frame_post_completion; assumption.
Qed.

Lemma frame_findSimilarHistoricalData `{StoreFraming R}
  (productName hsnCode country : string)
  (historicalData : list HistoricalData) (limit : nat) :
  frame R (findSimilarHistoricalData productName hsnCode country
             historicalData limit).
Proof.
  unfold findSimilarHistoricalData.
  frames; auto using frame_generateEmbedding, frame_rpc_match_documents,
            frame_storeProductWithHistoricalData.
Qed.

Variable JSON_parse : string -> option JsValue.
Variable s : Screen.
Hypothesis Hs : respects s R.

Lemma frame_report_missing_data (dataError : Thrown) :
  frame R (report_missing_data s dataError).
Proof.
  destruct Hs as [_ [Hres _]]. unfold report_missing_data.
  frames; auto using frame_getAvailableCountries, frame_alert.
Qed.

Lemma frame_load_similar (data : list HistoricalData) :
  useEmbeddings s = true -> frame R (load_similar s data).
Proof.
  intros He. destruct Hs as [_ [_ [_ [Hsim _]]]].
  destruct (Hsim He) as [Hst [Hl [Hp Hh]]]. unfold load_similar.
  frames; auto using frame_findSimilarHistoricalData.
Qed.

Lemma frame_gather : frame R (gather JSON_parse s).
Proof.
  pose proof Hs as [_ [Hres [Hhist _]]]. unfold gather.
  destruct (useEmbeddings s) eqn:He.
  - unfold initializeProductEmbedding.
    frames; auto using frame_fetchHistoricalData, frame_report_missing_data,
              frame_load_similar.
  - frames; auto using frame_fetchHistoricalData, frame_report_missing_data.
Qed.

Lemma frame_analyze_remote (data : list HistoricalData)
  (similarResults : list SimilarProduct * list SimilarHistoricalData) :
  useAI s = true -> frame R (analyze_remote s data similarResults).
Proof.
  intros Ha. destruct Hs as [_ [Hres [_ [_ Hpred]]]]. specialize (Hpred Ha).
  unfold analyze_remote.
  frames; auto using frame_analyzeWithEnhancedContext,
            frame_generateMarketPrediction.
Qed.
End PipelineFrames.

Lemma reset_screen_run (w : World) :
  reset_screen w = (Ok tt, with_screen (cleared (screen w)) w).
Proof. reflexivity. Qed.

Lemma finish_run (w : World) :
  (setIsLoading false ;; setIsLoadingSimilar false) w
  = (Ok tt, with_screen (settled (screen w)) w).
Proof. reflexivity. Qed.

(** An analysis with all three fields filled in: the screen is reset, the
    steps in between are those that [respects] lists, and the [finally]
    runs. *)
Lemma handleAnalyze_run (JSON_parse : string -> option JsValue) (w : World) :
  missing_information (screen w) = false ->
  exists w1,
    handleAnalyze JSON_parse w = (Ok tt, with_screen (settled (screen w1)) w1) /\
    forall R, respects (screen w) R -> R (with_screen (cleared (screen w)) w) w1.
Proof.
  intros Hm. unfold handleAnalyze. unfold bind at 1. unfold get_screen at 1.
  rewrite Hm. unfold bind at 1. rewrite reset_screen_run.
  set (s := screen w). set (w0 := with_screen (cleared s) w).
  unfold try_finally.
  match goal with
  | |- context [try_catch ?m ?h w0] => set (body := m); set (handler := h)
  end.
  destruct (try_catch body handler w0) as [r w1] eqn:E.
  rewrite finish_run. exists w1. split.
  - f_equal. unfold try_catch in E.
    destruct (body w0) as [[[]|e] w2].
    + injection E as <- _. reflexivity.
    + unfold handler, bind, alert, log, put, setResult, set_screen in E.
      injection E as <- _. reflexivity.
  - intros R HR. assert (Hf : frame R (try_catch body handler)).
    { pose proof HR as [HF [Hres _]]. unfold body, handler.
      apply frame_try_catch; [assumption| |].
      - apply frame_bind; [assumption| |].
        + apply frame_gather; assumption.
        + intros [[data similar]|]; [|apply frame_ret; assumption].
          destruct (useAI s) eqn:Ea; [|apply Hres].
          apply frame_analyze_remote; assumption.
      - intros e. apply frame_bind; [assumption| |].
        + apply frame_alert; assumption.
        + intros _. apply Hres. }
    specialize (Hf w0). rewrite E in Hf. exact Hf.
Qed.

Lemma same_inputs_framing : Framing same_inputs.
Proof.
  split; unfold same_inputs; cbn; intros; try (repeat split; reflexivity).
  intuition congruence.
Qed.

Lemma same_prediction_framing : Framing same_prediction.
Proof.
  split; unfold same_prediction; cbn; intros; try reflexivity. congruence.
Qed.

Lemma same_similar_framing : Framing same_similar.
Proof.
  split; unfold same_similar; cbn; intros; try (split; reflexivity).
  intuition congruence.
Qed.

Lemma respects_inputs (s : Screen) : respects s same_inputs.
Proof.
  split; [apply same_inputs_framing|].
  repeat split; reflexivity.
Qed.

Lemma respects_prediction (s : Screen) :
  useAI s = false -> respects s same_prediction.
Proof.
  intros Ha. split; [apply same_prediction_framing|].
  repeat split; try reflexivity; congruence.
Qed.

Lemma respects_similar (s : Screen) :
  useEmbeddings s = false -> respects s same_similar.
Proof.
  intros He. split; [apply same_similar_framing|].
  repeat split; try reflexivity; congruence.
Qed.

Lemma respects_tables (s : Screen) :
  useEmbeddings s = false -> respects s same_tables.
Proof.
  intros He. split; [apply same_tables_framing|].
  repeat split; try reflexivity; congruence.
Qed.

(** X19. [handleAnalyze] never throws and never touches the three input
    fields or the two switches.  With a field left blank it only raises
    the "Missing Information" dialog; otherwise, however the analysis
    went, both loading flags are off at the end. *)
Theorem handleAnalyze_settles :
  forall (JSON_parse : string -> option JsValue) (w : World),
  exists w',
    handleAnalyze JSON_parse w = (Ok tt, w') /\
    same_inputs w w' /\
    (if missing_information (screen w)
     then w' = with_trace (trace w ++ [MISSING_INFORMATION]) w
     else isLoading (screen w') = false /\
          isLoadingSimilar (screen w') = false).
Proof.
  intros JSON_parse w. destruct (missing_information (screen w)) eqn:Hm.
  - exists (with_trace (trace w ++ [MISSING_INFORMATION]) w). split.
    + unfold handleAnalyze. unfold bind at 1. unfold get_screen at 1.
      rewrite Hm. reflexivity.
    + split; [|reflexivity]. repeat split; reflexivity.
  - destruct (handleAnalyze_run JSON_parse w Hm) as [w1 [Hrun Hinv]].
    exists (with_screen (settled (screen w1)) w1). split; [exact Hrun|].
    split; [|split; reflexivity].
    specialize (Hinv same_inputs (respects_inputs (screen w))).
    unfold same_inputs in *. cbn in *. exact Hinv.
Qed.

(** X20. With the AI switch off, [handleAnalyze] never calls the
    completion service, and after an analysis the prediction on the
    screen is empty. *)
Theorem local_mode_makes_no_completion :
  forall (JSON_parse : string -> option JsValue) (w : World),
    useAI (screen w) = false ->
    exists t,
      trace (snd (handleAnalyze JSON_parse w)) = (trace w ++ t)%list /\
      Forall (fun e => service_of e <> Completion) t /\
      (missing_information (screen w) = false ->
       prediction (screen (snd (handleAnalyze JSON_parse w))) = "").
Proof.
  intros JSON_parse w Ha.
  destruct (emits_handleAnalyze (all_but [Completion]) JSON_parse w)
    as [t [Ht Hall]]; try reflexivity; try (intros _; repeat split; reflexivity).
  { rewrite Ha. discriminate. }
  exists t. split; [exact Ht|]. split.
  - eapply Forall_impl; [|exact Hall]. intros e He Hc. cbv beta in He.
    rewrite Hc in He. discriminate.
  - intros Hm. destruct (handleAnalyze_run JSON_parse w Hm) as [w1 [Hrun Hinv]].
    rewrite Hrun.
    exact (Hinv same_prediction (respects_prediction (screen w) Ha)).
Qed.

Lemma local_mode_makes_no_completion_witness :
  exists t,
    trace (snd (handleAnalyze Sample.no_json SampleH.local_search)) = t /\
    Forall (fun e => service_of e <> Completion) t /\
    prediction (screen (snd (handleAnalyze Sample.no_json SampleH.local_search)))
    = "".
Proof.
  destruct (local_mode_makes_no_completion Sample.no_json SampleH.local_search)
    as [t [Ht [Hall Hp]]]; [reflexivity|].
  exists t. split; [exact Ht|]. split; [exact Hall|]. apply Hp. reflexivity.
Defined.

(** X21. With the embeddings switch off, [handleAnalyze] reaches only the
    price table, the completion service and the dialogs; the tables are
    as before, and after an analysis the screen lists no similar
    product. *)
Theorem embeddings_off_reads_prices_only :
  forall (JSON_parse : string -> option JsValue) (w : World),
    useEmbeddings (screen w) = false ->
    exists t,
      trace (snd (handleAnalyze JSON_parse w)) = (trace w ++ t)%list /\
      Forall (fun e => In (service_of e) [Prices; Completion; Dialog]) t /\
      same_tables w (snd (handleAnalyze JSON_parse w)) /\
      (missing_information (screen w) = false ->
       similarProducts (screen (snd (handleAnalyze JSON_parse w))) = [] /\
       similarHistoricalData (screen (snd (handleAnalyze JSON_parse w))) = []).
Proof.
  intros JSON_parse w He.
  destruct (emits_handleAnalyze (only [Prices; Completion; Dialog]) JSON_parse w)
    as [t [Ht Hall]]; try reflexivity.
  { rewrite He. discriminate. }
  exists t. split; [exact Ht|]. split; [|split].
  - eapply Forall_impl; [|exact Hall]. intros e H. cbv beta in H.
    destruct (service_of e); try discriminate; cbn; auto.
  - destruct (missing_information (screen w)) eqn:Hm.
    + unfold handleAnalyze. unfold bind at 1. unfold get_screen at 1.
      rewrite Hm. repeat split; reflexivity.
    + destruct (handleAnalyze_run JSON_parse w Hm) as [w1 [Hrun Hinv]].
      rewrite Hrun.
      specialize (Hinv same_tables (respects_tables (screen w) He)).
      unfold same_tables in *. cbn in *. exact Hinv.
  - intros Hm. destruct (handleAnalyze_run JSON_parse w Hm) as [w1 [Hrun Hinv]].
    rewrite Hrun.
    exact (Hinv same_similar (respects_similar (screen w) He)).
Qed.

Lemma embeddings_off_reads_prices_only_witness :
  exists t,
    trace (snd (handleAnalyze Sample.no_json SampleH.local)) = t /\
    Forall (fun e => In (service_of e) [Prices; Completion; Dialog]) t /\
    same_tables SampleH.local (snd (handleAnalyze Sample.no_json SampleH.local)) /\
    similarProducts (screen (snd (handleAnalyze Sample.no_json SampleH.local)))
    = [].
Proof.
  destruct (embeddings_off_reads_prices_only Sample.no_json SampleH.local)
    as [t [Ht [Hall [Htab Hs]]]]; [reflexivity|].
  exists t. split; [exact Ht|]. split; [exact Hall|]. split; [exact Htab|].
  apply Hs. reflexivity.
Defined.

Lemma bind_ok (A B : Type) (m : M A) (k : A -> M B) (w w1 : World) (a : A) :
  m w = (Ok a, w1) -> bind m k w = k a w1.
Proof. intros Hm. unfold bind. rewrite Hm. reflexivity. Qed.

Lemma bind_throw (A B : Type) (m : M A) (k : A -> M B) (w w1 : World)
  (e : Thrown) :
  m w = (Throw e, w1) -> bind m k w = (Throw e, w1).
Proof. intros Hm. unfold bind. rewrite Hm. reflexivity. Qed.

Lemma try_catch_ok (A : Type) (m : M A) (h : Thrown -> M A) (w w1 : World)
  (a : A) :
  m w = (Ok a, w1) -> try_catch m h w = (Ok a, w1).
Proof. intros Hm. unfold try_catch. rewrite Hm. reflexivity. Qed.

Lemma try_catch_throw (A : Type) (m : M A) (h : Thrown -> M A) (w w1 : World)
  (e : Thrown) :
  m w = (Throw e, w1) -> try_catch m h w = h e w1.
Proof. intros Hm. unfold try_catch. rewrite Hm. reflexivity. Qed.

Lemma fetchHistoricalData_world (JSON_parse : string -> option JsValue)
  (hsnCode country : string) (w : World) :
  snd (fetchHistoricalData JSON_parse hsnCode country w)
  = after_call (EvSelectPrices (parseInt hsnCode)) w.
Proof.
  unfold fetchHistoricalData, try_catch, bind. rewrite select_prices_run.
  destruct (error (prices_reply (parseInt hsnCode) w)); [reflexivity|].
  destruct (data (prices_reply (parseInt hsnCode) w)) as [row|]; [|reflexivity].
  destruct (falsy (obj_get country row)).
  - destruct (available_columns row); reflexivity.
  - unfold lift.
    destruct (parseCountryData JSON_parse _) as [[|r l]|e]; reflexivity.
Qed.

(** The records that [fetchHistoricalData] returns depend on the world
    only through the answer of the price table. *)
Lemma fetchHistoricalData_agree (JSON_parse : string -> option JsValue)
  (hsnCode country : string) (w w' : World) :
  prices_reply (parseInt hsnCode) w' = prices_reply (parseInt hsnCode) w ->
  fst (fetchHistoricalData JSON_parse hsnCode country w')
  = fst (fetchHistoricalData JSON_parse hsnCode country w).
Proof.
  intros Heq. unfold fetchHistoricalData, try_catch, bind.
  rewrite !select_prices_run, Heq.
  destruct (error (prices_reply (parseInt hsnCode) w)); [reflexivity|].
  destruct (data (prices_reply (parseInt hsnCode) w)) as [row|]; [|reflexivity].
  destruct (falsy (obj_get country row)).
  - destruct (available_columns row); reflexivity.
  - unfold lift.
    destruct (parseCountryData JSON_parse _) as [[|r l]|e]; reflexivity.
Qed.

(** The similarity step never throws; it leaves on the screen the
    products that it returns. *)
Lemma load_similar_run (s : Screen) (data : list HistoricalData) (w : World) :
  exists sims w3,
    load_similar s data w = (Ok sims, w3) /\
    similarProducts (screen w3) = fst sims /\
    ui_historicalData (screen w3) = ui_historicalData (screen w) /\
    result (screen w3) = result (screen w) /\
    prediction (screen w3) = prediction (screen w).
Proof.
  unfold load_similar, try_finally, try_catch. unfold bind at 1.
  set (wA := snd (setIsLoadingSimilar true w)).
  change (setIsLoadingSimilar true w) with (Ok tt, wA). cbv beta iota.
  unfold bind at 1.
  match goal with
  | |- context [findSimilarHistoricalData ?a ?b ?c ?d ?n wA] =>
      pose proof (@frame_findSimilarHistoricalData same_screen _ _ a b c d n wA)
        as Hscr;
      destruct (findSimilarHistoricalData a b c d n wA) as [[r|e] wB]
  end; unfold same_screen in Hscr; cbn in Hscr.
  - eexists. eexists. split; [reflexivity|]. cbn. rewrite Hscr.
    repeat split; reflexivity.
  - exists no_results. eexists. split; [reflexivity|]. cbn. rewrite Hscr.
    repeat split; reflexivity.
Qed.

(** [gather] when the price table has the records. *)
Lemma gather_found (JSON_parse : string -> option JsValue) (s : Screen)
  (w0 : World) (data : list HistoricalData) :
  fst (fetchHistoricalData JSON_parse (trim (hsnCode s))
         (toUpperCase (trim (country s))) w0) = Ok data ->
  exists sims w2 t,
    gather JSON_parse s w0 = (Ok (Some (data, sims)), w2) /\
    ui_historicalData (screen w2) = data /\
    (if useEmbeddings s then similarProducts (screen w2) = fst sims
     else sims = no_results /\
          similarProducts (screen w2) = similarProducts (screen w0)) /\
    result (screen w2) = result (screen w0) /\
    prediction (screen w2) = prediction (screen w0) /\
    trace w2 = (trace w0 ++ t)%list /\
    Forall (fun e => all_but [Completion; Dialog] (service_of e) = true) t.
Proof.
  intros Hf.
  set (ev := EvSelectPrices (parseInt (trim (hsnCode s)))).
  assert (Hrun : fetchHistoricalData JSON_parse (trim (hsnCode s))
                   (toUpperCase (trim (country s))) w0
                 = (Ok data, after_call ev w0)).
  { rewrite (surjective_pairing (fetchHistoricalData _ _ _ w0)).
    rewrite Hf, fetchHistoricalData_world. reflexivity. }
  set (wH := snd (setHistoricalData data (after_call ev w0))).
  unfold gather. destruct (useEmbeddings s) eqn:He.
  - unfold initializeProductEmbedding. unfold bind at 1.
    change (ret tt w0) with (@Ok unit tt, w0). cbv beta iota.
    unfold bind at 1.
    match goal with
    | |- context [try_catch ?m ?h w0] =>
        assert (Hin : try_catch m h w0 = (Ok (Some data), wH))
    end.
    { apply try_catch_ok. rewrite (bind_ok _ _ _ _ _ _ _ Hrun). reflexivity. }
    rewrite Hin.
    destruct (load_similar_run s data wH) as [sims [w3 [Hl [Hsp [Hh [Hr Hp]]]]]].
    destruct (emits_load_similar (all_but [Completion; Dialog]) s data
                eq_refl eq_refl eq_refl eq_refl wH) as [t [Ht Hall]].
    rewrite Hl in Ht. cbn [snd] in Ht.
    rewrite (bind_ok _ _ _ _ _ _ _ Hl). exists sims, w3, (ev :: t).
    split; [reflexivity|]. split; [rewrite Hh; reflexivity|].
    split; [exact Hsp|]. split.
    + rewrite Hr. reflexivity.
    + split; [rewrite Hp; reflexivity|].
      split; [rewrite Ht; cbn; rewrite <- app_assoc; reflexivity|].
      constructor; [reflexivity|exact Hall].
  - unfold bind at 1. change (ret tt w0) with (@Ok unit tt, w0). cbv beta iota.
    unfold bind at 1.
    match goal with
    | |- context [try_catch ?m ?h w0] =>
        assert (Hin : try_catch m h w0 = (Ok (Some data), wH))
    end.
    { apply try_catch_ok. rewrite (bind_ok _ _ _ _ _ _ _ Hrun). reflexivity. }
    rewrite Hin. exists no_results, wH, [ev].
    split; [reflexivity|]. repeat split; try reflexivity.
    constructor; [reflexivity|constructor].
Qed.

(** [gather] when the price table has no records for the request: two
    lookups, one dialog, and the result "No historical data ...". *)
Lemma gather_missing (JSON_parse : string -> option JsValue) (s : Screen)
  (w0 : World) (e : Thrown) :
  fst (fetchHistoricalData JSON_parse (trim (hsnCode s))
         (toUpperCase (trim (country s))) w0) = Throw e ->
  exists title message w2,
    gather JSON_parse s w0 = (Ok None, w2) /\
    screen w2 = screen (snd (setResult NO_DATA w0)) /\
    trace w2 = (trace w0 ++ [EvSelectPrices (parseInt (trim (hsnCode s)));
                             EvSelectPrices (parseInt (trim (hsnCode s)));
                             EvAlert title message])%list /\
    (title = "No Data Found" \/ title = "No Data Available").
Proof.
  intros Hf.
  set (ev := EvSelectPrices (parseInt (trim (hsnCode s)))).
  assert (Hrun : fetchHistoricalData JSON_parse (trim (hsnCode s))
                   (toUpperCase (trim (country s))) w0
                 = (Throw e, after_call ev w0)).
  { rewrite (surjective_pairing (fetchHistoricalData _ _ _ w0)).
    rewrite Hf, fetchHistoricalData_world. reflexivity. }
  set (wc := after_call ev w0) in *.
  assert (Hrep : exists title message,
             report_missing_data s e wc
             = (Ok tt, snd (setResult NO_DATA
                              (with_trace (trace (after_call ev wc)
                                           ++ [EvAlert title message])
                                 (after_call ev wc)))) /\
             (title = "No Data Found" \/ title = "No Data Available")).
  { unfold report_missing_data. unfold bind at 1. unfold try_catch.
    unfold bind at 1. rewrite getAvailableCountries_run.
    match goal with
    | |- context [match ?l with [] => alert _ _ | _ :: _ => _ end] =>
        destruct l as [|c0 cs]
    end.
    - eexists. eexists. split; [reflexivity|]. right. reflexivity.
    - eexists. eexists. split; [reflexivity|]. left. reflexivity. }
  destruct Hrep as [title [message [Hrep Htitle]]].
  exists title, message. eexists. split; [|split; [|split; [|exact Htitle]]].
  - unfold gather.
    assert (Hfirst : forall k : unit -> M (option (list HistoricalData
                       * (list SimilarProduct * list SimilarHistoricalData))),
               bind (if useEmbeddings s
                     then initializeProductEmbedding (trim (product s))
                            (trim (hsnCode s)) (toUpperCase (trim (country s)))
                     else ret tt) k w0 = k tt w0).
    { intros k. destruct (useEmbeddings s); reflexivity. }
    rewrite Hfirst. unfold bind at 1.
    rewrite (try_catch_throw _ _ _ _ _ _ (bind_throw _ _ _ _ _ _ _ Hrun)).
    rewrite (bind_ok _ _ _ _ _ _ _ Hrep). reflexivity.
  - reflexivity.
  - cbn. rewrite <- !app_assoc. reflexivity.
Qed.

(** X22. Local mode, all fields filled in, and the price table has the
    records: [handleAnalyze] shows them, and the result is the local
    report on these records and on the similar products that the screen
    lists.  No dialog is raised and the completion service is not
    called. *)
Theorem handleAnalyze_local_report :
  forall (JSON_parse : string -> option JsValue) (w : World)
         (data : list HistoricalData),
    missing_information (screen w) = false ->
    useAI (screen w) = false ->
    fst (fetchHistoricalData JSON_parse (trim (hsnCode (screen w)))
           (toUpperCase (trim (country (screen w)))) w) = Ok data ->
    exists w' t,
      handleAnalyze JSON_parse w = (Ok tt, w') /\
      ui_historicalData (screen w') = data /\
      result (screen w')
      = analyzeLocalData data (trim (product (screen w)))
          (trim (country (screen w))) (trim (hsnCode (screen w)))
          (similarProducts (screen w')) /\
      trace w' = (trace w ++ t)%list /\
      Forall (fun e => service_of e <> Completion /\ service_of e <> Dialog) t.
Proof.
  intros JSON_parse w data Hm Ha Hf.
  set (s := screen w) in *. set (w0 := with_screen (cleared s) w).
  assert (Hf0 : fst (fetchHistoricalData JSON_parse (trim (hsnCode s))
                       (toUpperCase (trim (country s))) w0) = Ok data).
  { rewrite <- Hf. apply fetchHistoricalData_agree. reflexivity. }
  destruct (gather_found JSON_parse s w0 data Hf0)
    as [sims [w2 [t [Hg [Hd [Hsp [_ [_ [Ht Hall]]]]]]]]].
  assert (Hsims : similarProducts (screen w2) = fst sims).
  { destruct (useEmbeddings s); [exact Hsp|].
    destruct Hsp as [-> ->]. reflexivity. }
  unfold handleAnalyze. unfold bind at 1. unfold get_screen at 1. fold s.
  rewrite Hm. unfold bind at 1. rewrite reset_screen_run. fold s. fold w0.
  unfold try_finally.
  match goal with
  | |- context [try_catch ?m ?h w0] =>
      assert (Hin : try_catch m h w0
                    = (Ok tt,
                       snd (setResult
                              (analyzeLocalData data (trim (product s))
                                 (trim (country s)) (trim (hsnCode s))
                                 (fst sims)) w2)))
  end.
  { apply try_catch_ok. rewrite (bind_ok _ _ _ _ _ _ _ Hg). rewrite Ha.
    reflexivity. }
  rewrite Hin, finish_run. eexists. exists t. split; [reflexivity|].
  cbn [screen with_screen settled snd setResult set_screen put
       ui_historicalData result similarProducts trace].
  split; [exact Hd|]. split; [rewrite Hsims; reflexivity|].
  split; [exact Ht|].
  eapply Forall_impl; [|exact Hall]. intros e He. cbv beta in He.
  destruct (service_of e); try discriminate; split; discriminate.
Qed.

Lemma handleAnalyze_local_report_witness :
  exists w' t,
    handleAnalyze Sample.no_json SampleH.local_search = (Ok tt, w') /\
    ui_historicalData (screen w') = Sample6.data /\
    result (screen w')
    = analyzeLocalData Sample6.data "Tea" "australia" "902"
        (similarProducts (screen w')) /\
    trace w' = t /\
    Forall (fun e => service_of e <> Completion /\ service_of e <> Dialog) t.
Proof.
  apply (handleAnalyze_local_report Sample.no_json SampleH.local_search
           Sample6.data); vm_compute; reflexivity.
Defined.

(** X23. All fields filled in, but the price table gives no records for
    the request: [handleAnalyze] looks the code up twice, raises one
    dialog, "No Data Found" or "No Data Available" and never "Data
    Error", and shows "No historical data available for analysis." with
    no records, no prediction and no similar product.  Nothing else is
    called, whatever the switches. *)
Theorem handleAnalyze_no_data :
  forall (JSON_parse : string -> option JsValue) (w : World) (e : Thrown),
    missing_information (screen w) = false ->
    fst (fetchHistoricalData JSON_parse (trim (hsnCode (screen w)))
           (toUpperCase (trim (country (screen w)))) w) = Throw e ->
    exists w' title message,
      handleAnalyze JSON_parse w = (Ok tt, w') /\
      result (screen w') = NO_DATA /\
      ui_historicalData (screen w') = [] /\
      prediction (screen w') = "" /\
      similarProducts (screen w') = [] /\
      trace w'
      = (trace w ++ [EvSelectPrices (parseInt (trim (hsnCode (screen w))));
                     EvSelectPrices (parseInt (trim (hsnCode (screen w))));
                     EvAlert title message])%list /\
      (title = "No Data Found" \/ title = "No Data Available").
Proof.
  intros JSON_parse w e Hm Hf.
  set (s := screen w) in *. set (w0 := with_screen (cleared s) w).
  assert (Hf0 : fst (fetchHistoricalData JSON_parse (trim (hsnCode s))
                       (toUpperCase (trim (country s))) w0) = Throw e).
  { rewrite <- Hf. apply fetchHistoricalData_agree. reflexivity. }
  destruct (gather_missing JSON_parse s w0 e Hf0)
    as [title [message [w2 [Hg [Hscr [Ht Htitle]]]]]].
  unfold handleAnalyze. unfold bind at 1. unfold get_screen at 1. fold s.
  rewrite Hm. unfold bind at 1. rewrite reset_screen_run. fold s. fold w0.
  unfold try_finally.
  match goal with
  | |- context [try_catch ?m ?h w0] =>
      assert (Hin : try_catch m h w0 = (Ok tt, w2))
  end.
  { apply try_catch_ok. rewrite (bind_ok _ _ _ _ _ _ _ Hg). reflexivity. }
  rewrite Hin, finish_run. eexists. exists title, message.
  split; [reflexivity|].
  cbn [screen with_screen settled trace result ui_historicalData prediction
       similarProducts].
  rewrite Hscr. repeat split; try reflexivity; [exact Ht|exact Htitle].
Qed.

Lemma handleAnalyze_no_data_witness :
  exists w' title message,
    handleAnalyze Sample.no_json SampleH.no_market = (Ok tt, w') /\
    result (screen w') = NO_DATA /\
    ui_historicalData (screen w') = [] /\
    prediction (screen w') = "" /\
    similarProducts (screen w') = [] /\
    trace w' = [EvSelectPrices (Some 902); EvSelectPrices (Some 902);
                EvAlert title message] /\
    (title = "No Data Found" \/ title = "No Data Available").
Proof.
  eapply (handleAnalyze_no_data Sample.no_json SampleH.no_market);
    vm_compute; reflexivity.
Defined.

(** ** The completion service *)

Lemma post_completion_run (max_tokens : Z) (prompt : string) (w : World) :
  post_completion max_tokens prompt w
  = (groq_service w (tick w), after_call (EvGroq max_tokens prompt) w).
Proof. reflexivity. Qed.

Lemma analyzeWithEnhancedContext_run (historicalData : list HistoricalData)
  (productName country hsnCode : string)
  (similarResults : list SimilarProduct * list SimilarHistoricalData)
  (w : World) :
  analyzeWithEnhancedContext historicalData productName country hsnCode
    similarResults w
  = (match groq_service w (tick w) with
     | Ok content => Ok (or_str content "No response")
     | Throw cause => Throw (JsError "Failed to analyze with Groq" (Some cause))
     end,
     after_call (EvGroq 2000 (analysis_prompt historicalData productName country
                                hsnCode similarResults)) w).
Proof.
  unfold analyzeWithEnhancedContext, try_catch. unfold bind at 1.
  rewrite post_completion_run. destruct (groq_service w (tick w)); reflexivity.
Qed.

Lemma generateMarketPrediction_run (historicalData : list HistoricalData)
  (productName country : string) (similarProducts : list SimilarProduct)
  (w : World) :
  generateMarketPrediction historicalData productName country similarProducts w
  = (match groq_service w (tick w) with
     | Ok content => Ok (or_str content "No prediction available")
     | Throw cause => Throw (JsError "Failed to generate prediction" (Some cause))
     end,
     after_call (EvGroq 400 (prediction_prompt historicalData productName country
                               similarProducts)) w).
Proof.
  unfold generateMarketPrediction, try_catch. unfold bind at 1.
  rewrite post_completion_run. destruct (groq_service w (tick w)); reflexivity.
Qed.

Lemma or_str_nonempty (a : option string) (d : string) :
  d <> "" -> or_str a d <> "".
Proof.
  intros Hd. unfold or_str. destruct a as [s|]; [|exact Hd].
  destruct (String.eqb s "") eqn:E; [exact Hd|].
  apply String.eqb_neq. exact E.
Qed.

(** X24. [analyzeWithEnhancedContext] makes one request of at most 2000
    tokens and changes nothing else.  The text that it returns is never
    empty: an empty or missing answer becomes "No response".  A failure
    is thrown with the cause attached, and its text is "Error: Failed to
    analyze with Groq" whatever the cause. *)
Theorem analyzeWithEnhancedContext_outcome :
  forall (historicalData : list HistoricalData)
         (productName country hsnCode : string)
         (similarResults : list SimilarProduct * list SimilarHistoricalData)
         (w : World),
    snd (analyzeWithEnhancedContext historicalData productName country hsnCode
           similarResults w)
    = after_call (EvGroq 2000 (analysis_prompt historicalData productName
                                 country hsnCode similarResults)) w /\
    match fst (analyzeWithEnhancedContext historicalData productName country
                 hsnCode similarResults w) with
    | Ok text =>
        text <> "" /\
        exists content,
          groq_service w (tick w) = Ok content /\
          (text = "No response" \/ content = Some text)
    | Throw e =>
        to_string e = "Error: Failed to analyze with Groq" /\
        exists cause,
          groq_service w (tick w) = Throw cause /\
          e = JsError "Failed to analyze with Groq" (Some cause)
    end.
Proof.
  intros. rewrite analyzeWithEnhancedContext_run. split; [reflexivity|].
  cbn [fst]. destruct (groq_service w (tick w)) as [content|cause].
  - split; [apply or_str_nonempty; discriminate|].
    exists content. split; [reflexivity|].
    unfold or_str. destruct content as [s|]; [|left; reflexivity].
    destruct (String.eqb s ""); [left|right]; reflexivity.
  - split; [reflexivity|]. exists cause. split; reflexivity.
Qed.

(** X25. [generateMarketPrediction] makes one request of at most 400
    tokens and changes nothing else.  The text that it returns is never
    empty: an empty or missing answer becomes "No prediction available".
    A failure is thrown as "Failed to generate prediction" with the cause
    attached. *)
Theorem generateMarketPrediction_outcome :
  forall (historicalData : list HistoricalData) (productName country : string)
         (similarProducts : list SimilarProduct) (w : World),
    snd (generateMarketPrediction historicalData productName country
           similarProducts w)
    = after_call (EvGroq 400 (prediction_prompt historicalData productName
                                country similarProducts)) w /\
    match fst (generateMarketPrediction historicalData productName country
                 similarProducts w) with
    | Ok text =>
        text <> "" /\
        exists content,
          groq_service w (tick w) = Ok content /\
          (text = "No prediction available" \/ content = Some text)
    | Throw e =>
        exists cause,
          groq_service w (tick w) = Throw cause /\
          e = JsError "Failed to generate prediction" (Some cause)
    end.
Proof.
  intros. rewrite generateMarketPrediction_run. split; [reflexivity|].
  cbn [fst]. destruct (groq_service w (tick w)) as [content|cause].
  - split; [apply or_str_nonempty; discriminate|].
    exists content. split; [reflexivity|].
    unfold or_str. destruct content as [s|]; [|left; reflexivity].
    destruct (String.eqb s ""); [left|right]; reflexivity.
  - exists cause. split; reflexivity.
Qed.

Lemma respects_screen (s : Screen) (R : World -> World -> Prop) :
  Framing R -> ScreenFraming R -> StoreFraming R -> respects s R.
Proof.
  intros HF HS HD.
  assert (Hset : forall f, frame R (set_screen f))
    by (intros f; apply frame_set_screen; assumption).
  split; [exact HF|]. split; [intros v; apply Hset|].
  split; [intros v; apply Hset|]. split.
  - intros _. split; [exact HD|].
    split; [|split]; intros v; apply Hset.
  - intros _ v. apply Hset.
Qed.

(** X26. Remote mode, all fields filled in, the price table has the
    records, and the completion service refuses every request:
    [handleAnalyze] still shows the records, asks for the analysis once
    and for no prediction, raises the "Analysis Error" dialog, and the
    result is "Analysis failed: Error: Failed to analyze with Groq"; the
    cause of the refusal is not shown. *)
Theorem handleAnalyze_completion_down :
  forall (JSON_parse : string -> option JsValue) (w : World)
         (data : list HistoricalData),
    missing_information (screen w) = false ->
    useAI (screen w) = true ->
    fst (fetchHistoricalData JSON_parse (trim (hsnCode (screen w)))
           (toUpperCase (trim (country (screen w)))) w) = Ok data ->
    (forall n, exists cause, groq_service w n = Throw cause) ->
    exists w' t prompt message,
      handleAnalyze JSON_parse w = (Ok tt, w') /\
      ui_historicalData (screen w') = data /\
      result (screen w') = "Analysis failed: Error: Failed to analyze with Groq" /\
      prediction (screen w') = "" /\
      trace w' = (trace w ++ t ++ [EvGroq 2000 prompt;
                                   EvAlert "Analysis Error" message])%list /\
      Forall (fun e => service_of e <> Completion /\ service_of e <> Dialog) t.
Proof.
  intros JSON_parse w data Hm Ha Hf Hdown.
  set (s := screen w) in *. set (w0 := with_screen (cleared s) w).
  assert (Hf0 : fst (fetchHistoricalData JSON_parse (trim (hsnCode s))
                       (toUpperCase (trim (country s))) w0) = Ok data).
  { rewrite <- Hf. apply fetchHistoricalData_agree. reflexivity. }
  destruct (gather_found JSON_parse s w0 data Hf0)
    as [sims [w2 [t [Hg [Hd [_ [_ [Hp [Ht Hall]]]]]]]]].
  assert (Hserv : groq_service w2 = groq_service w).
  { pose proof (@frame_gather same_services _ JSON_parse s
                  (respects_screen s same_services _ _ _) w0) as Hfr.
    rewrite Hg in Hfr. destruct Hfr as [_ [_ [_ [Hgq _]]]]. exact Hgq. }
  destruct (Hdown (tick w2)) as [cause Hcause].
  set (prompt := analysis_prompt data (trim (product s)) (trim (country s))
                   (trim (hsnCode s)) sims).
  set (e := JsError "Failed to analyze with Groq" (Some cause)).
  unfold handleAnalyze. unfold bind at 1. unfold get_screen at 1. fold s.
  rewrite Hm. unfold bind at 1. rewrite reset_screen_run. fold s. fold w0.
  unfold try_finally.
  match goal with
  | |- context [try_catch ?m ?h w0] =>
      assert (Hin : try_catch m h w0
                    = h e (after_call (EvGroq 2000 prompt) w2));
      [apply (try_catch_throw unit m h w0 (after_call (EvGroq 2000 prompt) w2) e)|]
  end.
  { rewrite (bind_ok _ _ _ _ _ _ _ Hg). rewrite Ha.
    unfold analyze_remote. apply bind_throw.
    rewrite analyzeWithEnhancedContext_run, Hserv, Hcause. reflexivity. }
  rewrite Hin. cbv beta.
  eexists. exists t, prompt, (analysis_error_message e).
  split; [reflexivity|]. cbn. rewrite Ht, <- !app_assoc.
  repeat split; try assumption.
  eapply Forall_impl; [|exact Hall]. intros ev Hev. cbv beta in Hev.
  destruct (service_of ev); try discriminate; split; discriminate.
Qed.

Lemma handleAnalyze_completion_down_witness :
  exists w' t prompt message,
    handleAnalyze Sample.no_json Sample6.down = (Ok tt, w') /\
    ui_historicalData (screen w') = Sample6.data /\
    result (screen w') = "Analysis failed: Error: Failed to analyze with Groq" /\
    prediction (screen w') = "" /\
    trace w' = (t ++ [EvGroq 2000 prompt;
                      EvAlert "Analysis Error" message])%list /\
    Forall (fun e => service_of e <> Completion /\ service_of e <> Dialog) t.
Proof.
  apply (handleAnalyze_completion_down Sample.no_json Sample6.down Sample6.data);
    try (vm_compute; reflexivity).
  intros n. exists Sample6.too_many_requests. reflexivity.
Defined.
